(** * Mobile endpoints for "Invoice Form": a shallow embedding

    The handlers of [api/invoice.py] and [api/utils.py] are thin adapters over
    the host framework.  Python values are embedded as [pyval] (floats are
    IEEE binary64, as in CPython), handlers as computations in a small
    state-and-exception monad over the framework's world, and every framework
    or runtime service the handlers call is a field of the [Framework]
    interface, so that the theorems hold for every implementation of it.
    [Fixture] is a small in-memory implementation on which the handlers are
    run on concrete requests. *)

From Stdlib Require Import ZArith String Ascii List Bool Lia.
From Stdlib Require Import PrimFloat SpecFloat FloatOps DecimalString.
Import ListNotations.

#[local] Set Warnings "-register-all".
#[local] Open Scope Z_scope.
#[local] Open Scope string_scope.

(* ================================================================== *)
(** ** Python values *)

Inductive pyval : Type :=
| PNone
| PBool (b : bool)
| PInt (z : Z)
| PFloat (f : float)
| PStr (s : string)
| PList (l : list pyval)
| PDict (d : list (string * pyval)).

(** A dict (also a [frappe._dict] row and the field table of a document):
    insertion-ordered, one binding per key. *)
Definition pydict : Type := list (string * pyval).

Fixpoint dict_get (d : pydict) (k : string) : option pyval :=
  match d with
  | [] => None
  | (k', v) :: d' => if String.eqb k' k then Some v else dict_get d' k
  end.

(** [d[k] = v]: replaces the binding in place, or adds it at the end. *)
Fixpoint dict_set (d : pydict) (k : string) (v : pyval) : pydict :=
  match d with
  | [] => [(k, v)]
  | (k', v') :: d' =>
      if String.eqb k' k then (k', v) :: d' else (k', v') :: dict_set d' k v
  end.

(** [d.get(k)], and attribute access [r.k] on a [frappe._dict] row or on a
    document field: [None] when the key is not there. *)
Definition attr (d : pydict) (k : string) : pyval :=
  match dict_get d k with Some v => v | None => PNone end.

(** [getattr(o, k, default)] on a document or child row. *)
Definition getattr (o : pyval) (k : string) (default : pyval) : pyval :=
  match o with
  | PDict d => match dict_get d k with Some v => v | None => default end
  | _ => default
  end.

(** Truth value of a float: zero (of either sign) is false, NaN is true. *)
Definition float_truthy (f : float) : bool := negb (PrimFloat.eqb f 0%float).

(** [bool(v)]. *)
Definition truthy (v : pyval) : bool :=
  match v with
  | PNone => false
  | PBool b => b
  | PInt z => negb (Z.eqb z 0)
  | PFloat f => float_truthy f
  | PStr s => negb (String.eqb s "")
  | PList l => match l with [] => false | _ => true end
  | PDict d => match d with [] => false | _ => true end
  end.

(** [a or b]. *)
Definition py_or (a b : pyval) : pyval := if truthy a then a else b.

(** [v != 0] for the integer literal 0. *)
Definition py_ne_zero (v : pyval) : bool :=
  match v with
  | PBool b => b
  | PInt z => negb (Z.eqb z 0)
  | PFloat f => negb (PrimFloat.eqb f 0%float)
  | _ => true
  end.

(** The value under key [k] of a response object. *)
Definition field (r : pyval) (k : string) : option pyval :=
  match r with
  | PDict d => dict_get d k
  | _ => None
  end.

(** [needle in hay] on strings. *)
Fixpoint str_contains (needle hay : string) : bool :=
  String.prefix needle hay
  || match hay with
     | EmptyString => false
     | String _ hay' => str_contains needle hay'
     end.

(* ================================================================== *)
(** ** Exceptions and the handler monad *)

Inductive exn : Type :=
| PermissionError (msg : string)     (* frappe.PermissionError *)
| ValidationError (msg : string)     (* what frappe.throw raises by default *)
| DoesNotExistError (msg : string)
| AttributeError (msg : string)
| TypeError (msg : string)
| ValueError (msg : string)
| OverflowError (msg : string)
| FrameworkError (msg : string).     (* raised inside a framework call *)

Inductive result (A : Type) : Type :=
| Ok (a : A)
| Raise (e : exn).
Arguments Ok {A} a.
Arguments Raise {A} e.

(** A handler runs against the framework's world [W] (database, session and
    request) and ends with a value or an exception, and the world it leaves. *)
Definition M (W A : Type) : Type := W -> result A * W.

Definition ret {W A} (a : A) : M W A := fun w => (Ok a, w).

Definition throw {W A} (e : exn) : M W A := fun w => (Raise e, w).

Definition bind {W A B} (c : M W A) (k : A -> M W B) : M W B :=
  fun w => match c w with
           | (Ok a, w') => k a w'
           | (Raise e, w') => (Raise e, w')
           end.

(** A framework call that only reads the world. *)
Definition read {W A} (f : W -> A) : M W A := fun w => (Ok (f w), w).

(** A framework call that reads the world and may raise. *)
Definition try_read {W A} (f : W -> result A) : M W A := fun w => (f w, w).

(** A pure computation that may raise. *)
Definition lift {W A} (r : result A) : M W A := fun w => (r, w).

(** The handler ends with the permission error and leaves the world as it
    found it. *)
Definition refused {W A} (h : M W A) (w : W) : Prop :=
  h w = (Raise (PermissionError "Not permitted"), w).

Declare Scope handler_scope.
Delimit Scope handler_scope with handler.
Notation "x <- c ;; k" := (bind c (fun x => k))
  (at level 61, c at next level, right associativity) : handler_scope.
Notation "c ;;; k" := (bind c (fun _ => k))
  (at level 61, right associativity) : handler_scope.

Definition rbind {A B} (r : result A) (k : A -> result B) : result B :=
  match r with Ok a => k a | Raise e => Raise e end.

(** A list comprehension whose element expression may raise. *)
Fixpoint map_result {A B} (f : A -> result B) (l : list A) : result (list B) :=
  match l with
  | [] => Ok []
  | a :: l' => rbind (f a) (fun b => rbind (map_result f l') (fun bs => Ok (b :: bs)))
  end.

(** Iterating a value with [for x in v]: the elements of a list, the keys of
    a dict, the characters of a string. *)
Definition py_iter (v : pyval) : result (list pyval) :=
  match v with
  | PList l => Ok l
  | PDict d => Ok (map (fun kv => PStr (fst kv)) d)
  | PStr s => Ok (map (fun c => PStr (String c EmptyString)) (list_ascii_of_string s))
  | _ => Raise (TypeError "object is not iterable")
  end.

(** Calling [.get] needs a dict. *)
Definition as_dict (v : pyval) : result pydict :=
  match v with
  | PDict d => Ok d
  | _ => Raise (AttributeError "object has no attribute 'get'")
  end.

(** The float nearest to an integer (round to nearest, ties to even). *)
Definition float_of_Z (z : Z) : float := SF2Prim (binary_normalize prec emax z 0 false).

(** [float(n)] for an integer: fails when the result would not be finite. *)
Definition float_of_int (z : Z) : result float :=
  let f := float_of_Z z in
  if PrimFloat.is_infinity f then Raise (OverflowError "int too large to convert to float")
  else Ok f.

(** Integers (booleans included) and floats, for arithmetic. *)
Definition as_number (v : pyval) : option (Z + float) :=
  match v with
  | PInt z => Some (inl z)
  | PBool b => Some (inl (if b then 1 else 0))
  | PFloat f => Some (inr f)
  | _ => None
  end.

Definition repeat_string (s : string) (n : Z) : string :=
  String.concat "" (repeat s (Z.to_nat n)).

Definition repeat_list (l : list pyval) (n : Z) : list pyval :=
  List.concat (repeat l (Z.to_nat n)).

(** [a * b]: numeric product, or repetition of a string or list. *)
Definition py_mul (a b : pyval) : result pyval :=
  match as_number a, as_number b with
  | Some (inl x), Some (inl y) => Ok (PInt (x * y))
  | Some (inl x), Some (inr g) =>
      rbind (float_of_int x) (fun f => Ok (PFloat (PrimFloat.mul f g)))
  | Some (inr f), Some (inl y) =>
      rbind (float_of_int y) (fun g => Ok (PFloat (PrimFloat.mul f g)))
  | Some (inr f), Some (inr g) => Ok (PFloat (PrimFloat.mul f g))
  | Some (inl n), None =>
      match b with
      | PStr s => Ok (PStr (repeat_string s n))
      | PList l => Ok (PList (repeat_list l n))
      | _ => Raise (TypeError "unsupported operand type(s) for *")
      end
  | None, Some (inl n) =>
      match a with
      | PStr s => Ok (PStr (repeat_string s n))
      | PList l => Ok (PList (repeat_list l n))
      | _ => Raise (TypeError "unsupported operand type(s) for *")
      end
  | _, _ => Raise (TypeError "unsupported operand type(s) for *")
  end.

(* ================================================================== *)
(** ** The host framework *)

(** The keyword arguments of [frappe.get_all]. *)
Record query : Type := {
  q_doctype : string;
  q_fields : list string;
  q_filters : list pyval;
  q_or_filters : pyval;
  q_order_by : string;
  q_start : Z;
  q_page_length : Z;
  q_ignore_permissions : option bool   (* [None]: the keyword is not passed *)
}.

(** Everything the handlers call and this repository does not define:
    [frappe.utils], the permission oracle, the query executor, the document
    mutation primitives, and the Python built-ins whose full definition
    (Unicode case mapping and stripping, numeric and JSON parsing) is the
    runtime's.  Reads take the world; mutations return the new one. *)
Class Framework (W : Type) : Type := {
  (* frappe.utils *)
  cint : pyval -> Z;
  cstr : pyval -> string;
  flt : pyval -> float;
  nowtime : W -> string;
  (* Python runtime *)
  str_strip : string -> string;
  str_lower : string -> string;
  float_of_string : string -> option float;
  json_loads : string -> result pyval;
  (* the request *)
  form_dict : W -> pydict;
  (* permission oracle *)
  has_permission : W -> string -> string -> bool;
  doc_has_permission : W -> pydict -> string -> bool;
  (* query executor *)
  get_all : W -> query -> list pydict;
  db_count : W -> string -> list pyval -> Z;
  get_doc : W -> string -> string -> result pydict;
  (* document mutation primitives *)
  doc_save : pydict -> bool -> W -> result pydict * W;
  doc_submit : pydict -> W -> result pydict * W;
  doc_insert : pydict -> bool -> W -> result pydict * W;
  delete_doc : string -> string -> bool -> W -> result unit * W;
  db_commit : W -> result unit * W
}.

(** [float(v)]. *)
Definition py_float {W} {fw : Framework W} (v : pyval) : result float :=
  match v with
  | PFloat f => Ok f
  | PInt z => float_of_int z
  | PBool b => Ok (if b then 1%float else 0%float)
  | PStr s =>
      match float_of_string s with
      | Some f => Ok f
      | None => Raise (ValueError "could not convert string to float")
      end
  | _ => Raise (TypeError "float() argument must be a string or a real number")
  end.

(** A filter triple [[field, op, value]]. *)
Definition filter3 (field op : string) (value : pyval) : pyval :=
  PList [PStr field; PStr op; value].

(** A filter on another doctype's column, [[doctype, field, op, value]]. *)
Definition filter4 (doctype field op : string) (value : pyval) : pyval :=
  PList [PStr doctype; PStr field; PStr op; value].

(* ================================================================== *)
(** ** api/invoice.py *)

Section InvoiceHandlers.
Context {W : Type} {fw : Framework W}.
#[local] Open Scope handler_scope.

(** The constant permission object of a list row. *)
Definition list_permission : pyval :=
  PDict [("can_update", PBool true); ("can_delete", PBool true);
         ("can_submit", PBool true); ("locked", PBool false)].

(** One element of ["invoices"] (the body of the shaping loop). *)
Definition shape_invoice (r : pydict) : result pyval :=
  rbind (py_float (py_or (attr r "grand_total") (PInt 0))) (fun amount =>
  Ok (PDict [("id", attr r "name");
             ("invoiceNumber", attr r "name");
             ("supplierId", py_or (attr r "supplier") (PStr ""));
             ("supplierName", py_or (attr r "supplier_name") (PStr ""));
             ("date", PStr (cstr (attr r "posting_date")));
             ("amount", PFloat amount);
             ("permission", list_permission)])).

(** Every row's [grand_total] is something [float] accepts. *)
Definition amounts_convert (rows : list pydict) : Prop :=
  Forall (fun r => exists v, shape_invoice r = Ok v) rows.

(** The filters built from the date and supplier parameters. *)
Definition invoice_filters (start_date end_date supplier : pyval) : list pyval :=
  (if truthy start_date then [filter3 "posting_date" ">=" (PStr (cstr start_date))] else [])
  ++ (if truthy end_date then [filter3 "posting_date" "<=" (PStr (cstr end_date))] else [])
  ++ (if truthy supplier then [filter3 "supplier" "=" (PStr (cstr supplier))] else []).

(** The in-memory post-filter applied when [search] is given. *)
Definition search_rows (search : pyval) (rows : list pydict) : list pydict :=
  if truthy search then
    let s := str_lower (str_strip (cstr search)) in
    filter (fun r =>
              str_contains s (str_lower (cstr (attr r "name")))
              || str_contains s
                   (str_lower (cstr (py_or (attr r "supplier_name") (PStr "")))))
           rows
  else rows.

Definition invoice_query (filters : list pyval) (start page_size : Z) : query :=
  {| q_doctype := "Invoice Form";
     q_fields := ["name"; "posting_date"; "supplier"; "supplier_name"; "grand_total"];
     q_filters := filters;
     q_or_filters := PNone;
     q_order_by := "posting_date desc, creation desc";
     q_start := start;
     q_page_length := page_size;
     q_ignore_permissions := Some false |}.

Definition get_invoices
    (start_date end_date supplier page page_size search : pyval) : M W pyval :=
  let doctype := "Invoice Form" in
  permitted <- read (fun w => has_permission w doctype "read") ;;
  if negb permitted then throw (PermissionError "Not permitted") else
  let page := Z.max 1 (cint page) in
  let page_size := Z.max 1 (Z.min 100 (cint page_size)) in
  let start := (page - 1) * page_size in
  let filters := invoice_filters start_date end_date supplier in
  rows <- read (fun w => get_all w (invoice_query filters start page_size)) ;;
  let rows := search_rows search rows in
  total_count <- read (fun w => db_count w doctype filters) ;;
  invoices <- lift (map_result shape_invoice rows) ;;
  let has_more := Z.ltb (start + Z.of_nat (length invoices)) total_count in
  ret (PDict [("invoices", PList invoices);
              ("page", PInt page);
              ("page_size", PInt page_size);
              ("total_count", PInt total_count);
              ("has_more", PBool has_more)]).

(** [status_map.get(doc.docstatus or 0, "draft")]: a lookup by hash and
    equality, so [True] and [1.0] find the key [1]; an unhashable key raises. *)
Definition status_of (docstatus : pyval) : result string :=
  match py_or docstatus (PInt 0) with
  | PInt 0 => Ok "draft"
  | PInt 1 => Ok "submitted"
  | PInt 2 => Ok "cancelled"
  | PBool true => Ok "submitted"
  | PFloat f =>
      if PrimFloat.eqb f 1%float then Ok "submitted"
      else if PrimFloat.eqb f 2%float then Ok "cancelled"
      else Ok "draft"
  | PList _ | PDict _ => Raise (TypeError "unhashable type")
  | _ => Ok "draft"
  end.

(** One element of ["items"] in the detail view. *)
Definition shape_detail_item (it : pyval) : result pyval :=
  rbind (py_float (py_or (getattr it "qty" (PInt 0)) (PInt 0))) (fun quantity =>
  rbind (py_float (py_or (getattr it "price" (PInt 0)) (PInt 0))) (fun price =>
  rbind (py_float (py_or (getattr it "total" (PInt 0)) (PInt 0))) (fun total =>
  Ok (PDict [("id", PStr (cstr (getattr it "name" (PStr ""))));
             ("name", PStr (cstr (py_or (getattr it "item_name" (PStr ""))
                                        (getattr it "item_code" (PStr "")))));
             ("quantity", PFloat quantity);
             ("price", PFloat price);
             ("total", PFloat total);
             ("customerId", PStr (cstr (getattr it "customer" (PStr ""))));
             ("customerName", PStr (cstr (getattr it "customer" (PStr ""))))])))).

Definition get_invoice_details (name : string) : M W pyval :=
  let doctype := "Invoice Form" in
  if String.eqb name "" then throw (ValidationError "Missing invoice name") else
  doc <- try_read (fun w => get_doc w doctype name) ;;
  permitted <- read (fun w => doc_has_permission w doc "read") ;;
  if negb permitted then throw (PermissionError "Not permitted") else
  status <- lift (status_of (attr doc "docstatus")) ;;
  let is_locked := truthy (getattr (PDict doc) "lock_update" (PBool false)) in
  rows <- lift (py_iter (getattr (PDict doc) "items" (PList []))) ;;
  items <- lift (map_result shape_detail_item rows) ;;
  amount <- lift (py_float (py_or (getattr (PDict doc) "grand_total" (PInt 0)) (PInt 0))) ;;
  tax <- lift (py_float (py_or (getattr (PDict doc) "total_commissions_and_taxes" (PInt 0))
                               (PInt 0))) ;;
  ret (PDict [("id", PStr (cstr (getattr (PDict doc) "name" (PStr name))));
              ("invoiceNumber", PStr (cstr (getattr (PDict doc) "name" (PStr name))));
              ("supplierId", PStr (cstr (getattr (PDict doc) "supplier" (PStr ""))));
              ("supplierName", PStr (cstr (getattr (PDict doc) "supplier_name" (PStr ""))));
              ("date", PStr (cstr (getattr (PDict doc) "posting_date" (PStr ""))));
              ("amount", PFloat amount);
              ("status", PStr status);
              ("is_locked", PBool is_locked);
              ("items", PList items);
              ("tax", PFloat tax);
              ("payments", PList []);
              ("notes", PStr (cstr (getattr (PDict doc) "remarks" (PStr ""))));
              ("customer", PStr (cstr (getattr (PDict doc) "customer" (PStr ""))));
              ("customer_name", PStr (cstr (getattr (PDict doc) "customer" (PStr ""))));
              ("permission",
               PDict [("can_update", PBool true); ("can_delete", PBool true);
                      ("can_submit", PBool true); ("locked", PBool is_locked)])]).

(** [doc.append(table, row)]. *)
Definition doc_append (d : pydict) (table : string) (row : pydict) : pydict :=
  match attr d table with
  | PList rows => dict_set d table (PList (rows ++ [PDict row]))
  | _ => dict_set d table (PList [PDict row])
  end.

(** The child row [update_invoice] builds from one payload item. *)
Definition updated_row (v : pyval) : result pydict :=
  rbind (as_dict v) (fun it =>
  let qty := py_or (attr it "qty") (py_or (attr it "quantity") (PInt 0)) in
  let price := py_or (attr it "price") (PInt 0) in
  rbind (if truthy (attr it "total") then Ok (attr it "total") else py_mul qty price)
        (fun total =>
  Ok [("item_code", py_or (attr it "item_code") PNone);
      ("item_name", py_or (attr it "item_name") PNone);
      ("qty", qty);
      ("price", price);
      ("total", total);
      ("customer", py_or (attr it "customer") (py_or (attr it "customerId") (PStr "")))])).

Fixpoint append_updated_rows (doc : pydict) (items : list pyval) : result pydict :=
  match items with
  | [] => Ok doc
  | v :: rest =>
      rbind (updated_row v) (fun row => append_updated_rows (doc_append doc "items" row) rest)
  end.

(** The in-memory edits [update_invoice] makes before saving. *)
Definition apply_update (doc payload : pydict) : result pydict :=
  let doc := if truthy (attr payload "posting_date")
             then dict_set doc "posting_date" (attr payload "posting_date") else doc in
  let doc := if truthy (attr payload "supplier")
             then dict_set doc "supplier" (attr payload "supplier") else doc in
  let doc := if truthy (attr payload "supplier_name")
             then dict_set doc "supplier_name" (attr payload "supplier_name") else doc in
  match attr payload "items" with
  | PList items => append_updated_rows (dict_set doc "items" (PList [])) items
  | _ => Ok doc
  end.

Definition update_invoice (name : string) (data : pyval) : M W pyval :=
  if String.eqb name "" then throw (ValidationError "Missing invoice name") else
  let doctype := "Invoice Form" in
  doc <- try_read (fun w => get_doc w doctype name) ;;
  permitted <- read (fun w => doc_has_permission w doc "write") ;;
  if negb permitted then throw (PermissionError "Not permitted") else
  form <- read form_dict ;;
  payload <- lift (as_dict (py_or data (py_or (PDict form) (PDict [])))) ;;
  doc <- lift (apply_update doc payload) ;;
  doc <- doc_save doc false ;;
  db_commit ;;;
  ret (PDict [("name", PStr (cstr (attr doc "name")))]).

Definition submit_invoice (name : string) : M W pyval :=
  if String.eqb name "" then throw (ValidationError "Missing invoice name") else
  let doctype := "Invoice Form" in
  doc <- try_read (fun w => get_doc w doctype name) ;;
  permitted <- read (fun w => doc_has_permission w doc "submit") ;;
  if negb permitted then throw (PermissionError "Not permitted") else
  if py_ne_zero (attr doc "docstatus")
  then throw (ValidationError "Only draft invoices can be submitted") else
  doc <- doc_submit doc ;;
  db_commit ;;;
  ret (PDict [("name", PStr (cstr (attr doc "name")));
              ("docstatus", attr doc "docstatus")]).

Definition delete_invoice (name : string) : M W pyval :=
  if String.eqb name "" then throw (ValidationError "Missing invoice name") else
  let doctype := "Invoice Form" in
  doc <- try_read (fun w => get_doc w doctype name) ;;
  permitted <- read (fun w => doc_has_permission w doc "delete") ;;
  if negb permitted then throw (PermissionError "Not permitted") else
  delete_doc doctype name false ;;;
  db_commit ;;;
  ret (PDict [("deleted", PBool true)]).

(** [x or y] on two floats. *)
Definition float_or (x y : float) : float := if float_truthy x then x else y.

(** The body of the totals loop of [create_invoice_form]: the item as the
    loop leaves it (it is updated in place) and its line total. *)
Definition total_item (it : pydict) : pydict * float :=
  let qty := flt (py_or (attr it "qty") (py_or (attr it "quantity") (PInt 0))) in
  let price := flt (py_or (attr it "price") (PInt 0)) in
  let it := if negb (truthy (attr it "item_code")) && truthy (attr it "item_name")
            then dict_set it "item_code" (attr it "item_name") else it in
  let line_total := float_or (flt (attr it "total")) (PrimFloat.mul qty price) in
  (dict_set it "total" (PFloat line_total), line_total).

Fixpoint total_items (items : list pyval) (grand_total : float)
  : result (list pydict * float) :=
  match items with
  | [] => Ok ([], grand_total)
  | v :: rest =>
      rbind (as_dict v) (fun it =>
      let '(it', line_total) := total_item it in
      rbind (total_items rest (PrimFloat.add grand_total line_total)) (fun r =>
      Ok (it' :: fst r, snd r)))
  end.

(** The child row appended for one (already totalled) item. *)
Definition created_row (it : pydict) : pydict :=
  [("item_code", attr it "item_code");
   ("item_name", py_or (attr it "item_name") (attr it "item_code"));
   ("qty", PFloat (flt (py_or (attr it "qty") (py_or (attr it "quantity") (PInt 0)))));
   ("price", PFloat (flt (py_or (attr it "price") (PInt 0))));
   ("total", PFloat (flt (py_or (attr it "total") (PInt 0))));
   ("customer", py_or (attr it "customer") (PStr ""))].

(** [total_commissions_and_taxes] from the grand total and the two rates. *)
Definition commissions_and_taxes (grand_total commission_rate tax_rate : float) : float :=
  let total_commission :=
    PrimFloat.div (PrimFloat.mul grand_total commission_rate) 100%float in
  let taxes_on_commission :=
    PrimFloat.div (PrimFloat.mul total_commission tax_rate) 100%float in
  PrimFloat.add total_commission taxes_on_commission.

(** The dict handed to [frappe.get_doc]; the document is modelled by its
    field table. *)
Definition new_invoice_doc (posting_date : pyval) (posting_time : string)
    (supplier supplier_name : pyval)
    (pamper_commission grand_total total_commissions_and_taxes : float) : pydict :=
  [("doctype", PStr "Invoice Form");
   ("posting_date", posting_date);
   ("posting_time", PStr posting_time);
   ("is_draft", PInt 1);
   ("lock_update", PInt 1);
   ("supplier", supplier);
   ("supplier_name", supplier_name);
   ("pamper_commission", PFloat pamper_commission);
   ("grand_total", PFloat grand_total);
   ("total_commissions_and_taxes", PFloat total_commissions_and_taxes);
   ("items", PList []);
   ("commissions", PList [])].

(** [frappe.form_dict.get("data")], decoded when it is a string. *)
Definition request_data (form : pydict) : result pydict :=
  let data := attr form "data" in
  rbind (match data with
         | PStr s => json_loads (if String.eqb s "" then "{}" else s)
         | _ => Ok data
         end) (fun data =>
  as_dict (py_or data (PDict []))).

(** Everything [create_invoice_form] does before [doc.insert]: validation,
    totals, and the document with its items appended. *)
Definition prepare_invoice (form : pydict) (posting_time : string) : result pydict :=
  rbind (request_data form) (fun data =>
  let posting_date := attr data "posting_date" in
  let supplier := attr data "supplier" in
  if negb (truthy posting_date) || negb (truthy supplier)
  then Raise (ValidationError "Missing required fields: posting_date, supplier") else
  let supplier_name := py_or (attr data "supplier_name") (PStr "") in
  let items := py_or (attr data "items") (PList []) in
  let commission_rate := flt (py_or (attr data "commission_rate") (PInt 5)) in
  let tax_rate := flt (py_or (attr data "tax_rate") (PInt 15)) in
  let pamper_commission := flt (py_or (attr data "pamper_commission") (PInt 0)) in
  if negb (truthy items) then Raise (ValidationError "At least one item is required") else
  rbind (py_iter items) (fun items =>
  rbind (total_items items 0%float) (fun totalled =>
  let items := fst totalled in
  let grand_total := snd totalled in
  let doc := new_invoice_doc posting_date posting_time supplier supplier_name
               pamper_commission grand_total
               (commissions_and_taxes grand_total commission_rate tax_rate) in
  Ok (fold_left (fun doc it => doc_append doc "items" (created_row it)) items doc)))).

Definition created_item (r : pyval) : result pyval :=
  rbind (as_dict r) (fun r =>
  Ok (PDict [("item_code", attr r "item_code");
             ("item_name", attr r "item_name");
             ("qty", attr r "qty");
             ("price", attr r "price");
             ("total", attr r "total");
             ("commission", attr r "commission");
             ("customer", attr r "customer");
             ("couple_customer", attr r "couple_customer");
             ("has_commission_invoice", attr r "has_commission_invoice")])).

Definition created_commission (r : pyval) : result pyval :=
  rbind (as_dict r) (fun r =>
  Ok (PDict [("item", attr r "item");
             ("price", attr r "price");
             ("commission", attr r "commission");
             ("total_commission", attr r "total_commission");
             ("taxes", attr r "taxes");
             ("commission_total", attr r "commission_total")])).

(** The response built from the inserted document. *)
Definition created_response (doc : pydict) : result pyval :=
  rbind (py_iter (attr doc "items")) (fun rows =>
  rbind (map_result created_item rows) (fun items =>
  rbind (py_iter (attr doc "commissions")) (fun rows =>
  rbind (map_result created_commission rows) (fun commissions =>
  Ok (PDict [("name", attr doc "name");
             ("posting_date", attr doc "posting_date");
             ("supplier", attr doc "supplier");
             ("supplier_name", attr doc "supplier_name");
             ("grand_total", attr doc "grand_total");
             ("total_commissions_and_taxes", attr doc "total_commissions_and_taxes");
             ("pamper_commission", attr doc "pamper_commission");
             ("doctype", attr doc "doctype");
             ("items", PList items);
             ("commissions", PList commissions)]))))).

(** [nowtime()] only reads the clock, so it is read up front and passed to
    the preparation, which uses it when it builds the document. *)
Definition create_invoice_form : M W pyval :=
  form <- read form_dict ;;
  posting_time <- read nowtime ;;
  doc <- lift (prepare_invoice form posting_time) ;;
  doc <- doc_insert doc true ;;
  lift (created_response doc).

End InvoiceHandlers.

(* ================================================================== *)
(** ** api/utils.py *)

Section LookupHandlers.
Context {W : Type} {fw : Framework W}.
#[local] Open Scope handler_scope.

(** The [LIKE] pattern built from [search]. *)
Definition like_pattern (search : pyval) : pyval :=
  PStr ("%" ++ str_strip (cstr search) ++ "%").

Definition lookup_query (doctype : string) (fields : list string)
    (filters : list pyval) (or_filters : pyval) (order_by : string)
    (start page_length : Z) : query :=
  {| q_doctype := doctype;
     q_fields := fields;
     q_filters := filters;
     q_or_filters := or_filters;
     q_order_by := order_by;
     q_start := start;
     q_page_length := page_length;
     q_ignore_permissions := None |}.

(** [rows[:page_size]] for a positive [page_size]. *)
Definition take (page_size : Z) (rows : list pydict) : list pydict :=
  firstn (Z.to_nat page_size) rows.

Definition get_supplier (page page_size search : pyval) : M W pyval :=
  let doctype := "Supplier" in
  permitted <- read (fun w => has_permission w doctype "read") ;;
  if negb permitted then throw (PermissionError "Not permitted") else
  let page := Z.max 1 (cint page) in
  let page_size := Z.max 1 (Z.min 200 (cint page_size)) in
  let start := (page - 1) * page_size in
  let base_filters := [filter3 "is_farmer" "=" (PInt 1)] in
  let or_filters :=
    if truthy search then
      let s := like_pattern search in
      PList [filter4 "Supplier" "supplier_name" "like" s;
             filter4 "Supplier" "name" "like" s]
    else PNone in
  let fields := ["name as id"; "supplier_name as name"] in
  rows <- read (fun w => get_all w (lookup_query doctype fields base_filters or_filters
                                      "supplier_name asc, name asc" start (page_size + 1))) ;;
  let has_more := Z.gtb (Z.of_nat (length rows)) page_size in
  let rows := if has_more then take page_size rows else rows in
  let suppliers :=
    map (fun r => PDict [("id", py_or (attr r "id") (attr r "name"));
                         ("name", py_or (attr r "name")
                                    (py_or (attr r "supplier_name") (attr r "id")))])
        rows in
  ret (PDict [("suppliers", PList suppliers);
              ("page", PInt page);
              ("page_size", PInt page_size);
              ("has_more", PBool has_more)]).

Definition get_customer (page page_size search : pyval) : M W pyval :=
  let doctype := "Customer" in
  permitted <- read (fun w => has_permission w doctype "read") ;;
  if negb permitted then throw (PermissionError "Not permitted") else
  let page := Z.max 1 (cint page) in
  let page_size := Z.max 1 (Z.min 200 (cint page_size)) in
  let start := (page - 1) * page_size in
  let base_filters := [] in
  let or_filters :=
    if truthy search then
      let s := like_pattern search in
      PList [filter4 "Customer" "customer_name" "like" s;
             filter4 "Customer" "name" "like" s]
    else PNone in
  let fields := ["name as id"; "customer_name as name"] in
  rows <- read (fun w => get_all w (lookup_query doctype fields base_filters or_filters
                                      "customer_name asc, name asc" start (page_size + 1))) ;;
  let has_more := Z.gtb (Z.of_nat (length rows)) page_size in
  let rows := if has_more then take page_size rows else rows in
  let customers :=
    map (fun r => PDict [("id", py_or (attr r "id") (attr r "name"));
                         ("name", py_or (attr r "name")
                                    (py_or (attr r "customer_name") (attr r "id")))])
        rows in
  ret (PDict [("customers", PList customers);
              ("page", PInt page);
              ("page_size", PInt page_size);
              ("has_more", PBool has_more)]).

Definition get_items (page page_size search : pyval) : M W pyval :=
  let doctype := "Item" in
  permitted <- read (fun w => has_permission w doctype "read") ;;
  if negb permitted then throw (PermissionError "Not permitted") else
  let page := Z.max 1 (cint page) in
  let page_size := Z.max 1 (Z.min 200 (cint page_size)) in
  let start := (page - 1) * page_size in
  let base_filters := [filter3 "disabled" "=" (PInt 0)] in
  let or_filters :=
    if truthy search then
      let s := like_pattern search in
      PList [filter4 "Item" "item_name" "like" s;
             filter4 "Item" "name" "like" s;
             filter4 "Item" "item_code" "like" s]
    else PNone in
  let fields := ["name as id"; "item_name as name"] in
  rows <- read (fun w => get_all w (lookup_query doctype fields base_filters or_filters
                                      "item_name asc, name asc" start (page_size + 1))) ;;
  let has_more := Z.gtb (Z.of_nat (length rows)) page_size in
  let rows := if has_more then take page_size rows else rows in
  let items :=
    map (fun r => PDict [("id", py_or (attr r "id") (attr r "name"));
                         ("name", py_or (attr r "name") (attr r "id"));
                         ("price", PInt 0)])
        rows in
  ret (PDict [("items", PList items);
              ("page", PInt page);
              ("page_size", PInt page_size);
              ("has_more", PBool has_more)]).

End LookupHandlers.

(* ================================================================== *)
(** ** An in-memory framework

    A small implementation of [Framework], used to run the handlers on
    concrete requests.  It keeps, per doctype, the stored rows in the order
    and shape the handlers' queries return them; a query is answered with the
    window [[start, start + page_length)] of that list and a count with its
    length (filters, ordering and field aliases are taken as already applied
    to what is stored).  Its [frappe.utils] and built-ins cover [None],
    booleans, integers, floats and plain decimal literals
    ([[+-]digits[.digits]]); case mapping and stripping are ASCII. *)

Module Fixture.

Record world : Type := {
  tables : list (string * list pydict);   (* doctype, stored rows *)
  granted : list (string * string);       (* (doctype, ptype) the user holds *)
  request : pydict;                       (* frappe.form_dict *)
  clock : string;                         (* what nowtime() returns *)
  next_id : Z                             (* naming series counter *)
}.

Definition table (w : world) (doctype : string) : list pydict :=
  match find (fun t => String.eqb (fst t) doctype) (tables w) with
  | Some t => snd t
  | None => []
  end.

Definition set_table (w : world) (doctype : string) (rows : list pydict) : world :=
  {| tables := (doctype, rows)
               :: filter (fun t => negb (String.eqb (fst t) doctype)) (tables w);
     granted := granted w;
     request := request w;
     clock := clock w;
     next_id := next_id w |}.

(** [int(f)]: truncation toward zero; [None] for infinities and NaN. *)
Definition float_trunc (f : float) : option Z :=
  match Prim2SF f with
  | S754_zero _ => Some 0
  | S754_finite s m e =>
      let mag := if Z.leb 0 e then Zpos m * 2 ^ e else Zpos m / 2 ^ (- e) in
      Some (if s then - mag else mag)
  | _ => None
  end.

Definition digit_of (c : ascii) : option Z :=
  let n := Z.of_nat (nat_of_ascii c) in
  if Z.leb 48 n && Z.leb n 57 then Some (n - 48) else None.

(** Reads digits into [acc]; [frac] counts the digits read after the point
    ([None] before it).  Returns the digits as an integer and the number of
    fraction digits. *)
Fixpoint read_digits (s : string) (acc : Z) (frac : option Z) : option (Z * Z) :=
  match s with
  | EmptyString => Some (acc, match frac with Some k => k | None => 0 end)
  | String c s' =>
      if Ascii.eqb c "." then
        match frac with
        | None => read_digits s' acc (Some 0)
        | Some _ => None
        end
      else
        match digit_of c with
        | Some d =>
            read_digits s' (10 * acc + d)
              (match frac with Some k => Some (k + 1) | None => None end)
        | None => None
        end
  end.

Definition has_digit (s : string) : bool :=
  existsb (fun c => match digit_of c with Some _ => true | None => false end)
          (list_ascii_of_string s).

(** A plain decimal literal as a float: exact digits divided by a power of
    ten, which is the correctly rounded value while both are below 2^53. *)
Definition parse_float (s : string) : option float :=
  let '(neg, body) :=
    match s with
    | String "-" s' => (true, s')
    | String "+" s' => (false, s')
    | _ => (false, s)
    end in
  if negb (has_digit body) then None else
  match read_digits body 0 None with
  | Some (m, k) =>
      let f := PrimFloat.div (float_of_Z m) (float_of_Z (10 ^ k)) in
      Some (if neg then PrimFloat.opp f else f)
  | None => None
  end.

Definition remove_commas (s : string) : string :=
  string_of_list_ascii (filter (fun c => negb (Ascii.eqb c ",")) (list_ascii_of_string s)).

(** [float(v)] with this module's literal reader. *)
Definition fx_py_float (v : pyval) : result float :=
  match v with
  | PFloat f => Ok f
  | PInt z => float_of_int z
  | PBool b => Ok (if b then 1%float else 0%float)
  | PStr s =>
      match parse_float s with
      | Some f => Ok f
      | None => Raise (ValueError "could not convert string to float")
      end
  | _ => Raise (TypeError "float() argument must be a string or a real number")
  end.

(** [frappe.utils.flt]: commas dropped from a string, then [float], and 0.0
    on any failure. *)
Definition fx_flt (v : pyval) : float :=
  let v := match v with PStr s => PStr (remove_commas s) | _ => v end in
  match fx_py_float v with
  | Ok f => f
  | Raise _ => 0%float
  end.

(** [frappe.utils.cint]: [int(float(s))], and 0 on any failure. *)
Definition fx_cint (v : pyval) : Z :=
  match fx_py_float v with
  | Ok f => match float_trunc f with Some z => z | None => 0 end
  | Raise _ => 0
  end.

Definition string_of_Z (z : Z) : string := NilZero.string_of_int (Z.to_int z).

(** [frappe.utils.cstr] on the values it is applied to here. *)
Definition fx_cstr (v : pyval) : string :=
  match v with
  | PStr s => s
  | PNone => ""
  | PBool b => if b then "True" else "False"
  | PInt z => string_of_Z z
  | _ => ""
  end.

Definition is_space (c : ascii) : bool :=
  let n := nat_of_ascii c in
  Nat.eqb n 32 || (Nat.leb 9 n && Nat.leb n 13).

Fixpoint lstrip (s : string) : string :=
  match s with
  | String c s' => if is_space c then lstrip s' else s
  | EmptyString => EmptyString
  end.

Definition rev_string (s : string) : string :=
  string_of_list_ascii (rev (list_ascii_of_string s)).

Definition fx_strip (s : string) : string :=
  rev_string (lstrip (rev_string (lstrip s))).

Definition lower_ascii (c : ascii) : ascii :=
  let n := nat_of_ascii c in
  if Nat.leb 65 n && Nat.leb n 90 then ascii_of_nat (n + 32) else c.

Fixpoint fx_lower (s : string) : string :=
  match s with
  | EmptyString => EmptyString
  | String c s' => String (lower_ascii c) (fx_lower s')
  end.

(** Requests reach the handlers already decoded; only the empty object is
    decoded from text. *)
Definition fx_json_loads (s : string) : result pyval :=
  if String.eqb s "{}" then Ok (PDict [])
  else Raise (ValueError "JSONDecodeError").

Definition fx_has_permission (w : world) (doctype ptype : string) : bool :=
  existsb (fun g => String.eqb (fst g) doctype && String.eqb (snd g) ptype) (granted w).

Definition fx_doc_has_permission (w : world) (doc : pydict) (ptype : string) : bool :=
  fx_has_permission w (fx_cstr (attr doc "doctype")) ptype.

Definition fx_get_all (w : world) (q : query) : list pydict :=
  firstn (Z.to_nat (q_page_length q)) (skipn (Z.to_nat (q_start q)) (table w (q_doctype q))).

Definition fx_db_count (w : world) (doctype : string) (filters : list pyval) : Z :=
  Z.of_nat (length (table w doctype)).

Definition has_name (name : string) (d : pydict) : bool :=
  match attr d "name" with PStr s => String.eqb s name | _ => false end.

Definition fx_get_doc (w : world) (doctype name : string) : result pydict :=
  match find (has_name name) (table w doctype) with
  | Some d => Ok d
  | None => Raise (DoesNotExistError name)
  end.

(** Writes [d] over the stored document of the same name. *)
Definition store (d : pydict) (w : world) : world :=
  let doctype := fx_cstr (attr d "doctype") in
  set_table w doctype
    (map (fun d' => if has_name (fx_cstr (attr d "name")) d' then d else d')
         (table w doctype)).

Definition fx_doc_save (d : pydict) (ignore_permissions : bool) (w : world)
  : result pydict * world :=
  (Ok d, store d w).

Definition fx_doc_submit (d : pydict) (w : world) : result pydict * world :=
  let d := dict_set d "docstatus" (PInt 1) in
  (Ok d, store d w).

Definition fx_doc_insert (d : pydict) (ignore_permissions : bool) (w : world)
  : result pydict * world :=
  let doctype := fx_cstr (attr d "doctype") in
  let d := dict_set (dict_set d "name" (PStr ("INV-" ++ string_of_Z (next_id w))))
                    "docstatus" (PInt 0) in
  (Ok d,
   {| tables := tables (set_table w doctype (table w doctype ++ [d]));
      granted := granted w;
      request := request w;
      clock := clock w;
      next_id := next_id w + 1 |}).

Definition fx_delete_doc (doctype name : string) (ignore_permissions : bool) (w : world)
  : result unit * world :=
  (Ok tt, set_table w doctype (filter (fun d => negb (has_name name d)) (table w doctype))).

#[global] Instance framework : Framework world := {|
  cint := fx_cint;
  cstr := fx_cstr;
  flt := fx_flt;
  nowtime := clock;
  str_strip := fx_strip;
  str_lower := fx_lower;
  float_of_string := parse_float;
  json_loads := fx_json_loads;
  form_dict := request;
  has_permission := fx_has_permission;
  doc_has_permission := fx_doc_has_permission;
  get_all := fx_get_all;
  db_count := fx_db_count;
  get_doc := fx_get_doc;
  doc_save := fx_doc_save;
  doc_submit := fx_doc_submit;
  doc_insert := fx_doc_insert;
  delete_doc := fx_delete_doc;
  db_commit := fun w => (Ok tt, w)
|}.

(** *** Sample worlds and requests *)

Definition invoice (name date supplier supplier_name : string) (grand_total : float)
    (docstatus : Z) : pydict :=
  [("doctype", PStr "Invoice Form");
   ("name", PStr name);
   ("posting_date", PStr date);
   ("supplier", PStr supplier);
   ("supplier_name", PStr supplier_name);
   ("grand_total", PFloat grand_total);
   ("docstatus", PInt docstatus)].

Definition lookup_row (id name : string) : pydict :=
  [("id", PStr id); ("name", PStr name)].

Definition every_permission : list (string * string) :=
  [("Invoice Form", "read"); ("Invoice Form", "write"); ("Invoice Form", "submit");
   ("Invoice Form", "delete"); ("Supplier", "read"); ("Customer", "read");
   ("Item", "read")].

(** Three invoices (the second one submitted), three suppliers, two
    customers and three items; the user holds every permission. *)
Definition ledger : world :=
  {| tables :=
       [("Invoice Form",
         [invoice "INV-3" "2025-08-13" "S1" "Acme Farms" 100%float 0;
          invoice "INV-2" "2025-08-12" "S2" "Green Valley" 250.5%float 1;
          invoice "INV-1" "2025-08-11" "S3" "Delta Growers" 75%float 0]);
        ("Supplier",
         [lookup_row "S1" "Acme Farms"; lookup_row "S2" "Green Valley";
          lookup_row "S3" "Delta Growers"]);
        ("Customer", [lookup_row "C1" "Abu Said"; lookup_row "C2" "Corner Shop"]);
        ("Item",
         [lookup_row "ONION" "Onion"; lookup_row "POTATO" "Potato";
          lookup_row "TOMATO" "Tomato"])];
     granted := every_permission;
     request := [];
     clock := "10:30:00";
     next_id := 4 |}.

(** The same world for a user the oracle grants nothing. *)
Definition locked_out (w : world) : world :=
  {| tables := tables w; granted := []; request := request w;
     clock := clock w; next_id := next_id w |}.

(** The same world receiving [payload] as the request's ["data"]. *)
Definition posting (w : world) (payload : pydict) : world :=
  {| tables := tables w; granted := granted w; request := [("data", PDict payload)];
     clock := clock w; next_id := next_id w |}.

Definition tomato_line : pydict :=
  [("item_name", PStr "Tomato"); ("qty", PInt 3); ("price", PFloat 2.5%float);
   ("customer", PStr "C1")].

Definition onion_line : pydict :=
  [("item_code", PStr "ONION"); ("item_name", PStr "Onion"); ("qty", PInt 1);
   ("price", PInt 1); ("total", PInt 10); ("customer", PStr "C2")].

(** Two items, the first without a total, and no rates. *)
Definition plain_payload : pydict :=
  [("posting_date", PStr "2025-08-13"); ("supplier", PStr "S1");
   ("supplier_name", PStr "Acme Farms");
   ("items", PList [PDict tomato_line; PDict onion_line])].

Definition free_line : pydict :=
  [("item_code", PStr "TOMATO"); ("qty", PInt 2); ("price", PInt 3); ("total", PInt 0)].

(** One item whose total is given as 0. *)
Definition zero_total_payload : pydict :=
  [("posting_date", PStr "2025-08-13"); ("supplier", PStr "S1");
   ("items", PList [PDict free_line])].

Definition hundred_line : pydict :=
  [("item_code", PStr "ONION"); ("qty", PInt 1); ("price", PInt 100); ("total", PInt 100)].

(** One item of total 100 and a commission rate given as 0. *)
Definition zero_commission_payload : pydict :=
  [("posting_date", PStr "2025-08-13"); ("supplier", PStr "S1");
   ("items", PList [PDict hundred_line]); ("commission_rate", PInt 0)].

(** One item of total 100 and both rates given as 0. *)
Definition zero_rates_payload : pydict :=
  [("posting_date", PStr "2025-08-13"); ("supplier", PStr "S1");
   ("items", PList [PDict hundred_line]); ("commission_rate", PInt 0);
   ("tax_rate", PInt 0)].

(** One item of total 100 and both rates given as the text of a zero. *)
Definition text_zero_payload : pydict :=
  [("posting_date", PStr "2025-08-13"); ("supplier", PStr "S1");
   ("items", PList [PDict hundred_line]); ("commission_rate", PStr "0");
   ("tax_rate", PStr "0.0")].

(** The value of a run that did not raise. *)
Definition value {A : Type} (default : A) (r : result A) : A :=
  match r with Ok a => a | Raise _ => default end.

(** The document [create_invoice_form] prepares from the request of [w]. *)
Definition prepared (w : world) : pydict :=
  value [] (prepare_invoice (request w) (clock w)).

(** The list entry of the invoice INV-3. *)
Definition acme_listing : pyval :=
  PDict [("id", PStr "INV-3"); ("invoiceNumber", PStr "INV-3");
         ("supplierId", PStr "S1"); ("supplierName", PStr "Acme Farms");
         ("date", PStr "2025-08-13"); ("amount", PFloat 100%float);
         ("permission",
          PDict [("can_update", PBool true); ("can_delete", PBool true);
                 ("can_submit", PBool true); ("locked", PBool false)])].

(** *** Further sample documents and requests *)

Definition sold_row : pydict :=
  [("name", PStr "row-1"); ("item_code", PStr "ONION"); ("item_name", PStr "");
   ("qty", PFloat 2%float); ("price", PFloat 5%float); ("total", PFloat 10%float);
   ("customer", PStr "C1")].

(** A submitted, locked invoice with one row. *)
Definition settled_invoice : pydict :=
  [("doctype", PStr "Invoice Form"); ("name", PStr "INV-9");
   ("posting_date", PStr "2025-08-10"); ("supplier", PStr "S1");
   ("supplier_name", PStr "Acme Farms"); ("grand_total", PFloat 10%float);
   ("total_commissions_and_taxes", PFloat 0.5%float);
   ("docstatus", PInt 1); ("lock_update", PInt 1);
   ("items", PList [PDict sold_row])].

(** An invoice of which only the name is stored. *)
Definition sparse_invoice : pydict :=
  [("doctype", PStr "Invoice Form"); ("name", PStr "INV-8")].

(** The ledger with these two invoices instead of its three. *)
Definition archive : world := set_table ledger "Invoice Form" [settled_invoice; sparse_invoice].

(** An update that changes the supplier, sends an empty posting date, and
    replaces the items by two: one with a total, one without. *)
Definition supplier_change : pydict :=
  [("posting_date", PStr ""); ("supplier", PStr "S2");
   ("items",
    PList [PDict [("item_code", PStr "POTATO"); ("qty", PInt 4); ("price", PInt 3);
                  ("total", PInt 20)];
           PDict [("item_name", PStr "Tomato"); ("quantity", PInt 2); ("price", PInt 7);
                  ("customerId", PStr "C2")]])].

(** An update whose items are not dicts. *)
Definition broken_change : pydict :=
  [("supplier", PStr "S2"); ("items", PList [PInt 5])].

(** A payload without a supplier. *)
Definition anonymous_payload : pydict :=
  [("posting_date", PStr "2025-08-13"); ("items", PList [PDict tomato_line])].

(** The in-memory framework with a decoder that knows one text, standing
    for the sample payload. *)
Definition payload_text : string := "{plain payload}".

Definition decoding : Framework world :=
  {| cint := fx_cint;
     cstr := fx_cstr;
     flt := fx_flt;
     nowtime := clock;
     str_strip := fx_strip;
     str_lower := fx_lower;
     float_of_string := parse_float;
     json_loads := fun s => if String.eqb s payload_text then Ok (PDict plain_payload)
                            else fx_json_loads s;
     form_dict := request;
     has_permission := fx_has_permission;
     doc_has_permission := fx_doc_has_permission;
     get_all := fx_get_all;
     db_count := fx_db_count;
     get_doc := fx_get_doc;
     doc_save := fx_doc_save;
     doc_submit := fx_doc_submit;
     doc_insert := fx_doc_insert;
     delete_doc := fx_delete_doc;
     db_commit := fun w => (Ok tt, w) |}.

(** The in-memory framework of a site on which the submit of a document
    raises (a hook of the document type refuses it), or on which the commit
    raises (the connection to the database is lost); a failed call leaves the
    tables as they are. *)
Definition submit_error : exn := FrameworkError "on_submit hook refused the document".
Definition commit_error : exn := FrameworkError "lost connection during commit".

Definition faulty (submit_fails commit_fails : bool) : Framework world :=
  {| cint := fx_cint;
     cstr := fx_cstr;
     flt := fx_flt;
     nowtime := clock;
     str_strip := fx_strip;
     str_lower := fx_lower;
     float_of_string := parse_float;
     json_loads := fx_json_loads;
     form_dict := request;
     has_permission := fx_has_permission;
     doc_has_permission := fx_doc_has_permission;
     get_all := fx_get_all;
     db_count := fx_db_count;
     get_doc := fx_get_doc;
     doc_save := fx_doc_save;
     doc_submit := fun d w => if submit_fails then (Raise submit_error, w)
                              else fx_doc_submit d w;
     doc_insert := fx_doc_insert;
     delete_doc := fx_delete_doc;
     db_commit := fun w => if commit_fails then (Raise commit_error, w)
                           else (Ok tt, w) |}.

(** The list entries of the two archived invoices. *)
Definition settled_listing : pyval :=
  PDict [("id", PStr "INV-9"); ("invoiceNumber", PStr "INV-9");
         ("supplierId", PStr "S1"); ("supplierName", PStr "Acme Farms");
         ("date", PStr "2025-08-10"); ("amount", PFloat 10%float);
         ("permission",
          PDict [("can_update", PBool true); ("can_delete", PBool true);
                 ("can_submit", PBool true); ("locked", PBool false)])].

Definition sparse_listing : pyval :=
  PDict [("id", PStr "INV-8"); ("invoiceNumber", PStr "INV-8");
         ("supplierId", PStr ""); ("supplierName", PStr "");
         ("date", PStr ""); ("amount", PFloat 0%float);
         ("permission",
          PDict [("can_update", PBool true); ("can_delete", PBool true);
                 ("can_submit", PBool true); ("locked", PBool false)])].

(** The first page of the archive. *)
Definition archive_page : pyval :=
  PDict [("invoices", PList [settled_listing; sparse_listing]);
         ("page", PInt 1); ("page_size", PInt 20);
         ("total_count", PInt 2); ("has_more", PBool false)].

(** What a handler answered. *)
Definition answer (run : result pyval * world) : pyval := value PNone (fst run).

(** The settled invoice after the supplier change. *)
Definition changed_invoice : pydict :=
  value [] (apply_update settled_invoice supplier_change).

End Fixture.

(* ================================================================== *)
(** ** Statements about responses *)

Section ResponseStatements.
Context {W : Type} {fw : Framework W}.

(** The response carries the clamped [page] and [page_size]: the page is at
    least 1 and the page size lies in [[1, cap]]. *)
Definition clamped (resp page page_size : pyval) (cap : Z) : Prop :=
  exists p s,
    field resp "page" = Some (PInt p) /\
    field resp "page_size" = Some (PInt s) /\
    p = Z.max 1 (cint page) /\ s = Z.max 1 (Z.min cap (cint page_size)) /\
    1 <= p /\ 1 <= s <= cap.

(** The response lists, under [key], the first [page_size] of the fetched
    [rows] and nothing more, and its [has_more] says whether more than
    [page_size] rows were fetched. *)
Definition lookup_page (resp : pyval) (key : string) (page_size : Z)
    (rows : list pydict) : Prop :=
  exists shape out,
    field resp key = Some (PList out) /\
    out = map shape (take page_size rows) /\
    Z.of_nat (length out) <= page_size /\
    field resp "has_more" = Some (PBool (Z.gtb (Z.of_nat (length rows)) page_size)).

(** The line total [create_invoice_form] adds for one payload item: the
    item's total when it converts to a non-zero number, qty times price
    otherwise. *)
Definition line_total (it : pydict) : float :=
  float_or (flt (attr it "total"))
           (PrimFloat.mul (flt (py_or (attr it "qty") (py_or (attr it "quantity") (PInt 0))))
                          (flt (py_or (attr it "price") (PInt 0)))).

(** The rate [create_invoice_form] uses: the payload's when it is truthy,
    the default otherwise. *)
Definition effective_rate (data : pydict) (key : string) (default : Z) : float :=
  flt (py_or (attr data key) (PInt default)).

(** The line total in the specification's words: the item's provided total,
    or qty times price when no total is provided. *)
Definition spec_line_total (it : pydict) : float :=
  match attr it "total" with
  | PNone =>
      PrimFloat.mul (flt (py_or (attr it "qty") (py_or (attr it "quantity") (PInt 0))))
                    (flt (py_or (attr it "price") (PInt 0)))
  | total => flt total
  end.

(** The grand total in the specification's words: the sum of the line totals
    over the items list. *)
Definition spec_grand_total (items : list pydict) : float :=
  fold_left (fun total it => PrimFloat.add total (spec_line_total it)) items 0%float.

(** A rate in the specification's words: the payload's value, defaulting
    when it is absent. *)
Definition spec_rate (data : pydict) (key : string) (default : Z) : float :=
  match attr data key with
  | PNone => flt (PInt default)
  | rate => flt rate
  end.

(** [total_commissions_and_taxes] in the specification's words:
    [(g * c / 100) + ((g * c / 100) * t / 100)] with the payload's rates,
    defaulting to 5 and 15 when absent. *)
Definition spec_commissions_and_taxes (data : pydict) (g : float) : float :=
  let c := spec_rate data "commission_rate" 5 in
  let t := spec_rate data "tax_rate" 15 in
  PrimFloat.add (PrimFloat.div (PrimFloat.mul g c) 100%float)
                (PrimFloat.div (PrimFloat.mul (PrimFloat.div (PrimFloat.mul g c) 100%float) t)
                               100%float).

(** A value [float(v or 0)] accepts. *)
Definition converts (v : pyval) : Prop :=
  exists f, py_float (py_or v (PInt 0)) = Ok f.

(** A stored document every conversion of the detail view accepts. *)
Definition detail_readable (doc : pydict) : Prop :=
  (exists status, status_of (attr doc "docstatus") = Ok status)
  /\ (exists rows,
        py_iter (getattr (PDict doc) "items" (PList [])) = Ok rows
        /\ Forall (fun it => converts (getattr it "qty" (PInt 0))
                             /\ converts (getattr it "price" (PInt 0))
                             /\ converts (getattr it "total" (PInt 0))) rows)
  /\ converts (getattr (PDict doc) "grand_total" (PInt 0))
  /\ converts (getattr (PDict doc) "total_commissions_and_taxes" (PInt 0)).

End ResponseStatements.

(* ================================================================== *)
(** ** Statements about queries and rows *)

Section QueryStatements.
Context {W : Type} {fw : Framework W}.

(** A falsy optional parameter, read as not given. *)
Definition or_none (v : pyval) : pyval := if truthy v then v else PNone.

(** The rows [[start, start + n)] of a list. *)
Definition window (start n : Z) (rows : list pydict) : list pydict :=
  firstn (Z.to_nat n) (skipn (Z.to_nat start) rows).

(** The effective page and page size of a request. *)
Definition page_of (page : pyval) : Z := Z.max 1 (cint page).
Definition size_of (cap : Z) (page_size : pyval) : Z := Z.max 1 (Z.min cap (cint page_size)).

(** The query [get_invoices] issues. *)
Definition list_query (start_date end_date supplier page page_size : pyval) : query :=
  invoice_query (invoice_filters start_date end_date supplier)
                ((page_of page - 1) * size_of 100 page_size) (size_of 100 page_size).

(** The test of the search post-filter on one row. *)
Definition invoice_matches (search : pyval) (r : pydict) : bool :=
  let s := str_lower (str_strip (cstr search)) in
  str_contains s (str_lower (cstr (attr r "name")))
  || str_contains s (str_lower (cstr (py_or (attr r "supplier_name") (PStr "")))).

(** The queries the lookups issue. *)
Definition supplier_query (page page_size search : pyval) : query :=
  lookup_query "Supplier" ["name as id"; "supplier_name as name"]
    [filter3 "is_farmer" "=" (PInt 1)]
    (if truthy search
     then PList [filter4 "Supplier" "supplier_name" "like" (like_pattern search);
                 filter4 "Supplier" "name" "like" (like_pattern search)]
     else PNone)
    "supplier_name asc, name asc"
    ((page_of page - 1) * size_of 200 page_size) (size_of 200 page_size + 1).

Definition customer_query (page page_size search : pyval) : query :=
  lookup_query "Customer" ["name as id"; "customer_name as name"]
    []
    (if truthy search
     then PList [filter4 "Customer" "customer_name" "like" (like_pattern search);
                 filter4 "Customer" "name" "like" (like_pattern search)]
     else PNone)
    "customer_name asc, name asc"
    ((page_of page - 1) * size_of 200 page_size) (size_of 200 page_size + 1).

Definition item_query (page page_size search : pyval) : query :=
  lookup_query "Item" ["name as id"; "item_name as name"]
    [filter3 "disabled" "=" (PInt 0)]
    (if truthy search
     then PList [filter4 "Item" "item_name" "like" (like_pattern search);
                 filter4 "Item" "name" "like" (like_pattern search);
                 filter4 "Item" "item_code" "like" (like_pattern search)]
     else PNone)
    "item_name asc, name asc"
    ((page_of page - 1) * size_of 200 page_size) (size_of 200 page_size + 1).

(** The entries the lookups build from a fetched row. *)
Definition supplier_entry (r : pydict) : pyval :=
  PDict [("id", py_or (attr r "id") (attr r "name"));
         ("name", py_or (attr r "name") (py_or (attr r "supplier_name") (attr r "id")))].

Definition customer_entry (r : pydict) : pyval :=
  PDict [("id", py_or (attr r "id") (attr r "name"));
         ("name", py_or (attr r "name") (py_or (attr r "customer_name") (attr r "id")))].

Definition item_entry (r : pydict) : pyval :=
  PDict [("id", py_or (attr r "id") (attr r "name"));
         ("name", py_or (attr r "name") (attr r "id"));
         ("price", PInt 0)].

(** The answer of a lookup built from the rows its query fetched. *)
Definition lookup_answer (key : string) (entry : pydict -> pyval)
    (page page_size : pyval) (rows : list pydict) : pyval :=
  PDict [(key, PList (map entry (take (size_of 200 page_size) rows)));
         ("page", PInt (page_of page));
         ("page_size", PInt (size_of 200 page_size));
         ("has_more", PBool (Z.gtb (Z.of_nat (length rows)) (size_of 200 page_size)))].

(** The answer of [get_invoices] built from the rows its query fetched and
    the count. *)
Definition list_answer (page page_size search : pyval) (rows : list pydict)
    (total_count : Z) : result pyval :=
  rbind (map_result shape_invoice (search_rows search rows)) (fun invoices =>
  Ok (PDict [("invoices", PList invoices);
             ("page", PInt (page_of page));
             ("page_size", PInt (size_of 100 page_size));
             ("total_count", PInt total_count);
             ("has_more",
              PBool (Z.ltb ((page_of page - 1) * size_of 100 page_size
                            + Z.of_nat (length invoices)) total_count))])).

(** The detail view of a loaded, readable document. *)
Definition detail_answer (name : string) (doc : pydict) : result pyval :=
  rbind (status_of (attr doc "docstatus")) (fun status =>
  let is_locked := truthy (getattr (PDict doc) "lock_update" (PBool false)) in
  rbind (py_iter (getattr (PDict doc) "items" (PList []))) (fun rows =>
  rbind (map_result shape_detail_item rows) (fun items =>
  rbind (py_float (py_or (getattr (PDict doc) "grand_total" (PInt 0)) (PInt 0))) (fun amount =>
  rbind (py_float (py_or (getattr (PDict doc) "total_commissions_and_taxes" (PInt 0))
                         (PInt 0))) (fun tax =>
  Ok (PDict [("id", PStr (cstr (getattr (PDict doc) "name" (PStr name))));
             ("invoiceNumber", PStr (cstr (getattr (PDict doc) "name" (PStr name))));
             ("supplierId", PStr (cstr (getattr (PDict doc) "supplier" (PStr ""))));
             ("supplierName", PStr (cstr (getattr (PDict doc) "supplier_name" (PStr ""))));
             ("date", PStr (cstr (getattr (PDict doc) "posting_date" (PStr ""))));
             ("amount", PFloat amount);
             ("status", PStr status);
             ("is_locked", PBool is_locked);
             ("items", PList items);
             ("tax", PFloat tax);
             ("payments", PList []);
             ("notes", PStr (cstr (getattr (PDict doc) "remarks" (PStr ""))));
             ("customer", PStr (cstr (getattr (PDict doc) "customer" (PStr ""))));
             ("customer_name", PStr (cstr (getattr (PDict doc) "customer" (PStr ""))));
             ("permission",
              PDict [("can_update", PBool true); ("can_delete", PBool true);
                     ("can_submit", PBool true); ("locked", PBool is_locked)])])))))).

(** A stored [grand_total] as the database gives it: empty (None, zero), a
    float or a boolean. *)
Definition amount_like (v : pyval) : Prop :=
  truthy v = false \/ (exists f, v = PFloat f) \/ (exists b, v = PBool b).

End QueryStatements.

(* ================================================================== *)
(** ** Properties *)

(** *** Dictionaries and comprehensions *)

Lemma dict_get_set_same (d : pydict) (k : string) (v : pyval) :
  dict_get (dict_set d k v) k = Some v.
Proof.
  induction d as [|[k' v'] d IH]; simpl.
  - now rewrite String.eqb_refl.
  - destruct (String.eqb k' k) eqn:E; simpl; rewrite E; auto.
Qed.

Lemma dict_get_set_other (d : pydict) (k k' : string) (v : pyval) :
  k <> k' -> dict_get (dict_set d k v) k' = dict_get d k'.
Proof.
  intros Hne. induction d as [|[k0 v0] d IH]; simpl.
  - destruct (String.eqb_spec k k'); [contradiction | reflexivity].
  - destruct (String.eqb_spec k0 k) as [->|Hk]; simpl.
    + destruct (String.eqb_spec k k'); [contradiction | reflexivity].
    + destruct (String.eqb k0 k'); auto.
Qed.

Lemma attr_set_same (d : pydict) (k : string) (v : pyval) :
  attr (dict_set d k v) k = v.
Proof. unfold attr. now rewrite dict_get_set_same. Qed.

Lemma attr_set_other (d : pydict) (k k' : string) (v : pyval) :
  k <> k' -> attr (dict_set d k v) k' = attr d k'.
Proof. intros H. unfold attr. now rewrite dict_get_set_other. Qed.

Lemma map_result_length {A B} (f : A -> result B) (l : list A) (bs : list B) :
  map_result f l = Ok bs -> length bs = length l.
Proof.
  revert bs. induction l as [|a l IH]; simpl; intros bs H.
  - now inversion H.
  - destruct (f a) as [b|e]; simpl in H; [|discriminate].
    destruct (map_result f l) as [bs'|e]; simpl in H; [|discriminate].
    inversion H; subst; simpl. f_equal. now apply IH.
Qed.

Lemma map_result_total {A B} (f : A -> result B) (l : list A) :
  Forall (fun a => exists b, f a = Ok b) l -> exists bs, map_result f l = Ok bs.
Proof.
  induction 1 as [|a l [b Hb] _ [bs Hbs]]; simpl.
  - now exists [].
  - rewrite Hb, Hbs. simpl. now exists (b :: bs).
Qed.

Lemma map_result_in {A B} (f : A -> result B) (l : list A) (bs : list B) (b : B) :
  map_result f l = Ok bs -> In b bs -> exists a, In a l /\ f a = Ok b.
Proof.
  revert bs. induction l as [|a l IH]; simpl; intros bs H Hin.
  - inversion H; subst. contradiction.
  - destruct (f a) as [b0|e] eqn:Ea; simpl in H; [|discriminate].
    destruct (map_result f l) as [bs'|e]; simpl in H; [|discriminate].
    inversion H; subst. destruct Hin as [<-|Hin].
    + exists a. auto.
    + destruct (IH bs' eq_refl Hin) as [a' [Ha' Hf]]. exists a'. auto.
Qed.

(** *** Pagination bounds *)

Section Pagination.
Context {W : Type} {fw : Framework W}.

Lemma search_rows_convert (search : pyval) (rows : list pydict) :
  amounts_convert rows -> amounts_convert (search_rows search rows).
Proof.
  unfold amounts_convert, search_rows. intros H.
  destruct (truthy search); auto.
  rewrite Forall_forall in *. intros r Hr. apply filter_In in Hr. now apply H.
Qed.

(** What [get_invoices] returns when reading is permitted and the fetched
    amounts convert. *)
Lemma get_invoices_returns (w : W) (start_date end_date supplier page page_size search : pyval) :
  let p := Z.max 1 (cint page) in
  let s := Z.max 1 (Z.min 100 (cint page_size)) in
  let filters := invoice_filters start_date end_date supplier in
  let rows := search_rows search (get_all w (invoice_query filters ((p - 1) * s) s)) in
  has_permission w "Invoice Form" "read" = true ->
  amounts_convert (get_all w (invoice_query filters ((p - 1) * s) s)) ->
  exists invoices,
    map_result shape_invoice rows = Ok invoices /\
    get_invoices start_date end_date supplier page page_size search w =
    (Ok (PDict [("invoices", PList invoices);
                ("page", PInt p);
                ("page_size", PInt s);
                ("total_count", PInt (db_count w "Invoice Form" filters));
                ("has_more",
                 PBool (Z.ltb ((p - 1) * s + Z.of_nat (length invoices))
                              (db_count w "Invoice Form" filters)))]), w).
Proof.
  intros p s filters rows Hperm Hconv.
  destruct (map_result_total shape_invoice rows) as [invoices Hinv].
  { now apply search_rows_convert. }
  exists invoices. split; [exact Hinv|].
  unfold get_invoices, bind, read, lift, ret, throw.
  rewrite Hperm. simpl. fold p s filters. fold rows. now rewrite Hinv.
Qed.

(** Without a search text, and for an executor that answers with the window
    [[start, start + page_size)] of the matching rows and counts them all,
    [has_more] says exactly whether rows lie beyond the page. *)
Lemma get_invoices_has_more_unsearched (w : W)
    (start_date end_date supplier page page_size search : pyval) (matching : list pydict) :
  let p := Z.max 1 (cint page) in
  let s := Z.max 1 (Z.min 100 (cint page_size)) in
  let filters := invoice_filters start_date end_date supplier in
  has_permission w "Invoice Form" "read" = true ->
  truthy search = false ->
  get_all w (invoice_query filters ((p - 1) * s) s)
  = firstn (Z.to_nat s) (skipn (Z.to_nat ((p - 1) * s)) matching) ->
  db_count w "Invoice Form" filters = Z.of_nat (length matching) ->
  amounts_convert (get_all w (invoice_query filters ((p - 1) * s) s)) ->
  exists resp,
    get_invoices start_date end_date supplier page page_size search w = (Ok resp, w)
    /\ field resp "has_more" = Some (PBool (Z.ltb (p * s) (Z.of_nat (length matching)))).
Proof.
  intros p s filters Hperm Hsearch Hwindow Hcount Hconv.
  destruct (get_invoices_returns w start_date end_date supplier page page_size search
              Hperm Hconv) as [invoices [Hshape Hrun]].
  fold p s filters in Hshape, Hrun.
  eexists. split; [exact Hrun|]. cbn [field dict_get String.eqb Ascii.eqb Bool.eqb].
  simpl. do 2 f_equal.
  apply map_result_length in Hshape. rewrite Hshape.
  unfold search_rows. rewrite Hsearch, Hwindow, Hcount, length_firstn, length_skipn.
  assert (0 <= (p - 1) * s) by (subst p s; nia).
  destruct (Z.ltb_spec (p * s) (Z.of_nat (length matching)));
    destruct (Z.ltb_spec ((p - 1) * s
                          + Z.of_nat (Nat.min (Z.to_nat s)
                                        (length matching - Z.to_nat ((p - 1) * s))))
                         (Z.of_nat (length matching))); try reflexivity; exfalso; nia.
Qed.

End Pagination.

Section Lookups.
Context {W : Type} {fw : Framework W}.

Lemma take_spec (page_size : Z) (rows : list pydict) :
  (if Z.gtb (Z.of_nat (length rows)) page_size then take page_size rows else rows)
  = take page_size rows.
Proof.
  destruct (Z.gtb_spec (Z.of_nat (length rows)) page_size) as [H|H]; [reflexivity|].
  unfold take. symmetry. apply firstn_all2. lia.
Qed.

Lemma take_length (page_size : Z) (rows : list pydict) :
  0 <= page_size -> Z.of_nat (length (take page_size rows)) <= page_size.
Proof.
  intros H. unfold take. rewrite length_firstn. lia.
Qed.

(** The answer of [get_supplier] once reading "Supplier" is permitted. *)
Lemma get_supplier_returns (w : W) (page page_size search : pyval) :
  has_permission w "Supplier" "read" = true ->
  exists or_filters shape,
    let p := Z.max 1 (cint page) in
    let s := Z.max 1 (Z.min 200 (cint page_size)) in
    let rows := get_all w (lookup_query "Supplier" ["name as id"; "supplier_name as name"]
                             [filter3 "is_farmer" "=" (PInt 1)] or_filters
                             "supplier_name asc, name asc" ((p - 1) * s) (s + 1)) in
    get_supplier page page_size search w =
    (Ok (PDict [("suppliers", PList (map shape (take s rows)));
                ("page", PInt p);
                ("page_size", PInt s);
                ("has_more", PBool (Z.gtb (Z.of_nat (length rows)) s))]), w).
Proof.
  intros Hperm. eexists. eexists. cbv zeta.
  unfold get_supplier, bind, read, ret, throw. rewrite Hperm. cbv beta iota zeta delta [negb].
  rewrite take_spec. reflexivity.
Qed.

(** The answer of [get_customer] once reading "Customer" is permitted. *)
Lemma get_customer_returns (w : W) (page page_size search : pyval) :
  has_permission w "Customer" "read" = true ->
  exists or_filters shape,
    let p := Z.max 1 (cint page) in
    let s := Z.max 1 (Z.min 200 (cint page_size)) in
    let rows := get_all w (lookup_query "Customer" ["name as id"; "customer_name as name"]
                             [] or_filters
                             "customer_name asc, name asc" ((p - 1) * s) (s + 1)) in
    get_customer page page_size search w =
    (Ok (PDict [("customers", PList (map shape (take s rows)));
                ("page", PInt p);
                ("page_size", PInt s);
                ("has_more", PBool (Z.gtb (Z.of_nat (length rows)) s))]), w).
Proof.
  intros Hperm. eexists. eexists. cbv zeta.
  unfold get_customer, bind, read, ret, throw. rewrite Hperm. cbv beta iota zeta delta [negb].
  rewrite take_spec. reflexivity.
Qed.

(** The answer of [get_items] once reading "Item" is permitted. *)
Lemma get_items_returns (w : W) (page page_size search : pyval) :
  has_permission w "Item" "read" = true ->
  exists or_filters shape,
    let p := Z.max 1 (cint page) in
    let s := Z.max 1 (Z.min 200 (cint page_size)) in
    let rows := get_all w (lookup_query "Item" ["name as id"; "item_name as name"]
                             [filter3 "disabled" "=" (PInt 0)] or_filters
                             "item_name asc, name asc" ((p - 1) * s) (s + 1)) in
    get_items page page_size search w =
    (Ok (PDict [("items", PList (map shape (take s rows)));
                ("page", PInt p);
                ("page_size", PInt s);
                ("has_more", PBool (Z.gtb (Z.of_nat (length rows)) s))]), w).
Proof.
  intros Hperm. eexists. eexists. cbv zeta.
  unfold get_items, bind, read, ret, throw. rewrite Hperm. cbv beta iota zeta delta [negb].
  rewrite take_spec. reflexivity.
Qed.

End Lookups.

Section PaginationClaims.
Context {W : Type} {fw : Framework W}.

Lemma clamp_bounds (cap x : Z) : 1 <= cap -> 1 <= Z.max 1 (Z.min cap x) <= cap.
Proof. lia. Qed.

(** C6.  Whatever [page] and [page_size] are (the framework's [cint] turns
    anything into an integer), a handler that answers reports a page of at
    least 1 and a page size clamped to [[1,100]] for [get_invoices] and to
    [[1,200]] for [get_supplier], [get_customer] and [get_items]; and each
    handler does answer once reading is permitted (for [get_invoices], once
    the fetched amounts also convert). *)
Theorem page_and_page_size_clamped (w : W) (page page_size : pyval) :
  (forall start_date end_date supplier search,
      has_permission w "Invoice Form" "read" = true ->
      amounts_convert
        (get_all w (invoice_query (invoice_filters start_date end_date supplier)
                      ((Z.max 1 (cint page) - 1) * Z.max 1 (Z.min 100 (cint page_size)))
                      (Z.max 1 (Z.min 100 (cint page_size))))) ->
      exists resp,
        get_invoices start_date end_date supplier page page_size search w = (Ok resp, w)
        /\ clamped resp page page_size 100)
  /\ (forall search,
         has_permission w "Supplier" "read" = true ->
         exists resp,
           get_supplier page page_size search w = (Ok resp, w)
           /\ clamped resp page page_size 200)
  /\ (forall search,
         has_permission w "Customer" "read" = true ->
         exists resp,
           get_customer page page_size search w = (Ok resp, w)
           /\ clamped resp page page_size 200)
  /\ (forall search,
         has_permission w "Item" "read" = true ->
         exists resp,
           get_items page page_size search w = (Ok resp, w)
           /\ clamped resp page page_size 200).
Proof.
  repeat split.
  - intros sd ed sup search Hperm Hconv.
    destruct (get_invoices_returns w sd ed sup page page_size search Hperm Hconv)
      as [invoices [_ Heq]].
    eexists. split; [exact Heq|].
    do 2 eexists. repeat split; try reflexivity; lia.
  - intros search Hperm.
    destruct (get_supplier_returns w page page_size search Hperm) as [o [sh Heq]].
    eexists. split; [exact Heq|].
    do 2 eexists. repeat split; try reflexivity; lia.
  - intros search Hperm.
    destruct (get_customer_returns w page page_size search Hperm) as [o [sh Heq]].
    eexists. split; [exact Heq|].
    do 2 eexists. repeat split; try reflexivity; lia.
  - intros search Hperm.
    destruct (get_items_returns w page page_size search Hperm) as [o [sh Heq]].
    eexists. split; [exact Heq|].
    do 2 eexists. repeat split; try reflexivity; lia.
Qed.

(** C7.  [get_supplier], [get_customer] and [get_items] ask the query
    executor for [page_size + 1] rows starting at [(page - 1) * page_size],
    return at most [page_size] of them (the first ones), and set [has_more]
    exactly when the executor returned more than [page_size] rows. *)
Theorem lookups_fetch_one_extra_row (w : W) (page page_size search : pyval) :
  let p := Z.max 1 (cint page) in
  let s := Z.max 1 (Z.min 200 (cint page_size)) in
  (has_permission w "Supplier" "read" = true ->
   exists or_filters resp,
     get_supplier page page_size search w = (Ok resp, w) /\
     lookup_page resp "suppliers" s
       (get_all w (lookup_query "Supplier" ["name as id"; "supplier_name as name"]
                     [filter3 "is_farmer" "=" (PInt 1)] or_filters
                     "supplier_name asc, name asc" ((p - 1) * s) (s + 1))))
  /\ (has_permission w "Customer" "read" = true ->
      exists or_filters resp,
        get_customer page page_size search w = (Ok resp, w) /\
        lookup_page resp "customers" s
          (get_all w (lookup_query "Customer" ["name as id"; "customer_name as name"]
                        [] or_filters
                        "customer_name asc, name asc" ((p - 1) * s) (s + 1))))
  /\ (has_permission w "Item" "read" = true ->
      exists or_filters resp,
        get_items page page_size search w = (Ok resp, w) /\
        lookup_page resp "items" s
          (get_all w (lookup_query "Item" ["name as id"; "item_name as name"]
                        [filter3 "disabled" "=" (PInt 0)] or_filters
                        "item_name asc, name asc" ((p - 1) * s) (s + 1)))).
Proof.
  intros p s. repeat split.
  - intros Hperm.
    destruct (get_supplier_returns w page page_size search Hperm) as [o [sh Heq]].
    exists o. eexists. split; [exact Heq|].
    exists sh. eexists. repeat split.
    rewrite length_map. apply take_length. subst s. lia.
  - intros Hperm.
    destruct (get_customer_returns w page page_size search Hperm) as [o [sh Heq]].
    exists o. eexists. split; [exact Heq|].
    exists sh. eexists. repeat split.
    rewrite length_map. apply take_length. subst s. lia.
  - intros Hperm.
    destruct (get_items_returns w page page_size search Hperm) as [o [sh Heq]].
    exists o. eexists. split; [exact Heq|].
    exists sh. eexists. repeat split.
    rewrite length_map. apply take_length. subst s. lia.
Qed.

End PaginationClaims.

(** *** Permissions and document state *)

Section InvoiceClaims.
Context {W : Type} {fw : Framework W}.

Lemma shape_invoice_permission (r : pydict) (inv : pyval) :
  shape_invoice r = Ok inv -> field inv "permission" = Some list_permission.
Proof.
  unfold shape_invoice. destruct (py_float _) as [amount|e]; simpl; [|discriminate].
  intros H. inversion H. reflexivity.
Qed.

(** C8.  Every element of the ["invoices"] list that [get_invoices] returns
    carries the same permission object, with [can_update], [can_delete] and
    [can_submit] true and [locked] false, whatever the stored rows hold and
    whatever the permission oracle would say about writing, submitting or
    deleting. *)
Theorem list_permission_is_constant (w w' : W)
    (start_date end_date supplier page page_size search resp : pyval)
    (invoices : list pyval) (inv : pyval) :
  get_invoices start_date end_date supplier page page_size search w = (Ok resp, w') ->
  field resp "invoices" = Some (PList invoices) ->
  In inv invoices ->
  field inv "permission" =
  Some (PDict [("can_update", PBool true); ("can_delete", PBool true);
               ("can_submit", PBool true); ("locked", PBool false)]).
Proof.
  unfold get_invoices, bind, read, lift, ret, throw.
  destruct (has_permission w "Invoice Form" "read"); simpl; [|discriminate].
  destruct (map_result shape_invoice _) as [shaped|e] eqn:Hmap; [|discriminate].
  intros H Hfield Hin. inversion H; subst. simpl in Hfield. inversion Hfield; subst.
  destruct (map_result_in _ _ _ _ Hmap Hin) as [r [_ Hr]].
  exact (shape_invoice_permission r inv Hr).
Qed.

(** The document-level handlers refuse when the oracle denies the permission
    they ask for on the loaded document. *)
Lemma get_invoice_details_refused (w : W) (name : string) (doc : pydict) :
  name <> "" -> get_doc w "Invoice Form" name = Ok doc ->
  doc_has_permission w doc "read" = false ->
  refused (get_invoice_details name) w.
Proof.
  intros Hname Hdoc Hperm. unfold refused, get_invoice_details.
  destruct (String.eqb_spec name ""); [contradiction|].
  unfold bind, try_read, read, throw. now rewrite Hdoc, Hperm.
Qed.

Lemma update_invoice_refused (w : W) (name : string) (data : pyval) (doc : pydict) :
  name <> "" -> get_doc w "Invoice Form" name = Ok doc ->
  doc_has_permission w doc "write" = false ->
  refused (update_invoice name data) w.
Proof.
  intros Hname Hdoc Hperm. unfold refused, update_invoice.
  destruct (String.eqb_spec name ""); [contradiction|].
  unfold bind, try_read, read, throw. now rewrite Hdoc, Hperm.
Qed.

Lemma submit_invoice_refused (w : W) (name : string) (doc : pydict) :
  name <> "" -> get_doc w "Invoice Form" name = Ok doc ->
  doc_has_permission w doc "submit" = false ->
  refused (submit_invoice name) w.
Proof.
  intros Hname Hdoc Hperm. unfold refused, submit_invoice.
  destruct (String.eqb_spec name ""); [contradiction|].
  unfold bind, try_read, read, throw. now rewrite Hdoc, Hperm.
Qed.

Lemma delete_invoice_refused (w : W) (name : string) (doc : pydict) :
  name <> "" -> get_doc w "Invoice Form" name = Ok doc ->
  doc_has_permission w doc "delete" = false ->
  refused (delete_invoice name) w.
Proof.
  intros Hname Hdoc Hperm. unfold refused, delete_invoice.
  destruct (String.eqb_spec name ""); [contradiction|].
  unfold bind, try_read, read, throw. now rewrite Hdoc, Hperm.
Qed.

(** [create_invoice_form] runs the insert, with permissions ignored, on
    whatever document the payload yields. *)
Lemma create_invoice_form_inserts (w : W) (doc : pydict) :
  prepare_invoice (form_dict w) (nowtime w) = Ok doc ->
  create_invoice_form w =
  bind (doc_insert doc true) (fun doc' => lift (created_response doc')) w.
Proof.
  intros H. unfold create_invoice_form, bind at 1 2 3, read, lift. now rewrite H.
Qed.

(** C2, as the code has it.  Every handler that asks the permission oracle
    ([get_invoices], [get_invoice_details], [update_invoice], [submit_invoice],
    [delete_invoice] and the three lookups) ends with the permission error and
    an untouched world when the oracle denies the permission type it asks
    for; [create_invoice_form] asks for none and inserts with permissions
    ignored. *)
Theorem denied_permission_is_refused (w : W) :
  (forall start_date end_date supplier page page_size search,
      has_permission w "Invoice Form" "read" = false ->
      refused (get_invoices start_date end_date supplier page page_size search) w)
  /\ (forall name doc,
         name <> "" -> get_doc w "Invoice Form" name = Ok doc ->
         (doc_has_permission w doc "read" = false -> refused (get_invoice_details name) w)
         /\ (forall data, doc_has_permission w doc "write" = false ->
                          refused (update_invoice name data) w)
         /\ (doc_has_permission w doc "submit" = false -> refused (submit_invoice name) w)
         /\ (doc_has_permission w doc "delete" = false -> refused (delete_invoice name) w))
  /\ (forall page page_size search,
         (has_permission w "Supplier" "read" = false ->
          refused (get_supplier page page_size search) w)
         /\ (has_permission w "Customer" "read" = false ->
             refused (get_customer page page_size search) w)
         /\ (has_permission w "Item" "read" = false ->
             refused (get_items page page_size search) w))
  /\ (forall doc,
         prepare_invoice (form_dict w) (nowtime w) = Ok doc ->
         create_invoice_form w =
         bind (doc_insert doc true) (fun doc' => lift (created_response doc')) w).
Proof.
  split; [|split; [|split]].
  - intros sd ed sup page ps search H.
    unfold refused, get_invoices, bind, read, throw. now rewrite H.
  - intros name doc Hname Hdoc. repeat split.
    + now apply get_invoice_details_refused.
    + intros data. now apply update_invoice_refused.
    + now apply submit_invoice_refused.
    + now apply delete_invoice_refused.
  - intros page ps search. repeat split; intros H.
    + unfold refused, get_supplier, bind, read, throw. now rewrite H.
    + unfold refused, get_customer, bind, read, throw. now rewrite H.
    + unfold refused, get_items, bind, read, throw. now rewrite H.
  - exact (create_invoice_form_inserts w).
Qed.

(** C5.  For a stored invoice that is not a draft, [submit_invoice] raises
    (the permission error without submit permission, the validation error
    otherwise) and leaves the world untouched.  For a draft the caller may
    submit, it runs the framework's submit on the document, commits, and
    returns the name and docstatus of the submitted document. *)
Theorem submit_only_drafts (w : W) (name : string) (doc : pydict) :
  name <> "" ->
  get_doc w "Invoice Form" name = Ok doc ->
  (py_ne_zero (attr doc "docstatus") = true ->
   submit_invoice name w =
   (Raise (if doc_has_permission w doc "submit"
           then ValidationError "Only draft invoices can be submitted"
           else PermissionError "Not permitted"), w))
  /\ (py_ne_zero (attr doc "docstatus") = false ->
      doc_has_permission w doc "submit" = true ->
      submit_invoice name w =
      bind (doc_submit doc) (fun doc' =>
      bind db_commit (fun _ =>
      ret (PDict [("name", PStr (cstr (attr doc' "name")));
                  ("docstatus", attr doc' "docstatus")]))) w
      /\ forall doc' w1 w2,
          doc_submit doc w = (Ok doc', w1) ->
          db_commit w1 = (Ok tt, w2) ->
          submit_invoice name w =
          (Ok (PDict [("name", PStr (cstr (attr doc' "name")));
                      ("docstatus", attr doc' "docstatus")]), w2)).
Proof.
  intros Hname Hdoc.
  assert (Hrun : submit_invoice name w =
                 if negb (doc_has_permission w doc "submit")
                 then (Raise (PermissionError "Not permitted"), w)
                 else if py_ne_zero (attr doc "docstatus")
                 then (Raise (ValidationError "Only draft invoices can be submitted"), w)
                 else bind (doc_submit doc) (fun doc' =>
                      bind db_commit (fun _ =>
                      ret (PDict [("name", PStr (cstr (attr doc' "name")));
                                  ("docstatus", attr doc' "docstatus")]))) w).
  { unfold submit_invoice. destruct (String.eqb_spec name ""); [contradiction|].
    unfold bind at 1 2, try_read, read, throw. rewrite Hdoc.
    destruct (doc_has_permission w doc "submit"); simpl; [|reflexivity].
    destruct (py_ne_zero (attr doc "docstatus")); reflexivity. }
  split.
  - intros Hnz. rewrite Hrun, Hnz. now destruct (doc_has_permission w doc "submit").
  - intros Hz Hperm. rewrite Hrun, Hz, Hperm. simpl. split; [reflexivity|].
    intros doc' w1 w2 Hs Hc. unfold bind, ret. now rewrite Hs, Hc.
Qed.

End InvoiceClaims.

(** *** Creating an invoice *)

Section CreationClaims.
Context {W : Type} {fw : Framework W}.

Lemma total_item_line_total (it : pydict) : snd (total_item it) = line_total it.
Proof.
  unfold total_item, line_total. cbv zeta. simpl snd.
  destruct (negb (truthy (attr it "item_code")) && truthy (attr it "item_name")).
  - rewrite attr_set_other; [reflexivity | discriminate].
  - reflexivity.
Qed.

Lemma total_items_cons (d : pydict) (rest : list pyval) (acc : float) :
  total_items (PDict d :: rest) acc =
  rbind (total_items rest (PrimFloat.add acc (snd (total_item d)))) (fun r =>
  Ok (fst (total_item d) :: fst r, snd r)).
Proof. simpl. now destruct (total_item d). Qed.

(** The totals loop succeeds exactly on a list of dicts, and then adds the
    line totals from left to right. *)
Lemma total_items_inv (values : list pyval) (acc : float) (out : list pydict) (g : float) :
  total_items values acc = Ok (out, g) ->
  exists items,
    values = map PDict items
    /\ out = map (fun it => fst (total_item it)) items
    /\ g = fold_left (fun total it => PrimFloat.add total (line_total it)) items acc.
Proof.
  revert acc out g. induction values as [|v values IH]; intros acc out g H.
  - inversion H; subst. now exists [].
  - destruct v; try discriminate.
    rewrite total_items_cons in H.
    destruct (total_items values _) as [[out' g']|e] eqn:Hrest; simpl in H; [|discriminate].
    inversion H; subst. destruct (IH _ _ _ Hrest) as [items [-> [-> ->]]].
    exists (d :: items). cbn [fold_left map]. rewrite total_item_line_total. auto.
Qed.

Lemma total_items_total (items : list pydict) (acc : float) :
  total_items (map PDict items) acc =
  Ok (map (fun it => fst (total_item it)) items,
      fold_left (fun total it => PrimFloat.add total (line_total it)) items acc).
Proof.
  revert acc. induction items as [|it items IH]; intros acc; [reflexivity|].
  change (map PDict (it :: items)) with (PDict it :: map PDict items).
  rewrite total_items_cons, IH. cbn [rbind fst snd fold_left map].
  now rewrite total_item_line_total.
Qed.

Lemma attr_doc_append_other (d row : pydict) (k : string) :
  k <> "items" -> attr (doc_append d "items" row) k = attr d k.
Proof.
  intros H. unfold doc_append.
  destruct (attr d "items"); apply attr_set_other; congruence.
Qed.

Lemma attr_append_rows_other (rows : list pydict) (d : pydict) (k : string) :
  k <> "items" ->
  attr (fold_left (fun doc it => doc_append doc "items" (created_row it)) rows d) k
  = attr d k.
Proof.
  intros H. revert d. induction rows as [|r rows IH]; simpl; intros d; [reflexivity|].
  rewrite IH. now apply attr_doc_append_other.
Qed.

Lemma py_or_truthy (a b : pyval) :
  truthy (py_or a b) = true -> truthy b = false -> py_or a b = a.
Proof.
  unfold py_or. destruct (truthy a); [reflexivity|]. intros H1 H2. congruence.
Qed.

(** Only a non-empty list of dicts is truthy and iterates into dicts. *)
Lemma iter_dicts (v : pyval) (items : list pydict) :
  truthy v = true -> py_iter v = Ok (map PDict items) ->
  v = PList (map PDict items) /\ items <> [].
Proof.
  destruct v as [| b | z | f | s | l | d]; simpl; try discriminate.
  - destruct s as [|c s]; simpl; [discriminate|]. intros _ H. inversion H.
    destruct items; discriminate.
  - destruct l; [discriminate|]. intros _ H. inversion H. split; [reflexivity|].
    intros ->. discriminate.
  - destruct d as [|kv d]; simpl; [discriminate|]. intros _ H. inversion H.
    destruct items; discriminate.
Qed.

(** What an accepted payload looks like and what document it yields. *)
Lemma prepare_invoice_inv (form : pydict) (time : string) (doc : pydict) :
  prepare_invoice form time = Ok doc ->
  exists data items,
    request_data form = Ok data
    /\ truthy (attr data "posting_date") = true
    /\ truthy (attr data "supplier") = true
    /\ attr data "items" = PList (map PDict items)
    /\ items <> []
    /\ let g := fold_left (fun total it => PrimFloat.add total (line_total it)) items 0%float in
       doc = fold_left (fun doc it => doc_append doc "items" (created_row it))
               (map (fun it => fst (total_item it)) items)
               (new_invoice_doc (attr data "posting_date") time (attr data "supplier")
                  (py_or (attr data "supplier_name") (PStr ""))
                  (flt (py_or (attr data "pamper_commission") (PInt 0))) g
                  (commissions_and_taxes g (effective_rate data "commission_rate" 5)
                                           (effective_rate data "tax_rate" 15))).
Proof.
  intros H. unfold prepare_invoice in H.
  destruct (request_data form) as [data|e]; cbn [rbind] in H; [|discriminate].
  destruct (truthy (attr data "posting_date")) eqn:Hdate; cbn [negb orb] in H;
    [|discriminate].
  destruct (truthy (attr data "supplier")) eqn:Hsupplier; cbn [negb orb] in H;
    [|discriminate].
  remember (py_or (attr data "items") (PList [])) as v eqn:Hv.
  destruct (truthy v) eqn:Htv; cbn [negb] in H; [|discriminate].
  destruct (py_iter v) as [l|e] eqn:Hiter; cbn [rbind] in H; [|discriminate].
  destruct (total_items l 0%float) as [[out g]|e] eqn:Htot; cbn [rbind fst snd] in H;
    [|discriminate].
  inversion H; subst doc; clear H.
  destruct (total_items_inv _ _ _ _ Htot) as [items [-> [-> ->]]].
  destruct (iter_dicts v items Htv Hiter) as [Hlist Hne].
  assert (Hattr : attr data "items" = v).
  { subst v. symmetry. apply py_or_truthy; [exact Htv | reflexivity]. }
  exists data, items. repeat split; auto. congruence.
Qed.

(** A payload with a posting date, a supplier and a non-empty list of item
    dicts is accepted. *)
Lemma prepare_invoice_accepts (form : pydict) (time : string) (data : pydict)
    (items : list pydict) :
  request_data form = Ok data ->
  truthy (attr data "posting_date") = true ->
  truthy (attr data "supplier") = true ->
  attr data "items" = PList (map PDict items) ->
  items <> [] ->
  exists doc, prepare_invoice form time = Ok doc.
Proof.
  intros Hdata Hdate Hsupplier Hitems Hne. unfold prepare_invoice.
  rewrite Hdata. cbn [rbind]. rewrite Hdate, Hsupplier. cbn [negb orb].
  assert (Hor : py_or (attr data "items") (PList []) = PList (map PDict items)).
  { unfold py_or. rewrite Hitems. destruct items; [contradiction | reflexivity]. }
  rewrite Hor.
  replace (truthy (PList (map PDict items))) with true
    by (destruct items; [contradiction | reflexivity]).
  cbn [negb py_iter rbind]. rewrite total_items_total. cbn [rbind]. eauto.
Qed.

(** The fields of the document an accepted payload yields. *)
Lemma prepared_fields (form : pydict) (time : string) (doc : pydict) :
  prepare_invoice form time = Ok doc ->
  exists data items,
    request_data form = Ok data
    /\ attr data "items" = PList (map PDict items)
    /\ items <> []
    /\ attr doc "grand_total" =
       PFloat (fold_left (fun total it => PrimFloat.add total (line_total it)) items 0%float)
    /\ attr doc "total_commissions_and_taxes" =
       PFloat (commissions_and_taxes
                 (fold_left (fun total it => PrimFloat.add total (line_total it)) items 0%float)
                 (effective_rate data "commission_rate" 5)
                 (effective_rate data "tax_rate" 15))
    /\ attr doc "lock_update" = PInt 1
    /\ attr doc "is_draft" = PInt 1.
Proof.
  intros H. destruct (prepare_invoice_inv form time doc H)
    as [data [items [Hdata [_ [_ [Hitems [Hne Hdoc]]]]]]].
  cbv zeta in Hdoc. exists data, items. subst doc.
  repeat split; auto; rewrite attr_append_rows_other by discriminate; reflexivity.
Qed.

(** C3, as the code has it.  The document an accepted payload yields, which
    [create_invoice_form] hands to the insert, has as [grand_total] the sum,
    from 0.0 and in list order, of the items' line totals, where a line total
    is the item's total when that converts to a non-zero number and qty times
    price otherwise. *)
Theorem grand_total_sums_line_totals (w : W) (doc : pydict) :
  prepare_invoice (form_dict w) (nowtime w) = Ok doc ->
  create_invoice_form w =
  bind (doc_insert doc true) (fun doc' => lift (created_response doc')) w
  /\ exists data items,
       request_data (form_dict w) = Ok data
       /\ attr data "items" = PList (map PDict items)
       /\ attr doc "grand_total" =
          PFloat (fold_left (fun total it => PrimFloat.add total (line_total it))
                            items 0%float)
       /\ forall it,
            line_total it =
            if float_truthy (flt (attr it "total")) then flt (attr it "total")
            else PrimFloat.mul
                   (flt (py_or (attr it "qty") (py_or (attr it "quantity") (PInt 0))))
                   (flt (py_or (attr it "price") (PInt 0))).
Proof.
  intros H. split; [now apply create_invoice_form_inserts|].
  destruct (prepared_fields _ _ _ H) as [data [items [Hd [Hi [_ [Hg _]]]]]].
  exists data, items. repeat split; auto.
Qed.

(** C4, as the code has it.  The document an accepted payload yields has
    [total_commissions_and_taxes] equal to
    [(g * c / 100) + ((g * c / 100) * t / 100)] for its grand total [g], where
    the commission rate [c] is the payload's [commission_rate] when that is
    truthy and 5 when it is absent or falsy, and the tax rate [t] is the
    payload's [tax_rate] when truthy and 15 when absent or falsy. *)
Theorem commissions_and_taxes_formula (w : W) (doc : pydict) :
  prepare_invoice (form_dict w) (nowtime w) = Ok doc ->
  create_invoice_form w =
  bind (doc_insert doc true) (fun doc' => lift (created_response doc')) w
  /\ exists data g c t,
    request_data (form_dict w) = Ok data
    /\ attr doc "grand_total" = PFloat g
    /\ attr doc "total_commissions_and_taxes" =
       PFloat (PrimFloat.add
                 (PrimFloat.div (PrimFloat.mul g c) 100%float)
                 (PrimFloat.div
                    (PrimFloat.mul (PrimFloat.div (PrimFloat.mul g c) 100%float) t)
                    100%float))
    /\ c = flt (if truthy (attr data "commission_rate")
                then attr data "commission_rate" else PInt 5)
    /\ t = flt (if truthy (attr data "tax_rate") then attr data "tax_rate" else PInt 15)
    /\ (dict_get data "commission_rate" = None -> c = flt (PInt 5))
    /\ (dict_get data "tax_rate" = None -> t = flt (PInt 15)).
Proof.
  intros H. split; [now apply create_invoice_form_inserts|].
  destruct (prepared_fields _ _ _ H) as [data [items [Hd [_ [_ [Hg [Ht _]]]]]]].
  exists data. eexists. exists (effective_rate data "commission_rate" 5),
                          (effective_rate data "tax_rate" 15).
  repeat split; try eassumption; try reflexivity.
  - intros Hnone. unfold effective_rate, py_or, attr. now rewrite Hnone.
  - intros Hnone. unfold effective_rate, py_or, attr. now rewrite Hnone.
Qed.

(** C9, as the code has it.  When the payload's [commission_rate] is
    falsy (the number 0 included), the totals of the created document are
    computed with the default 5 in its place, and when its [tax_rate] is
    falsy, with the default 15: a falsy rate never reaches the formula.  A
    truthy rate is not replaced: the formula takes what [flt] makes of it,
    whatever that is, so a rate that is truthy and converts to zero is a zero
    rate in the document. *)
Theorem falsy_rates_are_replaced (w : W) (doc data : pydict) :
  prepare_invoice (form_dict w) (nowtime w) = Ok doc ->
  request_data (form_dict w) = Ok data ->
  create_invoice_form w =
  bind (doc_insert doc true) (fun doc' => lift (created_response doc')) w
  /\ exists g,
    attr doc "grand_total" = PFloat g
    /\ (truthy (attr data "commission_rate") = false ->
        attr doc "total_commissions_and_taxes" =
        PFloat (commissions_and_taxes g (flt (PInt 5)) (effective_rate data "tax_rate" 15)))
    /\ (truthy (attr data "tax_rate") = false ->
        attr doc "total_commissions_and_taxes" =
        PFloat (commissions_and_taxes g (effective_rate data "commission_rate" 5)
                                      (flt (PInt 15))))
    /\ (truthy (attr data "commission_rate") = false ->
        truthy (attr data "tax_rate") = false ->
        attr doc "total_commissions_and_taxes" =
        PFloat (commissions_and_taxes g (flt (PInt 5)) (flt (PInt 15))))
    /\ (truthy (attr data "commission_rate") = true ->
        attr doc "total_commissions_and_taxes" =
        PFloat (commissions_and_taxes g (flt (attr data "commission_rate"))
                                      (effective_rate data "tax_rate" 15)))
    /\ (truthy (attr data "tax_rate") = true ->
        attr doc "total_commissions_and_taxes" =
        PFloat (commissions_and_taxes g (effective_rate data "commission_rate" 5)
                                      (flt (attr data "tax_rate")))).
Proof.
  intros H Hdata. split; [now apply create_invoice_form_inserts|].
  destruct (prepared_fields _ _ _ H) as [data' [items [Hd [_ [_ [Hg [Ht _]]]]]]].
  assert (data' = data) by congruence. subst data'.
  eexists. split; [exact Hg|].
  unfold effective_rate, py_or in *.
  repeat split.
  - intros Hc. now rewrite Hc in Ht.
  - intros Hx. now rewrite Hx in Ht.
  - intros Hc Hx. now rewrite Hc, Hx in Ht.
  - intros Hc. now rewrite Hc in Ht.
  - intros Hx. now rewrite Hx in Ht.
Qed.

Lemma shape_detail_item_total (it : pyval) :
  converts (getattr it "qty" (PInt 0)) ->
  converts (getattr it "price" (PInt 0)) ->
  converts (getattr it "total" (PInt 0)) ->
  exists v, shape_detail_item it = Ok v.
Proof.
  intros [q Hq] [p Hp] [t Ht]. unfold shape_detail_item.
  rewrite Hq, Hp, Ht. simpl. eauto.
Qed.

(** The detail view of a readable stored document reports [is_locked] as
    the truth value of its [lock_update]. *)
Lemma get_invoice_details_returns (w : W) (name : string) (doc : pydict) :
  name <> "" ->
  get_doc w "Invoice Form" name = Ok doc ->
  doc_has_permission w doc "read" = true ->
  detail_readable doc ->
  exists resp,
    get_invoice_details name w = (Ok resp, w)
    /\ field resp "is_locked" =
       Some (PBool (truthy (getattr (PDict doc) "lock_update" (PBool false)))).
Proof.
  intros Hname Hdoc Hperm [[status Hs] [[rows [Hrows Hall]] [[a Ha] [t Ht]]]].
  destruct (map_result_total shape_detail_item rows) as [items Hitems].
  { rewrite Forall_forall in *. intros it Hin.
    destruct (Hall it Hin) as [Hq [Hp Htot]]. now apply shape_detail_item_total. }
  unfold get_invoice_details. destruct (String.eqb_spec name ""); [contradiction|].
  unfold bind, try_read, read, lift, ret, throw.
  rewrite Hdoc, Hperm, Hs, Hrows, Hitems, Ha, Ht. simpl.
  eexists. split; reflexivity.
Qed.

(** C10.  The document an accepted payload yields, which
    [create_invoice_form] hands to the insert, has [lock_update] and
    [is_draft] set to 1; and for a stored document that keeps this
    [lock_update], [get_invoice_details] reports [is_locked] as true. *)
Theorem created_invoice_is_locked (w : W) (doc : pydict) :
  prepare_invoice (form_dict w) (nowtime w) = Ok doc ->
  attr doc "lock_update" = PInt 1
  /\ attr doc "is_draft" = PInt 1
  /\ create_invoice_form w =
     bind (doc_insert doc true) (fun doc' => lift (created_response doc')) w
  /\ forall (w' : W) (name : string) (stored : pydict),
       name <> "" ->
       get_doc w' "Invoice Form" name = Ok stored ->
       doc_has_permission w' stored "read" = true ->
       attr stored "lock_update" = attr doc "lock_update" ->
       detail_readable stored ->
       exists resp,
         get_invoice_details name w' = (Ok resp, w')
         /\ field resp "is_locked" = Some (PBool true).
Proof.
  intros H.
  destruct (prepared_fields _ _ _ H) as [data [items [_ [_ [_ [_ [_ [Hlock Hdraft]]]]]]]].
  repeat split; auto.
  - now apply create_invoice_form_inserts.
  - intros w' name stored Hname Hdoc Hperm Hkeep Hread.
    destruct (get_invoice_details_returns w' name stored Hname Hdoc Hperm Hread)
      as [resp [Hresp Hlocked]].
    exists resp. split; [exact Hresp|].
    rewrite Hlocked. rewrite Hlock in Hkeep.
    unfold attr in Hkeep. unfold getattr.
    destruct (dict_get stored "lock_update"); [|discriminate].
    now subst.
Qed.

End CreationClaims.

(** *** The handlers on the sample world *)

Section SampleRuns.
Import Fixture.

Lemma pfloat_neq (x y : float) :
  PrimFloat.eqb x y = false -> PrimFloat.eqb y y = true -> PFloat x <> PFloat y.
Proof. intros Hxy Hyy E. inversion E; subst. congruence. Qed.

(** C1.  With three stored invoices, page 1 of size 20 and the search text
    "acme", [get_invoices] fetches all three rows, keeps the one that
    matches, and reports [has_more] as true although every row is already
    on the fetched page and the next page is empty: [has_more] compares the
    count with the rows left after the search, not with the rows fetched. *)
Theorem get_invoices_search_reports_more :
  get_invoices PNone PNone PNone (PInt 1) (PInt 20) (PStr "acme") ledger =
  (Ok (PDict [("invoices", PList [acme_listing]);
              ("page", PInt 1);
              ("page_size", PInt 20);
              ("total_count", PInt 3);
              ("has_more", PBool true)]), ledger)
  /\ length (get_all ledger (invoice_query [] 0 20)) = 3%nat
  /\ get_all ledger (invoice_query [] 20 20) = [].
Proof. repeat split; vm_compute; reflexivity. Qed.

(** The same request without the search text: [has_more] is false. *)
Lemma get_invoices_plain_reports_no_more :
  field (value PNone (fst (get_invoices PNone PNone PNone (PInt 1) (PInt 20) PNone ledger)))
        "has_more" = Some (PBool false).
Proof. vm_compute. reflexivity. Qed.

(** C2 fails as stated: for a user the oracle grants nothing,
    [create_invoice_form] raises no permission error and stores a fourth
    invoice. *)
Lemma create_invoice_form_without_permission :
  let w := posting (locked_out ledger) plain_payload in
  (forall doctype ptype, has_permission w doctype ptype = false)
  /\ (forall doc ptype, doc_has_permission w doc ptype = false)
  /\ ~ refused create_invoice_form w
  /\ exists resp w',
       create_invoice_form w = (Ok resp, w')
       /\ field resp "name" = Some (PStr "INV-4")
       /\ length (table w "Invoice Form") = 3%nat
       /\ length (table w' "Invoice Form") = 4%nat.
Proof.
  cbv zeta. split; [reflexivity|]. split; [reflexivity|]. split.
  - unfold refused. vm_compute. discriminate.
  - exists (value PNone (fst (create_invoice_form (posting (locked_out ledger) plain_payload)))),
           (snd (create_invoice_form (posting (locked_out ledger) plain_payload))).
    repeat split; vm_compute; reflexivity.
Qed.

(** C2 on the sample world: with nothing granted, every handler that asks
    the oracle is refused. *)
Lemma denied_permission_is_refused_witness :
  let w := locked_out ledger in
  refused (get_invoices PNone PNone PNone (PInt 1) (PInt 20) PNone) w
  /\ refused (get_invoice_details "INV-1") w
  /\ refused (update_invoice "INV-1" (PDict [("supplier", PStr "S2")])) w
  /\ refused (submit_invoice "INV-1") w
  /\ refused (delete_invoice "INV-1") w
  /\ refused (get_supplier (PInt 1) (PInt 20) PNone) w
  /\ refused (get_customer (PInt 1) (PInt 20) PNone) w
  /\ refused (get_items (PInt 1) (PInt 20) PNone) w.
Proof.
  cbv zeta.
  destruct (denied_permission_is_refused (locked_out ledger)) as [Hlist [Hdoc [Hlookup _]]].
  destruct (Hdoc "INV-1" (invoice "INV-1" "2025-08-11" "S3" "Delta Growers" 75%float 0))
    as [Hread [Hwrite [Hsubmit Hdelete]]]; [discriminate | reflexivity |].
  destruct (Hlookup (PInt 1) (PInt 20) PNone) as [Hs [Hc Hi]].
  split; [apply Hlist; reflexivity|].
  split; [apply Hread; reflexivity|].
  split; [apply Hwrite; reflexivity|].
  split; [apply Hsubmit; reflexivity|].
  split; [apply Hdelete; reflexivity|].
  split; [apply Hs; reflexivity|].
  split; [apply Hc; reflexivity | apply Hi; reflexivity].
Defined.

(** C3 fails as stated: an item sent with total 0, qty 2 and price 3 counts
    for 6, so the grand total is 6 and not the provided total 0. *)
Lemma zero_total_is_replaced :
  let w := posting ledger zero_total_payload in
  prepare_invoice (form_dict w) (nowtime w) = Ok (prepared w)
  /\ request_data (form_dict w) = Ok zero_total_payload
  /\ attr zero_total_payload "items" = PList (map PDict [free_line])
  /\ attr (prepared w) "grand_total" = PFloat 6%float
  /\ spec_grand_total [free_line] = 0%float
  /\ attr (prepared w) "grand_total" <> PFloat (spec_grand_total [free_line]).
Proof.
  cbv zeta. repeat split; try (vm_compute; reflexivity).
  vm_compute. apply pfloat_neq; reflexivity.
Qed.

(** C3 on the sample world: the line totals 3 * 2.5 and 10 add up to 17.5. *)
Lemma grand_total_sums_line_totals_witness :
  let w := posting ledger plain_payload in
  prepare_invoice (form_dict w) (nowtime w) = Ok (prepared w)
  /\ attr (prepared w) "grand_total" = PFloat 17.5%float
  /\ field (value PNone (fst (create_invoice_form w))) "grand_total"
     = Some (PFloat 17.5%float)
  /\ create_invoice_form w =
     bind (doc_insert (prepared w) true) (fun doc' => lift (created_response doc')) w
  /\ exists data items,
       request_data (form_dict w) = Ok data
       /\ attr data "items" = PList (map PDict items)
       /\ attr (prepared w) "grand_total" =
          PFloat (fold_left (fun total it => PrimFloat.add total (line_total it))
                            items 0%float)
       /\ forall it,
            line_total it =
            if float_truthy (flt (attr it "total")) then flt (attr it "total")
            else PrimFloat.mul
                   (flt (py_or (attr it "qty") (py_or (attr it "quantity") (PInt 0))))
                   (flt (py_or (attr it "price") (PInt 0))).
Proof.
  cbv zeta.
  assert (H : prepare_invoice (form_dict (posting ledger plain_payload))
                (nowtime (posting ledger plain_payload))
              = Ok (prepared (posting ledger plain_payload))) by (vm_compute; reflexivity).
  split; [exact H|]. do 2 (split; [vm_compute; reflexivity|]).
  exact (grand_total_sums_line_totals (posting ledger plain_payload)
           (prepared (posting ledger plain_payload)) H).
Defined.

(** C4 fails as stated: with the commission rate sent as 0 and a grand total
    of 100, the formula at rate 0 gives 0, but the document carries 5.75,
    the value at the default rate 5. *)
Lemma zero_commission_is_replaced :
  let w := posting ledger zero_commission_payload in
  prepare_invoice (form_dict w) (nowtime w) = Ok (prepared w)
  /\ request_data (form_dict w) = Ok zero_commission_payload
  /\ dict_get zero_commission_payload "commission_rate" = Some (PInt 0)
  /\ attr (prepared w) "grand_total" = PFloat 100%float
  /\ attr (prepared w) "total_commissions_and_taxes" = PFloat 5.75%float
  /\ spec_commissions_and_taxes zero_commission_payload 100%float = 0%float
  /\ attr (prepared w) "total_commissions_and_taxes" <>
     PFloat (spec_commissions_and_taxes zero_commission_payload 100%float).
Proof.
  cbv zeta. repeat split; try (vm_compute; reflexivity).
  vm_compute. apply pfloat_neq; reflexivity.
Qed.

(** C4 on the sample world: no rates sent, grand total 17.5. *)
Lemma commissions_and_taxes_formula_witness :
  let w := posting ledger plain_payload in
  prepare_invoice (form_dict w) (nowtime w) = Ok (prepared w)
  /\ attr (prepared w) "grand_total" = PFloat 17.5%float
  /\ attr (prepared w) "total_commissions_and_taxes" = PFloat 0x1.019999999999ap+0%float
  /\ create_invoice_form w =
     bind (doc_insert (prepared w) true) (fun doc' => lift (created_response doc')) w
  /\ exists data g c t,
       request_data (form_dict w) = Ok data
       /\ attr (prepared w) "grand_total" = PFloat g
       /\ attr (prepared w) "total_commissions_and_taxes" =
          PFloat (PrimFloat.add
                    (PrimFloat.div (PrimFloat.mul g c) 100%float)
                    (PrimFloat.div
                       (PrimFloat.mul (PrimFloat.div (PrimFloat.mul g c) 100%float) t)
                       100%float))
       /\ c = flt (if truthy (attr data "commission_rate")
                   then attr data "commission_rate" else PInt 5)
       /\ t = flt (if truthy (attr data "tax_rate") then attr data "tax_rate" else PInt 15)
       /\ (dict_get data "commission_rate" = None -> c = flt (PInt 5))
       /\ (dict_get data "tax_rate" = None -> t = flt (PInt 15)).
Proof.
  cbv zeta.
  assert (H : prepare_invoice (form_dict (posting ledger plain_payload))
                (nowtime (posting ledger plain_payload))
              = Ok (prepared (posting ledger plain_payload))) by (vm_compute; reflexivity).
  split; [exact H|]. do 2 (split; [vm_compute; reflexivity|]).
  exact (commissions_and_taxes_formula (posting ledger plain_payload)
           (prepared (posting ledger plain_payload)) H).
Defined.

(** C5 on the sample world: the submitted INV-2 is rejected and the world
    kept; the draft INV-3 is submitted and comes back with docstatus 1. *)
Lemma submit_only_drafts_witness :
  submit_invoice "INV-2" ledger =
  (Raise (ValidationError "Only draft invoices can be submitted"), ledger)
  /\ exists w',
       submit_invoice "INV-3" ledger =
       (Ok (PDict [("name", PStr "INV-3"); ("docstatus", PInt 1)]), w')
       /\ get_doc w' "Invoice Form" "INV-3" =
          Ok (dict_set (invoice "INV-3" "2025-08-13" "S1" "Acme Farms" 100%float 0)
                       "docstatus" (PInt 1)).
Proof.
  split.
  - destruct (submit_only_drafts ledger "INV-2"
                (invoice "INV-2" "2025-08-12" "S2" "Green Valley" 250.5%float 1))
      as [Hrejected _]; [discriminate | reflexivity |].
    exact (Hrejected eq_refl).
  - destruct (submit_only_drafts ledger "INV-3"
                (invoice "INV-3" "2025-08-13" "S1" "Acme Farms" 100%float 0))
      as [_ Hdraft]; [discriminate | reflexivity |].
    destruct (Hdraft eq_refl eq_refl) as [_ Hrun].
    pose (d := dict_set (invoice "INV-3" "2025-08-13" "S1" "Acme Farms" 100%float 0)
                        "docstatus" (PInt 1)).
    exists (store d ledger). split.
    + exact (Hrun d (store d ledger) (store d ledger) eq_refl eq_refl).
    + vm_compute. reflexivity.
Defined.

(** C6 on the sample world: the page "abc" is answered as page 1 and the
    page size 500 as 100 by [get_invoices] and as 200 by the lookups. *)
Lemma page_and_page_size_clamped_witness :
  (exists resp,
      get_invoices PNone PNone PNone (PStr "abc") (PInt 500) PNone ledger = (Ok resp, ledger)
      /\ clamped resp (PStr "abc") (PInt 500) 100
      /\ field resp "page" = Some (PInt 1) /\ field resp "page_size" = Some (PInt 100))
  /\ (exists resp,
         get_supplier (PStr "abc") (PInt 500) PNone ledger = (Ok resp, ledger)
         /\ clamped resp (PStr "abc") (PInt 500) 200
         /\ field resp "page" = Some (PInt 1) /\ field resp "page_size" = Some (PInt 200))
  /\ (exists resp,
         get_customer (PStr "abc") (PInt 500) PNone ledger = (Ok resp, ledger)
         /\ clamped resp (PStr "abc") (PInt 500) 200)
  /\ (exists resp,
         get_items (PStr "abc") (PInt 500) PNone ledger = (Ok resp, ledger)
         /\ clamped resp (PStr "abc") (PInt 500) 200).
Proof.
  destruct (page_and_page_size_clamped ledger (PStr "abc") (PInt 500))
    as [Hinvoices [Hsupplier [Hcustomer Hitems]]].
  split; [|split; [|split]].
  - destruct (Hinvoices PNone PNone PNone PNone) as [resp [Hrun Hclamped]].
    + reflexivity.
    + unfold amounts_convert.
      match goal with
      | |- Forall _ ?rows => let fetched := eval vm_compute in rows in change rows with fetched
      end.
      repeat (constructor; [eexists; reflexivity|]). constructor.
    + exists resp. split; [exact Hrun|]. split; [exact Hclamped|].
      destruct Hclamped as [p [s [Hp [Hs [-> [-> _]]]]]]. split; assumption.
  - destruct (Hsupplier PNone) as [resp [Hrun Hclamped]]; [reflexivity|].
    exists resp. split; [exact Hrun|]. split; [exact Hclamped|].
    destruct Hclamped as [p [s [Hp [Hs [-> [-> _]]]]]]. split; assumption.
  - apply Hcustomer. reflexivity.
  - apply Hitems. reflexivity.
Defined.

(** C7 on the sample world: with page size 2, [get_supplier] fetches the
    three stored suppliers, returns two and sets [has_more]; [get_customer]
    fetches the two stored customers and [get_items] the second page, and
    neither sets it. *)
Lemma lookups_fetch_one_extra_row_witness :
  get_supplier (PInt 1) (PInt 2) PNone ledger =
  (Ok (PDict [("suppliers",
               PList [PDict [("id", PStr "S1"); ("name", PStr "Acme Farms")];
                      PDict [("id", PStr "S2"); ("name", PStr "Green Valley")]]);
              ("page", PInt 1); ("page_size", PInt 2); ("has_more", PBool true)]), ledger)
  /\ (exists or_filters resp,
         get_supplier (PInt 1) (PInt 2) PNone ledger = (Ok resp, ledger)
         /\ lookup_page resp "suppliers" 2
              (get_all ledger
                 (lookup_query "Supplier" ["name as id"; "supplier_name as name"]
                    [filter3 "is_farmer" "=" (PInt 1)] or_filters
                    "supplier_name asc, name asc" 0 3)))
  /\ (exists or_filters resp,
         get_customer (PInt 1) (PInt 2) PNone ledger = (Ok resp, ledger)
         /\ lookup_page resp "customers" 2
              (get_all ledger
                 (lookup_query "Customer" ["name as id"; "customer_name as name"]
                    [] or_filters "customer_name asc, name asc" 0 3)))
  /\ (exists or_filters resp,
         get_items (PInt 1) (PInt 2) PNone ledger = (Ok resp, ledger)
         /\ lookup_page resp "items" 2
              (get_all ledger
                 (lookup_query "Item" ["name as id"; "item_name as name"]
                    [filter3 "disabled" "=" (PInt 0)] or_filters
                    "item_name asc, name asc" 0 3))).
Proof.
  destruct (lookups_fetch_one_extra_row ledger (PInt 1) (PInt 2) PNone)
    as [Hsupplier [Hcustomer Hitems]].
  split; [vm_compute; reflexivity|].
  split; [exact (Hsupplier eq_refl)|].
  split; [exact (Hcustomer eq_refl) | exact (Hitems eq_refl)].
Defined.

(** C8 on the sample world: the listed invoice carries the constant
    permission object. *)
Lemma list_permission_is_constant_witness :
  get_invoices PNone PNone PNone (PInt 1) (PInt 20) (PStr "acme") ledger =
  (Ok (PDict [("invoices", PList [acme_listing]);
              ("page", PInt 1);
              ("page_size", PInt 20);
              ("total_count", PInt 3);
              ("has_more", PBool true)]), ledger)
  /\ field acme_listing "permission" =
     Some (PDict [("can_update", PBool true); ("can_delete", PBool true);
                  ("can_submit", PBool true); ("locked", PBool false)]).
Proof.
  assert (H : get_invoices PNone PNone PNone (PInt 1) (PInt 20) (PStr "acme") ledger =
              (Ok (PDict [("invoices", PList [acme_listing]);
                          ("page", PInt 1);
                          ("page_size", PInt 20);
                          ("total_count", PInt 3);
                          ("has_more", PBool true)]), ledger))
    by (vm_compute; reflexivity).
  split; [exact H|].
  exact (list_permission_is_constant ledger ledger PNone PNone PNone (PInt 1) (PInt 20)
           (PStr "acme") _ [acme_listing] acme_listing H eq_refl (or_introl eq_refl)).
Defined.

(** C9 on the sample world: with both rates sent as 0 and a grand total of
    100, the document carries 5.75, the value at the rates 5 and 15. *)
Lemma falsy_rates_are_replaced_witness :
  let w := posting ledger zero_rates_payload in
  prepare_invoice (form_dict w) (nowtime w) = Ok (prepared w)
  /\ request_data (form_dict w) = Ok zero_rates_payload
  /\ attr zero_rates_payload "commission_rate" = PInt 0
  /\ attr zero_rates_payload "tax_rate" = PInt 0
  /\ flt (PInt 5) = 5%float /\ flt (PInt 15) = 15%float
  /\ attr (prepared w) "total_commissions_and_taxes" = PFloat 5.75%float
  /\ exists g,
       attr (prepared w) "grand_total" = PFloat g
       /\ attr (prepared w) "total_commissions_and_taxes" =
          PFloat (commissions_and_taxes g (flt (PInt 5)) (flt (PInt 15))).
Proof.
  cbv zeta.
  assert (H : prepare_invoice (form_dict (posting ledger zero_rates_payload))
                (nowtime (posting ledger zero_rates_payload))
              = Ok (prepared (posting ledger zero_rates_payload)))
    by (vm_compute; reflexivity).
  assert (Hdata : request_data (form_dict (posting ledger zero_rates_payload))
                  = Ok zero_rates_payload) by reflexivity.
  split; [exact H|]. split; [exact Hdata|].
  do 5 (split; [vm_compute; reflexivity|]).
  destruct (falsy_rates_are_replaced (posting ledger zero_rates_payload)
              (prepared (posting ledger zero_rates_payload)) zero_rates_payload H Hdata)
    as [_ [g [Hg [_ [_ [Hboth _]]]]]].
  exists g. split; [exact Hg|]. exact (Hboth eq_refl eq_refl).
Defined.

(** Against C9 as the specification words it ("a zero commission or tax
    rate cannot be requested"): the rates sent as the texts "0" and "0.0"
    are truthy, so no default takes their place; [flt] converts both to 0.0,
    and the invoice of a grand total of 100 is created with commissions and
    taxes of 0, not the 5.75 of the default rates. *)
Lemma zero_rate_sent_as_text :
  let w := posting ledger text_zero_payload in
  prepare_invoice (form_dict w) (nowtime w) = Ok (prepared w)
  /\ request_data (form_dict w) = Ok text_zero_payload
  /\ attr text_zero_payload "commission_rate" = PStr "0"
  /\ attr text_zero_payload "tax_rate" = PStr "0.0"
  /\ truthy (attr text_zero_payload "commission_rate") = true
  /\ truthy (attr text_zero_payload "tax_rate") = true
  /\ effective_rate text_zero_payload "commission_rate" 5 = 0%float
  /\ effective_rate text_zero_payload "tax_rate" 15 = 0%float
  /\ attr (prepared w) "grand_total" = PFloat 100%float
  /\ attr (prepared w) "total_commissions_and_taxes" = PFloat 0%float
  /\ commissions_and_taxes 100%float (flt (PInt 5)) (flt (PInt 15)) = 5.75%float
  /\ attr (prepared w) "total_commissions_and_taxes"
     <> PFloat (commissions_and_taxes 100%float (flt (PInt 5)) (flt (PInt 15)))
  /\ exists created,
       fst (create_invoice_form w) = Ok (PDict created)
       /\ attr created "name" = PStr "INV-4"
       /\ attr created "grand_total" = PFloat 100%float
       /\ attr created "total_commissions_and_taxes" = PFloat 0%float.
Proof.
  cbv zeta.
  do 11 (split; [vm_compute; reflexivity|]).
  split; [vm_compute; apply pfloat_neq; reflexivity|].
  eexists. split; [vm_compute; reflexivity|].
  repeat split; vm_compute; reflexivity.
Qed.

(** C10 on the sample world: the invoice created from the sample payload is
    stored as INV-4, and its detail view reports [is_locked] as true. *)
Lemma created_invoice_is_locked_witness :
  let w := posting ledger plain_payload in
  let w' := snd (create_invoice_form w) in
  prepare_invoice (form_dict w) (nowtime w) = Ok (prepared w)
  /\ attr (prepared w) "lock_update" = PInt 1
  /\ attr (prepared w) "is_draft" = PInt 1
  /\ field (value PNone (fst (create_invoice_form w))) "name" = Some (PStr "INV-4")
  /\ exists resp,
       get_invoice_details "INV-4" w' = (Ok resp, w')
       /\ field resp "is_locked" = Some (PBool true).
Proof.
  cbv zeta.
  assert (H : prepare_invoice (form_dict (posting ledger plain_payload))
                (nowtime (posting ledger plain_payload))
              = Ok (prepared (posting ledger plain_payload))) by (vm_compute; reflexivity).
  destruct (created_invoice_is_locked (posting ledger plain_payload)
              (prepared (posting ledger plain_payload)) H)
    as [Hlock [Hdraft [_ Hdetails]]].
  split; [exact H|]. split; [exact Hlock|]. split; [exact Hdraft|].
  split; [vm_compute; reflexivity|].
  apply (Hdetails (snd (create_invoice_form (posting ledger plain_payload))) "INV-4"
           (value [] (get_doc (snd (create_invoice_form (posting ledger plain_payload)))
                              "Invoice Form" "INV-4"))).
  - discriminate.
  - vm_compute. reflexivity.
  - vm_compute. reflexivity.
  - vm_compute. reflexivity.
  - repeat split.
    + eexists. vm_compute. reflexivity.
    + eexists. split; [vm_compute; reflexivity|].
      repeat (constructor; [repeat split; eexists; vm_compute; reflexivity|]).
      constructor.
    + eexists. vm_compute. reflexivity.
    + eexists. vm_compute. reflexivity.
Defined.

End SampleRuns.

(* ================================================================== *)
(** ** Further properties of the handlers *)

Section EarlyFailures.
Context {W : Type} {fw : Framework W}.

(** X1.  The four handlers that take an invoice name check the name before
    anything else and load the document before asking for a permission: an
    empty name gives the validation error "Missing invoice name", and an
    error of [get_doc] (a name that does not exist) is what the handler
    raises; in both cases the world is left as it was. *)
Theorem document_handlers_fail_early (w : W) (name : string) (data : pyval) :
  (name = "" ->
   get_invoice_details name w = (Raise (ValidationError "Missing invoice name"), w)
   /\ update_invoice name data w = (Raise (ValidationError "Missing invoice name"), w)
   /\ submit_invoice name w = (Raise (ValidationError "Missing invoice name"), w)
   /\ delete_invoice name w = (Raise (ValidationError "Missing invoice name"), w))
  /\ (forall e,
         name <> "" ->
         get_doc w "Invoice Form" name = Raise e ->
         get_invoice_details name w = (Raise e, w)
         /\ update_invoice name data w = (Raise e, w)
         /\ submit_invoice name w = (Raise e, w)
         /\ delete_invoice name w = (Raise e, w)).
Proof.
  split.
  - intros ->. repeat split; reflexivity.
  - intros e Hname Hdoc.
    unfold get_invoice_details, update_invoice, submit_invoice, delete_invoice.
    destruct (String.eqb_spec name ""); [contradiction|].
    unfold bind, try_read. rewrite Hdoc. repeat split; reflexivity.
Qed.

Ltac run_handler :=
  unfold bind, read, try_read, lift, ret, throw;
  repeat match goal with
         | |- context [match ?x with _ => _ end] => destruct x; cbn [snd]
         end;
  try reflexivity.

(** X2.  The reading handlers never change the world, whatever they are
    given and whether they answer or raise. *)
Theorem reading_handlers_keep_the_world (w : W) :
  (forall start_date end_date supplier page page_size search,
      snd (get_invoices start_date end_date supplier page page_size search w) = w)
  /\ (forall name, snd (get_invoice_details name w) = w)
  /\ (forall page page_size search, snd (get_supplier page page_size search w) = w)
  /\ (forall page page_size search, snd (get_customer page page_size search w) = w)
  /\ (forall page page_size search, snd (get_items page page_size search w) = w).
Proof.
  repeat split; intros.
  - unfold get_invoices. run_handler.
  - unfold get_invoice_details. run_handler.
  - unfold get_supplier. run_handler.
  - unfold get_customer. run_handler.
  - unfold get_items. run_handler.
Qed.

End EarlyFailures.

Section ListHandlers.
Context {W : Type} {fw : Framework W}.

(** [get_invoices] as one permission test, one query, one count. *)
Lemma get_invoices_run (w : W) (start_date end_date supplier page page_size search : pyval) :
  get_invoices start_date end_date supplier page page_size search w =
  if has_permission w "Invoice Form" "read"
  then (list_answer page page_size search
          (get_all w (list_query start_date end_date supplier page page_size))
          (db_count w "Invoice Form" (invoice_filters start_date end_date supplier)), w)
  else (Raise (PermissionError "Not permitted"), w).
Proof.
  unfold get_invoices, list_answer, list_query, page_of, size_of, bind, read, lift, ret, throw.
  destruct (has_permission w "Invoice Form" "read"); [|reflexivity].
  cbv beta iota zeta delta [negb].
  destruct (map_result shape_invoice _); reflexivity.
Qed.

Lemma get_supplier_run (w : W) (page page_size search : pyval) :
  get_supplier page page_size search w =
  if has_permission w "Supplier" "read"
  then (Ok (lookup_answer "suppliers" supplier_entry page page_size
              (get_all w (supplier_query page page_size search))), w)
  else (Raise (PermissionError "Not permitted"), w).
Proof.
  unfold get_supplier, lookup_answer, supplier_query, supplier_entry, page_of, size_of,
    bind, read, ret, throw.
  destruct (has_permission w "Supplier" "read"); [|reflexivity].
  cbv beta iota zeta delta [negb]. now rewrite take_spec.
Qed.

Lemma get_customer_run (w : W) (page page_size search : pyval) :
  get_customer page page_size search w =
  if has_permission w "Customer" "read"
  then (Ok (lookup_answer "customers" customer_entry page page_size
              (get_all w (customer_query page page_size search))), w)
  else (Raise (PermissionError "Not permitted"), w).
Proof.
  unfold get_customer, lookup_answer, customer_query, customer_entry, page_of, size_of,
    bind, read, ret, throw.
  destruct (has_permission w "Customer" "read"); [|reflexivity].
  cbv beta iota zeta delta [negb]. now rewrite take_spec.
Qed.

Lemma get_items_run (w : W) (page page_size search : pyval) :
  get_items page page_size search w =
  if has_permission w "Item" "read"
  then (Ok (lookup_answer "items" item_entry page page_size
              (get_all w (item_query page page_size search))), w)
  else (Raise (PermissionError "Not permitted"), w).
Proof.
  unfold get_items, lookup_answer, item_query, item_entry, page_of, size_of,
    bind, read, ret, throw.
  destruct (has_permission w "Item" "read"); [|reflexivity].
  cbv beta iota zeta delta [negb]. now rewrite take_spec.
Qed.

Lemma window_length (start n : Z) (rows : list pydict) :
  0 <= start -> 0 <= n ->
  Z.of_nat (length (window start n rows))
  = Z.min n (Z.max 0 (Z.of_nat (length rows) - start)).
Proof.
  intros Hs Hn. unfold window. rewrite length_firstn, length_skipn. lia.
Qed.

Lemma take_window (start n : Z) (rows : list pydict) :
  0 <= n -> take n (window start (n + 1) rows) = window start n rows.
Proof.
  intros Hn. unfold take, window. rewrite firstn_firstn. f_equal. lia.
Qed.

Lemma start_nonneg (cap : Z) (page page_size : pyval) :
  0 <= (page_of page - 1) * size_of cap page_size.
Proof. unfold page_of, size_of. nia. Qed.

Lemma size_positive (cap : Z) (page_size : pyval) : 1 <= size_of cap page_size.
Proof. unfold size_of. lia. Qed.

(** X3.  Each list handler reads the world only through the permission
    oracle and one query (for [get_invoices] also one count, asked with the
    query's filters): two worlds that agree on these get the same answer.
    The lookups' queries always carry their fixed filter, [is_farmer = 1]
    for suppliers and [disabled = 0] for items, and none for customers,
    whatever the search. *)
Theorem list_handlers_read_one_query (w1 w2 : W) (page page_size search : pyval) :
  (forall start_date end_date supplier,
      has_permission w1 "Invoice Form" "read" = has_permission w2 "Invoice Form" "read" ->
      get_all w1 (list_query start_date end_date supplier page page_size)
      = get_all w2 (list_query start_date end_date supplier page page_size) ->
      db_count w1 "Invoice Form" (invoice_filters start_date end_date supplier)
      = db_count w2 "Invoice Form" (invoice_filters start_date end_date supplier) ->
      fst (get_invoices start_date end_date supplier page page_size search w1)
      = fst (get_invoices start_date end_date supplier page page_size search w2))
  /\ (has_permission w1 "Supplier" "read" = has_permission w2 "Supplier" "read" ->
      get_all w1 (supplier_query page page_size search)
      = get_all w2 (supplier_query page page_size search) ->
      fst (get_supplier page page_size search w1) = fst (get_supplier page page_size search w2))
  /\ (has_permission w1 "Customer" "read" = has_permission w2 "Customer" "read" ->
      get_all w1 (customer_query page page_size search)
      = get_all w2 (customer_query page page_size search) ->
      fst (get_customer page page_size search w1) = fst (get_customer page page_size search w2))
  /\ (has_permission w1 "Item" "read" = has_permission w2 "Item" "read" ->
      get_all w1 (item_query page page_size search)
      = get_all w2 (item_query page page_size search) ->
      fst (get_items page page_size search w1) = fst (get_items page page_size search w2))
  /\ q_filters (supplier_query page page_size search) = [filter3 "is_farmer" "=" (PInt 1)]
  /\ q_filters (customer_query page page_size search) = []
  /\ q_filters (item_query page page_size search) = [filter3 "disabled" "=" (PInt 0)].
Proof.
  repeat split.
  - intros sd ed sup Hp Hq Hc. rewrite !get_invoices_run, Hp, Hq, Hc.
    now destruct (has_permission w2 "Invoice Form" "read").
  - intros Hp Hq. rewrite !get_supplier_run, Hp, Hq.
    now destruct (has_permission w2 "Supplier" "read").
  - intros Hp Hq. rewrite !get_customer_run, Hp, Hq.
    now destruct (has_permission w2 "Customer" "read").
  - intros Hp Hq. rewrite !get_items_run, Hp, Hq.
    now destruct (has_permission w2 "Item" "read").
Qed.

(** X4.  Without a search text, and for an executor that answers with the
    window [[start, start + page_size)] of the matching rows and counts them
    all, [get_invoices] lists exactly that window, reports the count, and
    sets [has_more] exactly when rows lie beyond the page
    ([page * page_size < count]). *)
Theorem unsearched_pages_are_exact (w : W)
    (start_date end_date supplier page page_size search : pyval) (matching : list pydict) :
  let p := page_of page in
  let s := size_of 100 page_size in
  has_permission w "Invoice Form" "read" = true ->
  truthy search = false ->
  get_all w (list_query start_date end_date supplier page page_size)
  = window ((p - 1) * s) s matching ->
  db_count w "Invoice Form" (invoice_filters start_date end_date supplier)
  = Z.of_nat (length matching) ->
  amounts_convert (window ((p - 1) * s) s matching) ->
  exists invoices,
    map_result shape_invoice (window ((p - 1) * s) s matching) = Ok invoices
    /\ Z.of_nat (length invoices) <= s
    /\ get_invoices start_date end_date supplier page page_size search w =
       (Ok (PDict [("invoices", PList invoices);
                   ("page", PInt p);
                   ("page_size", PInt s);
                   ("total_count", PInt (Z.of_nat (length matching)));
                   ("has_more", PBool (Z.ltb (p * s) (Z.of_nat (length matching))))]), w).
Proof.
  intros p s Hperm Hsearch Hwindow Hcount Hconv.
  destruct (map_result_total shape_invoice _ Hconv) as [invoices Hshape].
  pose proof (map_result_length _ _ _ Hshape) as Hlen.
  pose proof (start_nonneg 100 page page_size) as Hstart.
  pose proof (size_positive 100 page_size) as Hsize.
  fold p s in Hstart, Hsize.
  assert (Hwl := window_length ((p - 1) * s) s matching Hstart ltac:(lia)).
  exists invoices. split; [exact Hshape|]. split; [lia|].
  rewrite get_invoices_run, Hperm, Hwindow, Hcount.
  unfold list_answer, search_rows. rewrite Hsearch. fold p s. rewrite Hshape.
  cbn [rbind]. do 6 f_equal.
  rewrite Hlen.
  destruct (Z.ltb_spec (p * s) (Z.of_nat (length matching)));
    destruct (Z.ltb_spec ((p - 1) * s + Z.of_nat (length (window ((p - 1) * s) s matching)))
                         (Z.of_nat (length matching))); try reflexivity; exfalso; nia.
Qed.

(** X5.  For an executor that answers with the window
    [[start, start + page_size + 1)] of the matching rows, each lookup
    returns exactly the rows [[start, start + page_size)] and sets
    [has_more] exactly when rows lie beyond the page
    ([page * page_size < number of matching rows]), with or without a
    search text. *)
Theorem lookup_pages_are_exact (w : W) (page page_size search : pyval)
    (matching : list pydict) :
  let p := page_of page in
  let s := size_of 200 page_size in
  (has_permission w "Supplier" "read" = true ->
   get_all w (supplier_query page page_size search)
   = window ((p - 1) * s) (s + 1) matching ->
   get_supplier page page_size search w =
   (Ok (PDict [("suppliers", PList (map supplier_entry (window ((p - 1) * s) s matching)));
               ("page", PInt p);
               ("page_size", PInt s);
               ("has_more", PBool (Z.ltb (p * s) (Z.of_nat (length matching))))]), w))
  /\ (has_permission w "Customer" "read" = true ->
      get_all w (customer_query page page_size search)
      = window ((p - 1) * s) (s + 1) matching ->
      get_customer page page_size search w =
      (Ok (PDict [("customers",
                   PList (map customer_entry (window ((p - 1) * s) s matching)));
                  ("page", PInt p);
                  ("page_size", PInt s);
                  ("has_more", PBool (Z.ltb (p * s) (Z.of_nat (length matching))))]), w))
  /\ (has_permission w "Item" "read" = true ->
      get_all w (item_query page page_size search)
      = window ((p - 1) * s) (s + 1) matching ->
      get_items page page_size search w =
      (Ok (PDict [("items", PList (map item_entry (window ((p - 1) * s) s matching)));
                  ("page", PInt p);
                  ("page_size", PInt s);
                  ("has_more", PBool (Z.ltb (p * s) (Z.of_nat (length matching))))]), w)).
Proof.
  intros p s.
  pose proof (start_nonneg 200 page page_size) as Hstart.
  pose proof (size_positive 200 page_size) as Hsize.
  fold p s in Hstart, Hsize.
  assert (Hwl := window_length ((p - 1) * s) (s + 1) matching Hstart ltac:(lia)).
  assert (Hmore : Z.gtb (Z.of_nat (length (window ((p - 1) * s) (s + 1) matching))) s
                  = Z.ltb (p * s) (Z.of_nat (length matching))).
  { destruct (Z.ltb_spec (p * s) (Z.of_nat (length matching)));
      destruct (Z.gtb_spec (Z.of_nat (length (window ((p - 1) * s) (s + 1) matching))) s);
      try reflexivity; exfalso; nia. }
  repeat split; intros Hperm Hwindow.
  - rewrite get_supplier_run, Hperm, Hwindow. unfold lookup_answer. fold p s.
    rewrite take_window, Hmore by lia. reflexivity.
  - rewrite get_customer_run, Hperm, Hwindow. unfold lookup_answer. fold p s.
    rewrite take_window, Hmore by lia. reflexivity.
  - rewrite get_items_run, Hperm, Hwindow. unfold lookup_answer. fold p s.
    rewrite take_window, Hmore by lia. reflexivity.
Qed.

End ListHandlers.

Section SearchAndRows.
Context {W : Type} {fw : Framework W}.

Lemma invoice_filters_or_none (start_date end_date supplier : pyval) :
  invoice_filters (or_none start_date) (or_none end_date) (or_none supplier)
  = invoice_filters start_date end_date supplier.
Proof.
  unfold invoice_filters, or_none.
  destruct (truthy start_date) eqn:H1, (truthy end_date) eqn:H2, (truthy supplier) eqn:H3;
    cbn [truthy]; rewrite ?H1, ?H2, ?H3; reflexivity.
Qed.

Lemma search_rows_or_none (search : pyval) (rows : list pydict) :
  search_rows (or_none search) rows = search_rows search rows.
Proof.
  unfold search_rows, or_none. destruct (truthy search) eqn:H; cbn [truthy]; now rewrite ?H.
Qed.

(** X6.  A falsy optional parameter (an empty string, for one) is the same
    as none: [get_invoices] answers alike when any falsy [start_date],
    [end_date], [supplier] or [search] is replaced by [None], and so does
    each lookup for its [search]. *)
Theorem falsy_parameters_are_absent (w : W)
    (start_date end_date supplier page page_size search : pyval) :
  get_invoices start_date end_date supplier page page_size search w
  = get_invoices (or_none start_date) (or_none end_date) (or_none supplier)
                 page page_size (or_none search) w
  /\ get_supplier page page_size search w = get_supplier page page_size (or_none search) w
  /\ get_customer page page_size search w = get_customer page page_size (or_none search) w
  /\ get_items page page_size search w = get_items page page_size (or_none search) w.
Proof.
  repeat split.
  - rewrite !get_invoices_run. unfold list_query, list_answer.
    now rewrite invoice_filters_or_none, search_rows_or_none.
  - rewrite !get_supplier_run. unfold supplier_query, or_none.
    destruct (truthy search) eqn:H; cbn [truthy]; now rewrite ?H.
  - rewrite !get_customer_run. unfold customer_query, or_none.
    destruct (truthy search) eqn:H; cbn [truthy]; now rewrite ?H.
  - rewrite !get_items_run. unfold item_query, or_none.
    destruct (truthy search) eqn:H; cbn [truthy]; now rewrite ?H.
Qed.

Lemma str_contains_empty (hay : string) : str_contains "" hay = true.
Proof. destruct hay; reflexivity. Qed.

Lemma filter_all {A : Type} (f : A -> bool) (l : list A) :
  (forall a, f a = true) -> filter f l = l.
Proof.
  intros H. induction l as [|a l IH]; simpl; [reflexivity|]. now rewrite H, IH.
Qed.

(** X7.  A search text that is blank once stripped and lowered filters
    nothing: [get_invoices] answers as it does without a search. *)
Theorem blank_search_keeps_every_row (w : W)
    (start_date end_date supplier page page_size search : pyval) :
  str_lower (str_strip (cstr search)) = "" ->
  get_invoices start_date end_date supplier page page_size search w
  = get_invoices start_date end_date supplier page page_size PNone w.
Proof.
  intros Hblank. rewrite !get_invoices_run. unfold list_answer.
  replace (search_rows search (get_all w (list_query start_date end_date supplier
                                            page page_size)))
    with (search_rows PNone (get_all w (list_query start_date end_date supplier
                                          page page_size))); [reflexivity|].
  unfold search_rows. cbn [truthy]. destruct (truthy search); [|reflexivity].
  rewrite Hblank. symmetry. apply filter_all. intros r. now rewrite str_contains_empty.
Qed.

(** X8.  With a search text, the invoices [get_invoices] returns are, in
    order, exactly the fetched rows whose lowered name or lowered
    supplier name contains the stripped, lowered text; no other column is
    searched and no further row is fetched, so there are never more of them
    than rows fetched. *)
Theorem searched_invoices_are_the_matching_rows (w w' : W)
    (start_date end_date supplier page page_size search resp : pyval)
    (invoices : list pyval) :
  truthy search = true ->
  get_invoices start_date end_date supplier page page_size search w = (Ok resp, w') ->
  field resp "invoices" = Some (PList invoices) ->
  map_result shape_invoice
    (filter (invoice_matches search)
            (get_all w (list_query start_date end_date supplier page page_size)))
  = Ok invoices
  /\ (length invoices
      <= length (get_all w (list_query start_date end_date supplier page page_size)))%nat.
Proof.
  intros Hsearch Hrun Hfield. rewrite get_invoices_run in Hrun.
  destruct (has_permission w "Invoice Form" "read"); [|discriminate].
  unfold list_answer, search_rows in Hrun. rewrite Hsearch in Hrun.
  fold (invoice_matches search) in Hrun.
  destruct (map_result shape_invoice _) as [shaped|e] eqn:Hshape; [|discriminate].
  cbn [rbind] in Hrun. inversion Hrun; subst. cbn in Hfield. inversion Hfield; subst.
  split; [reflexivity|].
  apply map_result_length in Hshape. rewrite Hshape. apply filter_length_le.
Qed.

Lemma float_of_zero : float_of_int 0 = Ok 0%float.
Proof. reflexivity. Qed.

Lemma amount_like_converts (v : pyval) :
  amount_like v -> exists f, py_float (py_or v (PInt 0)) = Ok f.
Proof.
  intros [Hfalsy | [[f ->] | [b ->]]]; unfold py_or.
  - rewrite Hfalsy. cbn [py_float]. rewrite float_of_zero. eauto.
  - destruct (truthy (PFloat f)); cbn [py_float]; rewrite ?float_of_zero; eauto.
  - destruct (truthy (PBool b)); cbn [py_float]; rewrite ?float_of_zero; eauto.
Qed.

(** X9.  Every invoice [get_invoices] returns is built from one fetched
    row: its [id] and [invoiceNumber] are the row's name, its [supplierId]
    and [supplierName] the row's values or the empty string when these are
    missing or empty, its [date] the row's posting date as a string, and
    its [amount] is 0.0 when the row's grand total is missing, None or
    zero. *)
Theorem listed_invoice_follows_its_row (w w' : W)
    (start_date end_date supplier page page_size search resp : pyval)
    (invoices : list pyval) (inv : pyval) :
  get_invoices start_date end_date supplier page page_size search w = (Ok resp, w') ->
  field resp "invoices" = Some (PList invoices) ->
  In inv invoices ->
  exists r,
    In r (get_all w (list_query start_date end_date supplier page page_size))
    /\ field inv "id" = Some (attr r "name")
    /\ field inv "invoiceNumber" = Some (attr r "name")
    /\ field inv "supplierId" = Some (py_or (attr r "supplier") (PStr ""))
    /\ field inv "supplierName" = Some (py_or (attr r "supplier_name") (PStr ""))
    /\ field inv "date" = Some (PStr (cstr (attr r "posting_date")))
    /\ (truthy (attr r "grand_total") = false -> field inv "amount" = Some (PFloat 0%float))
    /\ (forall f, attr r "grand_total" = PFloat f -> float_truthy f = true ->
                  field inv "amount" = Some (PFloat f)).
Proof.
  intros Hrun Hfield Hin. rewrite get_invoices_run in Hrun.
  destruct (has_permission w "Invoice Form" "read"); [|discriminate].
  unfold list_answer in Hrun.
  destruct (map_result shape_invoice _) as [shaped|e] eqn:Hshape; [|discriminate].
  cbn [rbind] in Hrun. inversion Hrun; subst. cbn in Hfield. inversion Hfield; subst.
  destruct (map_result_in _ _ _ _ Hshape Hin) as [r [Hr Hinv]].
  exists r. split.
  { unfold search_rows in Hr. destruct (truthy search); [|exact Hr].
    apply filter_In in Hr. tauto. }
  unfold shape_invoice in Hinv.
  destruct (py_float (py_or (attr r "grand_total") (PInt 0))) as [amount|e] eqn:Hamount;
    [|discriminate].
  cbn [rbind] in Hinv. inversion Hinv; subst. repeat split.
  - intros Hfalsy. unfold py_or in Hamount. rewrite Hfalsy in Hamount.
    cbn [py_float] in Hamount. rewrite float_of_zero in Hamount. now inversion Hamount.
  - intros f Hf Htruthy. unfold py_or in Hamount. rewrite Hf in Hamount.
    cbn [truthy] in Hamount. rewrite Htruthy in Hamount. now inversion Hamount.
Qed.

(** X10.  When the caller may read invoices and every fetched row's grand
    total is empty, a float or a boolean, [get_invoices] answers, with one
    invoice per row left by the search. *)
Theorem typed_rows_are_always_listed (w : W)
    (start_date end_date supplier page page_size search : pyval) :
  has_permission w "Invoice Form" "read" = true ->
  Forall (fun r => amount_like (attr r "grand_total"))
         (get_all w (list_query start_date end_date supplier page page_size)) ->
  exists resp invoices,
    get_invoices start_date end_date supplier page page_size search w = (Ok resp, w)
    /\ field resp "invoices" = Some (PList invoices)
    /\ length invoices
       = length (search_rows search
                   (get_all w (list_query start_date end_date supplier page page_size))).
Proof.
  intros Hperm Hrows.
  assert (Hconv : amounts_convert
                    (get_all w (list_query start_date end_date supplier page page_size))).
  { unfold amounts_convert. rewrite Forall_forall in *. intros r Hr.
    destruct (amount_like_converts _ (Hrows r Hr)) as [f Hf].
    unfold shape_invoice. rewrite Hf. cbn [rbind]. eauto. }
  apply (search_rows_convert search) in Hconv.
  destruct (map_result_total shape_invoice _ Hconv) as [invoices Hshape].
  rewrite get_invoices_run, Hperm. unfold list_answer. rewrite Hshape. cbn [rbind].
  eexists. exists invoices. repeat split. now apply map_result_length in Hshape.
Qed.

(** X11.  Every item [get_items] returns has price 0: the handler never
    looks a price up. *)
Theorem item_price_is_always_zero (w w' : W) (page page_size search resp : pyval)
    (items : list pyval) (it : pyval) :
  get_items page page_size search w = (Ok resp, w') ->
  field resp "items" = Some (PList items) ->
  In it items ->
  field it "price" = Some (PInt 0).
Proof.
  intros Hrun Hfield Hin. rewrite get_items_run in Hrun.
  destruct (has_permission w "Item" "read"); [|discriminate].
  inversion Hrun; subst. cbn in Hfield. inversion Hfield; subst.
  apply in_map_iff in Hin. destruct Hin as [r [<- _]]. reflexivity.
Qed.

End SearchAndRows.

Section DetailView.
Context {W : Type} {fw : Framework W}.

(** [get_invoice_details] on a loaded, readable document. *)
Lemma get_invoice_details_run (w : W) (name : string) (doc : pydict) :
  name <> "" ->
  get_doc w "Invoice Form" name = Ok doc ->
  doc_has_permission w doc "read" = true ->
  get_invoice_details name w = (detail_answer name doc, w).
Proof.
  intros Hname Hdoc Hperm. unfold get_invoice_details, detail_answer.
  destruct (String.eqb_spec name ""); [contradiction|].
  unfold bind, try_read, read, lift, ret, throw. rewrite Hdoc, Hperm.
  cbv beta iota zeta delta [negb].
  destruct (status_of _); [|reflexivity]. cbn [rbind].
  destruct (py_iter _); [|reflexivity]. cbn [rbind].
  destruct (map_result shape_detail_item _); [|reflexivity]. cbn [rbind].
  destruct (py_float _); [|reflexivity]. cbn [rbind].
  destruct (py_float _); reflexivity.
Qed.

Lemma detail_answer_inv (name : string) (doc : pydict) (resp : pyval) :
  detail_answer name doc = Ok resp ->
  exists status rows items,
    status_of (attr doc "docstatus") = Ok status
    /\ py_iter (getattr (PDict doc) "items" (PList [])) = Ok rows
    /\ map_result shape_detail_item rows = Ok items
    /\ field resp "status" = Some (PStr status)
    /\ field resp "items" = Some (PList items)
    /\ field resp "payments" = Some (PList [])
    /\ field resp "is_locked"
       = Some (PBool (truthy (getattr (PDict doc) "lock_update" (PBool false))))
    /\ field resp "permission"
       = Some (PDict [("can_update", PBool true); ("can_delete", PBool true);
                      ("can_submit", PBool true);
                      ("locked",
                       PBool (truthy (getattr (PDict doc) "lock_update" (PBool false))))]).
Proof.
  unfold detail_answer. intros H.
  destruct (status_of _) as [status|] eqn:Hstatus; [|discriminate]. cbn [rbind] in H.
  destruct (py_iter _) as [rows|] eqn:Hrows; [|discriminate]. cbn [rbind] in H.
  destruct (map_result shape_detail_item rows) as [items|] eqn:Hitems; [|discriminate].
  cbn [rbind] in H.
  destruct (py_float _); [|discriminate]. cbn [rbind] in H.
  destruct (py_float _); [|discriminate]. cbn [rbind] in H.
  inversion H; subst. exists status, rows, items.
  split; [reflexivity|]. split; [reflexivity|]. split; [exact Hitems|].
  repeat split; reflexivity.
Qed.

(** X12.  In the detail view of a readable invoice, [status] is "submitted"
    for docstatus 1, "cancelled" for docstatus 2, and "draft" for docstatus
    0, for a missing docstatus and for any other integer. *)
Theorem detail_status_follows_docstatus (w w' : W) (name : string) (doc : pydict)
    (resp : pyval) :
  name <> "" ->
  get_doc w "Invoice Form" name = Ok doc ->
  doc_has_permission w doc "read" = true ->
  get_invoice_details name w = (Ok resp, w') ->
  (attr doc "docstatus" = PInt 1 -> field resp "status" = Some (PStr "submitted"))
  /\ (attr doc "docstatus" = PInt 2 -> field resp "status" = Some (PStr "cancelled"))
  /\ (attr doc "docstatus" = PNone -> field resp "status" = Some (PStr "draft"))
  /\ (forall z, attr doc "docstatus" = PInt z -> z <> 1 -> z <> 2 ->
                 field resp "status" = Some (PStr "draft")).
Proof.
  intros Hname Hdoc Hperm Hrun.
  rewrite (get_invoice_details_run w name doc Hname Hdoc Hperm) in Hrun.
  inversion Hrun as [[Hanswer Hw]].
  destruct (detail_answer_inv _ _ _ Hanswer) as [status [rows [items [Hs [_ [_ [Hf _]]]]]]].
  rewrite Hf. repeat split.
  - intros E. rewrite E in Hs. cbn in Hs. congruence.
  - intros E. rewrite E in Hs. cbn in Hs. congruence.
  - intros E. rewrite E in Hs. cbn in Hs. congruence.
  - intros z E H1 H2. rewrite E in Hs. unfold status_of, py_or in Hs.
    destruct z as [|[q|q|]|q]; cbn in Hs; try congruence; destruct q; congruence.
Qed.

(** X13.  In the detail view of a readable invoice, [is_locked] and the
    permission object's [locked] are both the truth value of the document's
    [lock_update] (false when the field is missing), while [can_update],
    [can_delete] and [can_submit] are true whatever the docstatus, the lock
    and the caller's other permissions; [payments] is always empty. *)
Theorem detail_permission_ignores_state (w w' : W) (name : string) (doc : pydict)
    (resp : pyval) :
  name <> "" ->
  get_doc w "Invoice Form" name = Ok doc ->
  doc_has_permission w doc "read" = true ->
  get_invoice_details name w = (Ok resp, w') ->
  exists locked,
    locked = match dict_get doc "lock_update" with
             | Some v => truthy v
             | None => false
             end
    /\ field resp "is_locked" = Some (PBool locked)
    /\ field resp "permission"
       = Some (PDict [("can_update", PBool true); ("can_delete", PBool true);
                      ("can_submit", PBool true); ("locked", PBool locked)])
    /\ field resp "payments" = Some (PList []).
Proof.
  intros Hname Hdoc Hperm Hrun.
  rewrite (get_invoice_details_run w name doc Hname Hdoc Hperm) in Hrun.
  inversion Hrun as [[Hanswer Hw]].
  destruct (detail_answer_inv _ _ _ Hanswer)
    as [status [rows [items [_ [_ [_ [_ [_ [Hpay [Hlock Hpermission]]]]]]]]]].
  eexists. split; [reflexivity|].
  rewrite Hlock, Hpermission, Hpay. unfold getattr.
  destruct (dict_get doc "lock_update"); repeat split; reflexivity.
Qed.

Lemma map_result_forall2 {A B} (f : A -> result B) (l : list A) (bs : list B) :
  map_result f l = Ok bs -> Forall2 (fun a b => f a = Ok b) l bs.
Proof.
  revert bs. induction l as [|a l IH]; simpl; intros bs H.
  - inversion H. constructor.
  - destruct (f a) as [b|e] eqn:Ea; simpl in H; [|discriminate].
    destruct (map_result f l) as [bs'|e]; simpl in H; [|discriminate].
    inversion H; subst. constructor; auto.
Qed.

(** X14.  The detail view lists one item per child row of the document, in
    order (none when the document has no items table); each carries the
    row's item name, or its item code when the name is empty, and gives the
    row's customer both as [customerId] and as [customerName]. *)
Theorem detail_items_follow_child_rows (w w' : W) (name : string) (doc : pydict)
    (resp : pyval) :
  name <> "" ->
  get_doc w "Invoice Form" name = Ok doc ->
  doc_has_permission w doc "read" = true ->
  get_invoice_details name w = (Ok resp, w') ->
  exists rows items,
    py_iter (match dict_get doc "items" with Some v => v | None => PList [] end) = Ok rows
    /\ field resp "items" = Some (PList items)
    /\ Forall2 (fun row item =>
                  field item "name"
                  = Some (PStr (cstr (py_or (getattr row "item_name" (PStr ""))
                                            (getattr row "item_code" (PStr "")))))
                  /\ field item "customerId"
                     = Some (PStr (cstr (getattr row "customer" (PStr ""))))
                  /\ field item "customerName"
                     = Some (PStr (cstr (getattr row "customer" (PStr "")))))
               rows items.
Proof.
  intros Hname Hdoc Hperm Hrun.
  rewrite (get_invoice_details_run w name doc Hname Hdoc Hperm) in Hrun.
  inversion Hrun as [[Hanswer Hw]].
  destruct (detail_answer_inv _ _ _ Hanswer)
    as [status [rows [items [_ [Hrows [Hitems [_ [Hf _]]]]]]]].
  exists rows, items. split; [exact Hrows|]. split; [exact Hf|].
  apply map_result_forall2 in Hitems.
  clear Hrows Hf Hanswer Hrun.
  induction Hitems as [|row item rows items Hshape _ IH]; constructor; [|exact IH].
  unfold shape_detail_item in Hshape.
  destruct (py_float _); [|discriminate]. cbn [rbind] in Hshape.
  destruct (py_float _); [|discriminate]. cbn [rbind] in Hshape.
  destruct (py_float _); [|discriminate]. cbn [rbind] in Hshape.
  inversion Hshape; subst. repeat split; reflexivity.
Qed.

End DetailView.

Section UpdateAndDelete.
Context {W : Type} {fw : Framework W}.

(** [update_invoice] on a loaded document the caller may write. *)
Lemma update_invoice_run (w : W) (name : string) (data : pyval) (doc : pydict) :
  name <> "" ->
  get_doc w "Invoice Form" name = Ok doc ->
  doc_has_permission w doc "write" = true ->
  update_invoice name data w =
  match as_dict (py_or data (py_or (PDict (form_dict w)) (PDict []))) with
  | Raise e => (Raise e, w)
  | Ok payload =>
      match apply_update doc payload with
      | Raise e => (Raise e, w)
      | Ok edited =>
          bind (doc_save edited false) (fun saved =>
          bind db_commit (fun _ =>
          ret (PDict [("name", PStr (cstr (attr saved "name")))]))) w
      end
  end.
Proof.
  intros Hname Hdoc Hperm. unfold update_invoice.
  destruct (String.eqb_spec name ""); [contradiction|].
  unfold bind at 1 2 3 4 5, try_read, read, lift, throw. rewrite Hdoc, Hperm.
  cbv beta iota zeta delta [negb].
  destruct (as_dict _); [|reflexivity].
  destruct (apply_update doc a); reflexivity.
Qed.

(** X15.  When the caller may write the loaded invoice and the payload
    applies, [update_invoice] saves the edited document with permissions
    enforced, then commits, and returns the saved document's name; it asks
    nothing about the document's docstatus or lock.  When the save raises,
    nothing is committed and the error is the handler's.  The payload is the
    [data] argument when that is truthy, and the request's form otherwise. *)
Theorem update_saves_the_edited_document (w : W) (name : string) (data : pyval)
    (doc payload edited : pydict) :
  name <> "" ->
  get_doc w "Invoice Form" name = Ok doc ->
  doc_has_permission w doc "write" = true ->
  as_dict (py_or data (py_or (PDict (form_dict w)) (PDict []))) = Ok payload ->
  apply_update doc payload = Ok edited ->
  (truthy data = true -> data = PDict payload)
  /\ (truthy data = false -> payload = form_dict w)
  /\ (forall saved w1 w2,
         doc_save edited false w = (Ok saved, w1) ->
         db_commit w1 = (Ok tt, w2) ->
         update_invoice name data w
         = (Ok (PDict [("name", PStr (cstr (attr saved "name")))]), w2))
  /\ (forall e w1,
         doc_save edited false w = (Raise e, w1) ->
         update_invoice name data w = (Raise e, w1)).
Proof.
  intros Hname Hdoc Hperm Hpayload Hedit.
  pose proof (update_invoice_run w name data doc Hname Hdoc Hperm) as Hrun.
  rewrite Hpayload, Hedit in Hrun. repeat split.
  - intros Ht. unfold py_or in Hpayload. rewrite Ht in Hpayload.
    destruct data; try discriminate. cbn in Hpayload. congruence.
  - intros Hf. unfold py_or in Hpayload. rewrite Hf in Hpayload.
    destruct (form_dict w); cbn in Hpayload; congruence.
  - intros saved w1 w2 Hsave Hcommit. rewrite Hrun. unfold bind, ret.
    now rewrite Hsave, Hcommit.
  - intros e w1 Hsave. rewrite Hrun. unfold bind. now rewrite Hsave.
Qed.

Lemma append_updated_rows_other (values : list pyval) (d d' : pydict) (k : string) :
  append_updated_rows d values = Ok d' -> k <> "items" -> attr d' k = attr d k.
Proof.
  revert d. induction values as [|v values IH]; simpl; intros d H Hk.
  - now inversion H.
  - destruct (updated_row v) as [row|e]; cbn [rbind] in H; [|discriminate].
    rewrite (IH _ H Hk). now apply attr_doc_append_other.
Qed.

Lemma append_updated_rows_items (values : list pyval) (d d' : pydict)
    (existing : list pyval) :
  attr d "items" = PList existing ->
  append_updated_rows d values = Ok d' ->
  exists rows,
    map_result updated_row values = Ok rows
    /\ attr d' "items" = PList (existing ++ map PDict rows).
Proof.
  revert d existing. induction values as [|v values IH]; simpl; intros d existing Hd H.
  - inversion H; subst. exists []. now rewrite app_nil_r.
  - destruct (updated_row v) as [row|e]; cbn [rbind] in H; [|discriminate].
    destruct (IH (doc_append d "items" row) (existing ++ [PDict row])%list)
      as [rows [Hrows Hit]].
    + unfold doc_append. rewrite Hd. apply attr_set_same.
    + exact H.
    + exists (row :: rows). rewrite Hrows. cbn [rbind map]. split; [reflexivity|].
      now rewrite Hit, <- app_assoc.
Qed.

(** X16.  The edits of [update_invoice] touch four fields only: posting
    date, supplier and supplier name each take the payload's value when
    that is truthy and keep their own otherwise (so they cannot be
    cleared), the items are kept unless the payload holds a list, and every
    other field, the grand total and the commission total included, is
    left as loaded. *)
Theorem update_edits_only_named_fields (doc payload edited : pydict) :
  apply_update doc payload = Ok edited ->
  attr edited "posting_date"
  = (if truthy (attr payload "posting_date") then attr payload "posting_date"
     else attr doc "posting_date")
  /\ attr edited "supplier"
     = (if truthy (attr payload "supplier") then attr payload "supplier"
        else attr doc "supplier")
  /\ attr edited "supplier_name"
     = (if truthy (attr payload "supplier_name") then attr payload "supplier_name"
        else attr doc "supplier_name")
  /\ ((forall values, attr payload "items" <> PList values) ->
      attr edited "items" = attr doc "items")
  /\ (forall k,
         k <> "posting_date" -> k <> "supplier" -> k <> "supplier_name" -> k <> "items" ->
         attr edited k = attr doc k).
Proof.
  unfold apply_update. intros H.
  set (d1 := if truthy (attr payload "posting_date")
             then dict_set doc "posting_date" (attr payload "posting_date") else doc) in *.
  set (d2 := if truthy (attr payload "supplier")
             then dict_set d1 "supplier" (attr payload "supplier") else d1) in *.
  set (d3 := if truthy (attr payload "supplier_name")
             then dict_set d2 "supplier_name" (attr payload "supplier_name") else d2) in *.
  assert (Hkeep : forall k, k <> "items" -> attr edited k = attr d3 k).
  { intros k Hk. destruct (attr payload "items"); try (now inversion H).
    rewrite (append_updated_rows_other _ _ _ k H Hk). apply attr_set_other. congruence. }
  assert (H1 : forall k, k <> "posting_date" -> attr d1 k = attr doc k).
  { intros k Hk. subst d1. destruct (truthy (attr payload "posting_date")); auto.
    apply attr_set_other. congruence. }
  assert (H2 : forall k, k <> "supplier" -> attr d2 k = attr d1 k).
  { intros k Hk. subst d2. destruct (truthy (attr payload "supplier")); auto.
    apply attr_set_other. congruence. }
  assert (H3 : forall k, k <> "supplier_name" -> attr d3 k = attr d2 k).
  { intros k Hk. subst d3. destruct (truthy (attr payload "supplier_name")); auto.
    apply attr_set_other. congruence. }
  split; [|split; [|split; [|split]]].
  - rewrite Hkeep, H3, H2 by discriminate. subst d1.
    destruct (truthy (attr payload "posting_date")); [apply attr_set_same | reflexivity].
  - rewrite Hkeep, H3 by discriminate. subst d2.
    destruct (truthy (attr payload "supplier")); [apply attr_set_same|].
    apply H1. discriminate.
  - rewrite Hkeep by discriminate. subst d3.
    destruct (truthy (attr payload "supplier_name")); [apply attr_set_same|].
    rewrite H2, H1 by discriminate. reflexivity.
  - intros Hnolist.
    destruct (attr payload "items") eqn:Hitems;
      try (inversion H; subst; rewrite H3, H2, H1 by discriminate; reflexivity).
    exfalso. now apply (Hnolist l).
  - intros k K1 K2 K3 K4. rewrite Hkeep, H3, H2, H1 by assumption. reflexivity.
Qed.

(** X17.  When the payload holds a list under [items], [update_invoice]
    replaces the document's rows: the edited document has exactly one row
    per payload item, in order, and none of the old ones.  Each row keeps
    the item's values as sent: qty is [qty] or else [quantity] or else 0,
    price is [price] or else 0, customer is [customer] or else
    [customerId] or else the empty string, and the total is the item's
    total when truthy and the product qty * price otherwise. *)
Theorem update_replaces_items (doc payload edited : pydict) (values : list pyval) :
  attr payload "items" = PList values ->
  apply_update doc payload = Ok edited ->
  exists rows,
    attr edited "items" = PList (map PDict rows)
    /\ Forall2 (fun v row =>
                  exists it,
                    v = PDict it
                    /\ attr row "item_code" = py_or (attr it "item_code") PNone
                    /\ attr row "item_name" = py_or (attr it "item_name") PNone
                    /\ attr row "qty"
                       = py_or (attr it "qty") (py_or (attr it "quantity") (PInt 0))
                    /\ attr row "price" = py_or (attr it "price") (PInt 0)
                    /\ attr row "customer"
                       = py_or (attr it "customer")
                               (py_or (attr it "customerId") (PStr ""))
                    /\ (truthy (attr it "total") = true ->
                        attr row "total" = attr it "total")
                    /\ (truthy (attr it "total") = false ->
                        py_mul (attr row "qty") (attr row "price")
                        = Ok (attr row "total")))
               values rows.
Proof.
  intros Hitems H. unfold apply_update in H. rewrite Hitems in H.
  destruct (append_updated_rows_items values _ _ [] (attr_set_same _ "items" (PList [])) H)
    as [rows [Hrows Hattr]].
  exists rows. split; [exact Hattr|].
  apply map_result_forall2 in Hrows. clear H Hattr Hitems.
  induction Hrows as [|v row values rows Hrow _ IH]; constructor; [|exact IH].
  unfold updated_row in Hrow. destruct v; try discriminate. cbn [as_dict rbind] in Hrow.
  exists d. split; [reflexivity|].
  destruct (truthy (attr d "total")) eqn:Htotal.
  - cbn [rbind] in Hrow. inversion Hrow; subst.
    repeat split; try reflexivity. discriminate.
  - destruct (py_mul _ _) as [total|e] eqn:Hmul; cbn [rbind] in Hrow; [|discriminate].
    inversion Hrow; subst. repeat split; try reflexivity; [discriminate|].
    intros _. exact Hmul.
Qed.

Lemma append_updated_rows_rejects (values : list pyval) (d : pydict) (v : pyval) :
  In v values -> (forall it, v <> PDict it) ->
  exists e, append_updated_rows d values = Raise e.
Proof.
  revert d. induction values as [|v0 values IH]; simpl; intros d Hin Hv; [contradiction|].
  destruct (updated_row v0) as [row|e] eqn:Hrow; cbn [rbind]; [|eauto].
  destruct Hin as [->|Hin]; [|now apply IH].
  unfold updated_row in Hrow. destruct v; try discriminate. now elim (Hv d0).
Qed.

(** X18.  Whatever goes wrong before the save leaves the world untouched:
    when the payload is not a dict, or an edit raises, [update_invoice]
    raises that error and saves nothing; in particular a payload whose
    items list holds anything but dicts is never saved. *)
Theorem update_failure_saves_nothing (w : W) (name : string) (data : pyval)
    (doc : pydict) :
  name <> "" ->
  get_doc w "Invoice Form" name = Ok doc ->
  doc_has_permission w doc "write" = true ->
  (forall e,
      as_dict (py_or data (py_or (PDict (form_dict w)) (PDict []))) = Raise e ->
      update_invoice name data w = (Raise e, w))
  /\ (forall payload e,
         as_dict (py_or data (py_or (PDict (form_dict w)) (PDict []))) = Ok payload ->
         apply_update doc payload = Raise e ->
         update_invoice name data w = (Raise e, w))
  /\ (forall payload values v,
         as_dict (py_or data (py_or (PDict (form_dict w)) (PDict []))) = Ok payload ->
         attr payload "items" = PList values ->
         In v values -> (forall it, v <> PDict it) ->
         exists e, update_invoice name data w = (Raise e, w)).
Proof.
  intros Hname Hdoc Hperm.
  pose proof (update_invoice_run w name data doc Hname Hdoc Hperm) as Hrun.
  repeat split.
  - intros e He. now rewrite Hrun, He.
  - intros payload e Hp He. now rewrite Hrun, Hp, He.
  - intros payload values v Hp Hitems Hin Hv. rewrite Hrun, Hp.
    unfold apply_update. rewrite Hitems.
    cbv zeta.
    match goal with
    | |- context [append_updated_rows ?d values] =>
        destruct (append_updated_rows_rejects values d v Hin Hv) as [e He]
    end.
    exists e. now rewrite He.
Qed.

(** [delete_invoice] on a loaded document the caller may delete. *)
Lemma delete_invoice_run (w : W) (name : string) (doc : pydict) :
  name <> "" ->
  get_doc w "Invoice Form" name = Ok doc ->
  doc_has_permission w doc "delete" = true ->
  delete_invoice name w =
  bind (delete_doc "Invoice Form" name false) (fun _ =>
  bind db_commit (fun _ => ret (PDict [("deleted", PBool true)]))) w.
Proof.
  intros Hname Hdoc Hperm. unfold delete_invoice.
  destruct (String.eqb_spec name ""); [contradiction|].
  unfold bind at 1 2, try_read, read, throw. now rewrite Hdoc, Hperm.
Qed.

(** X19.  When the caller may delete the loaded invoice, [delete_invoice]
    deletes it by name with permissions enforced, commits, and answers
    [deleted: true]; it asks nothing about the docstatus or the lock, so a
    submitted or locked invoice is passed to the framework's delete like any
    other.  When the delete raises, nothing is committed and the error is
    the handler's. *)
Theorem delete_runs_whatever_the_state (w : W) (name : string) (doc : pydict) :
  name <> "" ->
  get_doc w "Invoice Form" name = Ok doc ->
  doc_has_permission w doc "delete" = true ->
  (forall w1 w2,
      delete_doc "Invoice Form" name false w = (Ok tt, w1) ->
      db_commit w1 = (Ok tt, w2) ->
      delete_invoice name w = (Ok (PDict [("deleted", PBool true)]), w2))
  /\ (forall e w1,
         delete_doc "Invoice Form" name false w = (Raise e, w1) ->
         delete_invoice name w = (Raise e, w1))
  /\ (forall e w1 w2,
         delete_doc "Invoice Form" name false w = (Ok tt, w1) ->
         db_commit w1 = (Raise e, w2) ->
         delete_invoice name w = (Raise e, w2)).
Proof.
  intros Hname Hdoc Hperm.
  rewrite (delete_invoice_run w name doc Hname Hdoc Hperm). unfold bind, ret.
  repeat split.
  - intros w1 w2 Hd Hc. now rewrite Hd, Hc.
  - intros e w1 Hd. now rewrite Hd.
  - intros e w1 w2 Hd Hc. now rewrite Hd, Hc.
Qed.

End UpdateAndDelete.

Section Creation.
Context {W : Type} {fw : Framework W}.

Lemma create_invoice_form_rejects (w : W) (e : exn) :
  prepare_invoice (form_dict w) (nowtime w) = Raise e ->
  create_invoice_form w = (Raise e, w).
Proof.
  intros H. unfold create_invoice_form, bind, read, lift. now rewrite H.
Qed.

(** X20.  A payload is accepted exactly when it decodes to a dict with a
    truthy posting date, a truthy supplier, and a non-empty list of dicts
    under [items]. *)
Theorem payload_accepted_iff (form : pydict) (time : string) :
  (exists doc, prepare_invoice form time = Ok doc)
  <-> (exists data items,
          request_data form = Ok data
          /\ truthy (attr data "posting_date") = true
          /\ truthy (attr data "supplier") = true
          /\ attr data "items" = PList (map PDict items)
          /\ items <> []).
Proof.
  split.
  - intros [doc H].
    destruct (prepare_invoice_inv form time doc H)
      as [data [items [Hd [Hdate [Hsup [Hitems [Hne _]]]]]]].
    exists data, items. auto.
  - intros [data [items [Hd [Hdate [Hsup [Hitems Hne]]]]]].
    exact (prepare_invoice_accepts form time data items Hd Hdate Hsup Hitems Hne).
Qed.

(** X21.  A payload that is not accepted inserts nothing:
    [create_invoice_form] raises and leaves the world untouched.  A falsy
    posting date or supplier gives "Missing required fields: posting_date,
    supplier" (checked first); otherwise missing or empty items give "At
    least one item is required"; otherwise items that are not a list of
    dicts raise as well. *)
Theorem rejected_payload_inserts_nothing (w : W) (data : pydict) :
  request_data (form_dict w) = Ok data ->
  (truthy (attr data "posting_date") = false \/ truthy (attr data "supplier") = false ->
   create_invoice_form w =
   (Raise (ValidationError "Missing required fields: posting_date, supplier"), w))
  /\ (truthy (attr data "posting_date") = true ->
      truthy (attr data "supplier") = true ->
      truthy (attr data "items") = false ->
      create_invoice_form w = (Raise (ValidationError "At least one item is required"), w))
  /\ (truthy (attr data "posting_date") = true ->
      truthy (attr data "supplier") = true ->
      (forall items, attr data "items" <> PList (map PDict items)) ->
      exists e, create_invoice_form w = (Raise e, w)).
Proof.
  intros Hdata. repeat split.
  - intros Hmissing. apply create_invoice_form_rejects. unfold prepare_invoice.
    rewrite Hdata. cbn [rbind].
    destruct Hmissing as [H|H]; rewrite H; [reflexivity|].
    now destruct (truthy (attr data "posting_date")).
  - intros Hdate Hsup Hitems. apply create_invoice_form_rejects. unfold prepare_invoice.
    rewrite Hdata. cbn [rbind]. rewrite Hdate, Hsup. cbn [negb orb].
    assert (Hor : py_or (attr data "items") (PList []) = PList [])
      by (unfold py_or; now rewrite Hitems).
    rewrite Hor. reflexivity.
  - intros Hdate Hsup Hnolist.
    destruct (prepare_invoice (form_dict w) (nowtime w)) as [doc|e] eqn:Hprep.
    + destruct (prepare_invoice_inv _ _ _ Hprep) as [data' [items [Hd [_ [_ [Hitems _]]]]]].
      assert (data' = data) by congruence. subst. now elim (Hnolist items).
    + exists e. now apply create_invoice_form_rejects.
Qed.

Lemma attr_append_rows_items (rows : list pydict) (d : pydict) (existing : list pyval) :
  attr d "items" = PList existing ->
  attr (fold_left (fun doc it => doc_append doc "items" (created_row it)) rows d) "items"
  = PList (existing ++ map (fun it => PDict (created_row it)) rows).
Proof.
  revert d existing. induction rows as [|r rows IH]; simpl; intros d existing Hd.
  - now rewrite app_nil_r.
  - rewrite (IH _ (existing ++ [PDict (created_row r)])%list).
    + now rewrite <- app_assoc.
    + unfold doc_append. rewrite Hd. apply attr_set_same.
Qed.

Lemma totalled_item_attr (it : pydict) (k : string) :
  k <> "total" -> k <> "item_code" -> attr (fst (total_item it)) k = attr it k.
Proof.
  intros Ht Hc. unfold total_item. cbn [fst].
  rewrite attr_set_other by congruence.
  destruct (negb (truthy (attr it "item_code")) && truthy (attr it "item_name")); auto.
  apply attr_set_other. congruence.
Qed.

Lemma totalled_item_code (it : pydict) :
  attr (fst (total_item it)) "item_code"
  = if truthy (attr it "item_code") then attr it "item_code"
    else if truthy (attr it "item_name") then attr it "item_name"
    else attr it "item_code".
Proof.
  unfold total_item. cbn [fst]. rewrite attr_set_other by discriminate.
  destruct (truthy (attr it "item_code")); cbn [negb andb]; [reflexivity|].
  destruct (truthy (attr it "item_name")); [apply attr_set_same | reflexivity].
Qed.

Lemma totalled_item_total (it : pydict) :
  attr (fst (total_item it)) "total" = PFloat (line_total it).
Proof.
  rewrite <- total_item_line_total. unfold total_item. cbn [fst snd]. apply attr_set_same.
Qed.

(** X22.  The document an accepted payload yields has exactly one row per
    payload item, in order.  In each row, the item code is the item's code,
    or its name when the code is missing; the item name is the item's name,
    or its code when the name is missing; qty, price and total are floats
    (qty from [qty] or else [quantity] or else 0, price from [price] or
    else 0, total from the line total); the customer is the item's or the
    empty string. *)
Theorem created_rows_follow_items (form : pydict) (time : string) (doc : pydict) :
  prepare_invoice form time = Ok doc ->
  exists data items rows,
    request_data form = Ok data
    /\ attr data "items" = PList (map PDict items)
    /\ attr doc "items" = PList (map PDict rows)
    /\ Forall2 (fun it row =>
                  attr row "item_code"
                  = (if truthy (attr it "item_code") then attr it "item_code"
                     else if truthy (attr it "item_name") then attr it "item_name"
                     else attr it "item_code")
                  /\ attr row "item_name"
                     = py_or (attr it "item_name") (attr it "item_code")
                  /\ attr row "qty"
                     = PFloat (flt (py_or (attr it "qty")
                                          (py_or (attr it "quantity") (PInt 0))))
                  /\ attr row "price" = PFloat (flt (py_or (attr it "price") (PInt 0)))
                  /\ attr row "total"
                     = PFloat (flt (py_or (PFloat (line_total it)) (PInt 0)))
                  /\ attr row "customer" = py_or (attr it "customer") (PStr ""))
               items rows.
Proof.
  intros H.
  destruct (prepare_invoice_inv form time doc H)
    as [data [items [Hd [_ [_ [Hitems [_ Hdoc]]]]]]].
  cbv zeta in Hdoc.
  exists data, items, (map created_row (map (fun it => fst (total_item it)) items)).
  split; [exact Hd|]. split; [exact Hitems|]. split.
  - subst doc. rewrite (attr_append_rows_items _ _ []) by reflexivity.
    cbn [app]. f_equal. symmetry. apply map_map.
  - clear. induction items as [|it items IH]; cbn [map]; constructor; [|exact IH].
    unfold created_row. cbn [attr dict_get String.eqb Ascii.eqb Bool.eqb].
    rewrite totalled_item_code, totalled_item_total.
    rewrite !totalled_item_attr by discriminate.
    repeat split; try reflexivity.
    unfold py_or. destruct (truthy (attr it "item_name")) eqn:Hn; [reflexivity|].
    now destruct (truthy (attr it "item_code")).
Qed.

(** X23.  The request's [data] may come as text: a non-empty string is
    decoded with [json.loads] and then handled exactly as the decoded value
    sent directly; when the request carries no [data], or an empty string
    that decodes to an empty object, the payload is empty and is rejected
    for its missing fields. *)
Theorem text_data_is_decoded (form : pydict) (time : string) :
  (forall s v form',
      attr form "data" = PStr s -> s <> "" ->
      json_loads s = Ok v -> (forall s', v <> PStr s') ->
      attr form' "data" = v ->
      prepare_invoice form time = prepare_invoice form' time)
  /\ (attr form "data" = PNone ->
      prepare_invoice form time
      = Raise (ValidationError "Missing required fields: posting_date, supplier"))
  /\ (attr form "data" = PStr "" -> json_loads "{}" = Ok (PDict []) ->
      prepare_invoice form time
      = Raise (ValidationError "Missing required fields: posting_date, supplier")).
Proof.
  repeat split.
  - intros s v form' Hs Hne Hv Hstr Hv'.
    assert (Hreq : request_data form = request_data form').
    { unfold request_data. rewrite Hs, Hv'.
      destruct (String.eqb_spec s ""); [contradiction|]. rewrite Hv. cbn [rbind].
      destruct v; try reflexivity. now elim (Hstr s0). }
    unfold prepare_invoice. now rewrite Hreq.
  - intros Hnone. unfold prepare_invoice, request_data. rewrite Hnone. reflexivity.
  - intros Hempty Hloads. unfold prepare_invoice, request_data.
    rewrite Hempty. cbn [String.eqb]. rewrite Hloads. reflexivity.
Qed.

(** X24.  The document an accepted payload yields is an "Invoice Form" whose
    posting date and supplier are the payload's, whose supplier name is the
    payload's or the empty string, whose posting time is the time of the
    request, whose pamper commission is the payload's converted to a float
    (0 when missing), and whose commissions table is empty; it carries no
    name, which is left to the insert. *)
Theorem created_header_follows_payload (form : pydict) (time : string) (doc : pydict) :
  prepare_invoice form time = Ok doc ->
  exists data,
    request_data form = Ok data
    /\ attr doc "doctype" = PStr "Invoice Form"
    /\ attr doc "posting_date" = attr data "posting_date"
    /\ attr doc "posting_time" = PStr time
    /\ attr doc "supplier" = attr data "supplier"
    /\ attr doc "supplier_name" = py_or (attr data "supplier_name") (PStr "")
    /\ attr doc "pamper_commission"
       = PFloat (flt (py_or (attr data "pamper_commission") (PInt 0)))
    /\ attr doc "commissions" = PList []
    /\ dict_get doc "name" = None.
Proof.
  intros H.
  destruct (prepare_invoice_inv form time doc H)
    as [data [items [Hd [_ [_ [_ [_ Hdoc]]]]]]].
  cbv zeta in Hdoc. exists data. split; [exact Hd|]. subst doc.
  repeat split; try (rewrite attr_append_rows_other by discriminate; reflexivity).
  generalize (map (fun it => fst (total_item it)) items). intros rows.
  match goal with |- dict_get (fold_left _ rows ?d) "name" = None =>
    assert (Hd0 : dict_get d "name" = None) by reflexivity; revert Hd0; generalize d
  end.
  induction rows as [|r rows IH]; cbn [fold_left]; intros d Hd0; [exact Hd0|].
  apply IH. unfold doc_append.
  destruct (attr d "items"); rewrite dict_get_set_other by discriminate; exact Hd0.
Qed.

End Creation.

Section Composition.
Context {W : Type} {fw : Framework W}.

(** X25.  When the submit of a draft the caller may submit raises, nothing
    is committed and the error is the handler's; when the commit raises
    after a successful submit, that error is the handler's. *)
Theorem failed_submit_is_not_committed (w : W) (name : string) (doc : pydict) :
  name <> "" ->
  get_doc w "Invoice Form" name = Ok doc ->
  doc_has_permission w doc "submit" = true ->
  py_ne_zero (attr doc "docstatus") = false ->
  (forall e w1,
      doc_submit doc w = (Raise e, w1) ->
      submit_invoice name w = (Raise e, w1))
  /\ (forall doc' e w1 w2,
         doc_submit doc w = (Ok doc', w1) ->
         db_commit w1 = (Raise e, w2) ->
         submit_invoice name w = (Raise e, w2)).
Proof.
  intros Hname Hdoc Hperm Hdraft.
  assert (Hrun : submit_invoice name w =
                 bind (doc_submit doc) (fun doc' =>
                 bind db_commit (fun _ =>
                 ret (PDict [("name", PStr (cstr (attr doc' "name")));
                             ("docstatus", attr doc' "docstatus")]))) w).
  { unfold submit_invoice. destruct (String.eqb_spec name ""); [contradiction|].
    unfold bind at 1 2, try_read, read, throw. now rewrite Hdoc, Hperm, Hdraft. }
  rewrite Hrun. unfold bind. split.
  - intros e w1 Hs. now rewrite Hs.
  - intros doc' e w1 w2 Hs Hc. now rewrite Hs, Hc.
Qed.

(** X26.  The [total_count] of [get_invoices] is the count of the rows
    matching the date and supplier filters: it does not depend on the page,
    the page size or the search text, so with a search it still counts the
    rows the search leaves out. *)
Theorem total_count_ignores_page_and_search (w w1 w2 : W)
    (start_date end_date supplier page1 size1 search1 page2 size2 search2 resp1 resp2 : pyval) :
  get_invoices start_date end_date supplier page1 size1 search1 w = (Ok resp1, w1) ->
  get_invoices start_date end_date supplier page2 size2 search2 w = (Ok resp2, w2) ->
  field resp1 "total_count"
  = Some (PInt (db_count w "Invoice Form" (invoice_filters start_date end_date supplier)))
  /\ field resp2 "total_count" = field resp1 "total_count".
Proof.
  intros H1 H2. rewrite get_invoices_run in H1, H2.
  destruct (has_permission w "Invoice Form" "read"); [|discriminate].
  unfold list_answer in H1, H2.
  destruct (map_result shape_invoice _) in H1; [|discriminate].
  destruct (map_result shape_invoice _) in H2; [|discriminate].
  cbn [rbind] in H1, H2. inversion H1; inversion H2; subst. split; reflexivity.
Qed.

(** X27.  The entries a lookup returns are built, in order, from the first
    [page_size] fetched rows: the id is the row's id, or its name when the
    id is missing; the name is the row's name, or else its
    supplier/customer name, or else its id (for items: its name, or else
    its id). *)
Theorem lookup_entries_follow_rows (w : W) (page page_size search : pyval) :
  (has_permission w "Supplier" "read" = true ->
   exists resp entries,
     get_supplier page page_size search w = (Ok resp, w)
     /\ field resp "suppliers" = Some (PList entries)
     /\ Forall2 (fun r e =>
                   field e "id" = Some (py_or (attr r "id") (attr r "name"))
                   /\ field e "name"
                      = Some (py_or (attr r "name")
                                    (py_or (attr r "supplier_name") (attr r "id"))))
                (take (size_of 200 page_size)
                      (get_all w (supplier_query page page_size search)))
                entries)
  /\ (has_permission w "Customer" "read" = true ->
      exists resp entries,
        get_customer page page_size search w = (Ok resp, w)
        /\ field resp "customers" = Some (PList entries)
        /\ Forall2 (fun r e =>
                      field e "id" = Some (py_or (attr r "id") (attr r "name"))
                      /\ field e "name"
                         = Some (py_or (attr r "name")
                                       (py_or (attr r "customer_name") (attr r "id"))))
                   (take (size_of 200 page_size)
                         (get_all w (customer_query page page_size search)))
                   entries)
  /\ (has_permission w "Item" "read" = true ->
      exists resp entries,
        get_items page page_size search w = (Ok resp, w)
        /\ field resp "items" = Some (PList entries)
        /\ Forall2 (fun r e =>
                      field e "id" = Some (py_or (attr r "id") (attr r "name"))
                      /\ field e "name" = Some (py_or (attr r "name") (attr r "id")))
                   (take (size_of 200 page_size)
                         (get_all w (item_query page page_size search)))
                   entries).
Proof.
  assert (Hmap : forall (entry : pydict -> pyval) (P : pydict -> pyval -> Prop)
                        (rows : list pydict),
             (forall r, P r (entry r)) -> Forall2 P rows (map entry rows)).
  { intros entry P rows HP. induction rows; cbn [map]; constructor; auto. }
  repeat split; intros Hperm.
  - rewrite get_supplier_run, Hperm. do 2 eexists. split; [reflexivity|].
    split; [reflexivity|]. apply Hmap. intros r. split; reflexivity.
  - rewrite get_customer_run, Hperm. do 2 eexists. split; [reflexivity|].
    split; [reflexivity|]. apply Hmap. intros r. split; reflexivity.
  - rewrite get_items_run, Hperm. do 2 eexists. split; [reflexivity|].
    split; [reflexivity|]. apply Hmap. intros r. split; reflexivity.
Qed.

(** X28.  [create_invoice_form] answers with the document as the insert
    returned it, not as it was prepared: the name, the header fields and
    the totals are read from the inserted document, and its rows are
    listed with their commission fields, which are None where a row has
    none.  When the insert raises, the error is the handler's and nothing
    else is done. *)
Theorem create_answers_with_the_inserted_document (w : W) (doc : pydict) :
  prepare_invoice (form_dict w) (nowtime w) = Ok doc ->
  (forall e w1,
      doc_insert doc true w = (Raise e, w1) ->
      create_invoice_form w = (Raise e, w1))
  /\ (forall inserted w1 rows commissions,
         doc_insert doc true w = (Ok inserted, w1) ->
         attr inserted "items" = PList (map PDict rows) ->
         attr inserted "commissions" = PList (map PDict commissions) ->
         exists resp items,
           create_invoice_form w = (Ok resp, w1)
           /\ field resp "name" = Some (attr inserted "name")
           /\ field resp "posting_date" = Some (attr inserted "posting_date")
           /\ field resp "supplier" = Some (attr inserted "supplier")
           /\ field resp "supplier_name" = Some (attr inserted "supplier_name")
           /\ field resp "grand_total" = Some (attr inserted "grand_total")
           /\ field resp "total_commissions_and_taxes"
              = Some (attr inserted "total_commissions_and_taxes")
           /\ field resp "pamper_commission" = Some (attr inserted "pamper_commission")
           /\ field resp "doctype" = Some (attr inserted "doctype")
           /\ field resp "items" = Some (PList items)
           /\ Forall2 (fun row item =>
                         field item "item_code" = Some (attr row "item_code")
                         /\ field item "qty" = Some (attr row "qty")
                         /\ field item "price" = Some (attr row "price")
                         /\ field item "total" = Some (attr row "total")
                         /\ field item "customer" = Some (attr row "customer")
                         /\ field item "commission" = Some (attr row "commission")
                         /\ (dict_get row "commission" = None ->
                             field item "commission" = Some PNone))
                      rows items).
Proof.
  intros Hprep.
  rewrite (create_invoice_form_inserts w doc Hprep). unfold bind, lift. split.
  - intros e w1 Hins. now rewrite Hins.
  - intros inserted w1 rows commissions Hins Hrows Hcomm. rewrite Hins.
    unfold created_response. rewrite Hrows, Hcomm. cbn [py_iter rbind].
    assert (Hitems : map_result created_item (map PDict rows)
                     = Ok (map (fun r => Fixture.value PNone (created_item (PDict r))) rows)).
    { clear. induction rows as [|r rows IH]; [reflexivity|].
      cbn [map map_result]. rewrite IH. reflexivity. }
    assert (Hcs : map_result created_commission (map PDict commissions)
                  = Ok (map (fun r => Fixture.value PNone (created_commission (PDict r)))
                            commissions)).
    { clear. induction commissions as [|r rows IH]; [reflexivity|].
      cbn [map map_result]. rewrite IH. reflexivity. }
    rewrite Hitems, Hcs. cbn [rbind].
    eexists. eexists. split; [reflexivity|].
    repeat (split; [reflexivity|]).
    clear. induction rows as [|r rows IH]; cbn [map]; constructor; [|exact IH].
    repeat split; try reflexivity.
    intros Hnone. cbn. unfold attr. now rewrite Hnone.
Qed.

End Composition.

(** *** The further properties on the sample worlds *)

Section FurtherRuns.
Import Fixture.

(** X1 on the sample world: no name, and a name that is not stored. *)
Lemma document_handlers_fail_early_witness :
  get_invoice_details "" ledger = (Raise (ValidationError "Missing invoice name"), ledger)
  /\ update_invoice "" PNone ledger = (Raise (ValidationError "Missing invoice name"), ledger)
  /\ submit_invoice "INV-7" ledger = (Raise (DoesNotExistError "INV-7"), ledger)
  /\ delete_invoice "INV-7" ledger = (Raise (DoesNotExistError "INV-7"), ledger).
Proof.
  destruct (document_handlers_fail_early ledger "" PNone) as [Hempty _].
  destruct (Hempty eq_refl) as [Hdetails [Hupdate _]].
  destruct (document_handlers_fail_early ledger "INV-7" PNone) as [_ Hmissing].
  destruct (Hmissing (DoesNotExistError "INV-7")) as [_ [_ [Hsubmit Hdelete]]];
    [discriminate | reflexivity |].
  repeat split; assumption.
Defined.

(** X3 on the sample world: the same tables with another request. *)
Lemma list_handlers_read_one_query_witness :
  fst (get_invoices PNone PNone PNone (PInt 1) (PInt 2) PNone ledger)
  = fst (get_invoices PNone PNone PNone (PInt 1) (PInt 2) PNone (posting ledger plain_payload))
  /\ fst (get_supplier (PInt 1) (PInt 2) PNone ledger)
     = fst (get_supplier (PInt 1) (PInt 2) PNone (posting ledger plain_payload)).
Proof.
  destruct (list_handlers_read_one_query ledger (posting ledger plain_payload)
              (PInt 1) (PInt 2) PNone) as [Hinvoices [Hsupplier _]].
  split; [apply Hinvoices | apply Hsupplier]; reflexivity.
Defined.

(** X4 on the sample world: page 2 of size 2 holds the third invoice and
    nothing follows. *)
Lemma unsearched_pages_are_exact_witness :
  exists invoices,
    length invoices = 1%nat
    /\ get_invoices PNone PNone PNone (PInt 2) (PInt 2) PNone ledger =
       (Ok (PDict [("invoices", PList invoices);
                   ("page", PInt 2);
                   ("page_size", PInt 2);
                   ("total_count", PInt 3);
                   ("has_more", PBool false)]), ledger).
Proof.
  destruct (unsearched_pages_are_exact ledger PNone PNone PNone (PInt 2) (PInt 2) PNone
              (table ledger "Invoice Form")) as [invoices [Hshape [_ Hrun]]];
    try reflexivity.
  - unfold amounts_convert.
    match goal with
    | |- Forall _ ?rows => let fetched := eval vm_compute in rows in change rows with fetched
    end.
    repeat (constructor; [eexists; reflexivity|]). constructor.
  - exists invoices. split; [|exact Hrun].
    apply map_result_length in Hshape. exact Hshape.
Defined.

(** X5 on the sample world: page 2 of size 2 of the items. *)
Lemma lookup_pages_are_exact_witness :
  get_items (PInt 2) (PInt 2) PNone ledger =
  (Ok (PDict [("items",
               PList [PDict [("id", PStr "TOMATO"); ("name", PStr "Tomato");
                             ("price", PInt 0)]]);
              ("page", PInt 2); ("page_size", PInt 2); ("has_more", PBool false)]), ledger)
  /\ get_supplier (PInt 1) (PInt 2) PNone ledger =
     (Ok (PDict [("suppliers",
                  PList [PDict [("id", PStr "S1"); ("name", PStr "Acme Farms")];
                         PDict [("id", PStr "S2"); ("name", PStr "Green Valley")]]);
                 ("page", PInt 1); ("page_size", PInt 2); ("has_more", PBool true)]), ledger).
Proof.
  destruct (lookup_pages_are_exact ledger (PInt 2) (PInt 2) PNone (table ledger "Item"))
    as [_ [_ Hitems]].
  destruct (lookup_pages_are_exact ledger (PInt 1) (PInt 2) PNone (table ledger "Supplier"))
    as [Hsuppliers _].
  split; [exact (Hitems eq_refl eq_refl) | exact (Hsuppliers eq_refl eq_refl)].
Defined.

(** X7 on the sample world: a search text of blanks. *)
Lemma blank_search_keeps_every_row_witness :
  get_invoices PNone PNone PNone (PInt 1) (PInt 20) (PStr "  ") ledger
  = get_invoices PNone PNone PNone (PInt 1) (PInt 20) PNone ledger.
Proof.
  apply blank_search_keeps_every_row. reflexivity.
Defined.

(** X8 on the sample world: the search text "acme" keeps one of the three
    fetched rows. *)
Lemma searched_invoices_are_the_matching_rows_witness :
  map_result shape_invoice
    (filter (invoice_matches (PStr "acme"))
            (get_all ledger (list_query PNone PNone PNone (PInt 1) (PInt 20))))
  = Ok [acme_listing]
  /\ (length [acme_listing]
      <= length (get_all ledger (list_query PNone PNone PNone (PInt 1) (PInt 20))))%nat.
Proof.
  apply (searched_invoices_are_the_matching_rows ledger ledger PNone PNone PNone
           (PInt 1) (PInt 20) (PStr "acme")
           (PDict [("invoices", PList [acme_listing]);
                   ("page", PInt 1);
                   ("page_size", PInt 20);
                   ("total_count", PInt 3);
                   ("has_more", PBool true)])).
  - reflexivity.
  - vm_compute. reflexivity.
  - reflexivity.
Defined.

(** X9 on the sample world: the invoice stored with its name only is listed
    with empty supplier fields and amount 0.0. *)
Lemma listed_invoice_follows_its_row_witness :
  get_invoices PNone PNone PNone (PInt 1) (PInt 20) PNone archive = (Ok archive_page, archive)
  /\ exists r,
       In r (get_all archive (list_query PNone PNone PNone (PInt 1) (PInt 20)))
       /\ field sparse_listing "id" = Some (attr r "name")
       /\ field sparse_listing "invoiceNumber" = Some (attr r "name")
       /\ field sparse_listing "supplierId" = Some (py_or (attr r "supplier") (PStr ""))
       /\ field sparse_listing "supplierName"
          = Some (py_or (attr r "supplier_name") (PStr ""))
       /\ field sparse_listing "date" = Some (PStr (cstr (attr r "posting_date")))
       /\ (truthy (attr r "grand_total") = false ->
           field sparse_listing "amount" = Some (PFloat 0%float))
       /\ (forall f, attr r "grand_total" = PFloat f -> float_truthy f = true ->
                     field sparse_listing "amount" = Some (PFloat f)).
Proof.
  assert (Hrun : get_invoices PNone PNone PNone (PInt 1) (PInt 20) PNone archive
                 = (Ok archive_page, archive)) by (vm_compute; reflexivity).
  split; [exact Hrun|].
  apply (listed_invoice_follows_its_row archive archive PNone PNone PNone (PInt 1) (PInt 20)
           PNone archive_page [settled_listing; sparse_listing] sparse_listing Hrun eq_refl).
  right. left. reflexivity.
Defined.

(** X10 on the sample world: the archive's grand totals are a float and
    nothing. *)
Lemma typed_rows_are_always_listed_witness :
  exists resp invoices,
    get_invoices PNone PNone PNone (PInt 1) (PInt 20) PNone archive = (Ok resp, archive)
    /\ field resp "invoices" = Some (PList invoices)
    /\ length invoices
       = length (search_rows PNone
                   (get_all archive (list_query PNone PNone PNone (PInt 1) (PInt 20)))).
Proof.
  apply typed_rows_are_always_listed; [reflexivity|].
  match goal with
  | |- Forall _ ?rows => let fetched := eval vm_compute in rows in change rows with fetched
  end.
  constructor; [right; left; eexists; reflexivity|].
  constructor; [left; reflexivity|]. constructor.
Defined.

(** X11 on the sample world. *)
Lemma item_price_is_always_zero_witness :
  field (PDict [("id", PStr "TOMATO"); ("name", PStr "Tomato"); ("price", PInt 0)]) "price"
  = Some (PInt 0)
  /\ field (answer (get_items (PInt 2) (PInt 2) PNone ledger)) "items"
     = Some (PList [PDict [("id", PStr "TOMATO"); ("name", PStr "Tomato");
                           ("price", PInt 0)]]).
Proof.
  split; [|vm_compute; reflexivity].
  apply (item_price_is_always_zero ledger ledger (PInt 2) (PInt 2) PNone
           (answer (get_items (PInt 2) (PInt 2) PNone ledger))
           [PDict [("id", PStr "TOMATO"); ("name", PStr "Tomato"); ("price", PInt 0)]]).
  - vm_compute. reflexivity.
  - vm_compute. reflexivity.
  - left. reflexivity.
Defined.

(** X12 on the sample world: the submitted invoice, and the one stored
    without a docstatus. *)
Lemma detail_status_follows_docstatus_witness :
  field (answer (get_invoice_details "INV-9" archive)) "status" = Some (PStr "submitted")
  /\ field (answer (get_invoice_details "INV-8" archive)) "status" = Some (PStr "draft").
Proof.
  destruct (detail_status_follows_docstatus archive archive "INV-9" settled_invoice
              (answer (get_invoice_details "INV-9" archive)))
    as [Hsubmitted _];
    [discriminate | reflexivity | reflexivity | vm_compute; reflexivity |].
  destruct (detail_status_follows_docstatus archive archive "INV-8" sparse_invoice
              (answer (get_invoice_details "INV-8" archive)))
    as [_ [_ [Hmissing _]]];
    [discriminate | reflexivity | reflexivity | vm_compute; reflexivity |].
  split; [apply Hsubmitted | apply Hmissing]; reflexivity.
Defined.

(** X13 on the sample world: the submitted, locked invoice is reported
    locked and still updatable, deletable and submittable. *)
Lemma detail_permission_ignores_state_witness :
  exists locked,
    locked = true
    /\ field (answer (get_invoice_details "INV-9" archive)) "is_locked" = Some (PBool locked)
    /\ field (answer (get_invoice_details "INV-9" archive)) "permission"
       = Some (PDict [("can_update", PBool true); ("can_delete", PBool true);
                      ("can_submit", PBool true); ("locked", PBool locked)])
    /\ field (answer (get_invoice_details "INV-9" archive)) "payments" = Some (PList []).
Proof.
  apply (detail_permission_ignores_state archive archive "INV-9" settled_invoice
           (answer (get_invoice_details "INV-9" archive)));
    [discriminate | reflexivity | reflexivity | vm_compute; reflexivity].
Defined.

(** X14 on the sample world: the one row of the settled invoice, whose item
    name is empty. *)
Lemma detail_items_follow_child_rows_witness :
  exists rows items,
    py_iter (match dict_get settled_invoice "items" with
             | Some v => v
             | None => PList []
             end) = Ok rows
    /\ field (answer (get_invoice_details "INV-9" archive)) "items" = Some (PList items)
    /\ Forall2 (fun row item =>
                  field item "name"
                  = Some (PStr (cstr (py_or (getattr row "item_name" (PStr ""))
                                            (getattr row "item_code" (PStr "")))))
                  /\ field item "customerId"
                     = Some (PStr (cstr (getattr row "customer" (PStr ""))))
                  /\ field item "customerName"
                     = Some (PStr (cstr (getattr row "customer" (PStr "")))))
               rows items.
Proof.
  apply (detail_items_follow_child_rows archive archive "INV-9" settled_invoice
           (answer (get_invoice_details "INV-9" archive)));
    [discriminate | reflexivity | reflexivity | vm_compute; reflexivity].
Defined.

(** X15 on the sample world: the submitted, locked invoice is updated all
    the same. *)
Lemma update_saves_the_edited_document_witness :
  update_invoice "INV-9" (PDict supplier_change) archive
  = (Ok (PDict [("name", PStr "INV-9")]), store changed_invoice archive)
  /\ get_doc (store changed_invoice archive) "Invoice Form" "INV-9" = Ok changed_invoice
  /\ attr changed_invoice "supplier" = PStr "S2".
Proof.
  destruct (update_saves_the_edited_document archive "INV-9" (PDict supplier_change)
              settled_invoice supplier_change changed_invoice)
    as [_ [_ [Hsaved _]]];
    [discriminate | reflexivity | reflexivity | reflexivity | vm_compute; reflexivity |].
  split; [|split; vm_compute; reflexivity].
  exact (Hsaved changed_invoice (store changed_invoice archive)
           (store changed_invoice archive) eq_refl eq_refl).
Defined.

(** X16 on the sample world: the supplier changes, the empty posting date
    changes nothing, and the grand total stays 10 although the items are
    replaced. *)
Lemma update_edits_only_named_fields_witness :
  apply_update settled_invoice supplier_change = Ok changed_invoice
  /\ attr changed_invoice "posting_date" = PStr "2025-08-10"
  /\ attr changed_invoice "supplier" = PStr "S2"
  /\ attr changed_invoice "supplier_name" = PStr "Acme Farms"
  /\ attr changed_invoice "grand_total" = PFloat 10%float
  /\ attr changed_invoice "lock_update" = PInt 1.
Proof.
  assert (H : apply_update settled_invoice supplier_change = Ok changed_invoice)
    by (vm_compute; reflexivity).
  destruct (update_edits_only_named_fields settled_invoice supplier_change changed_invoice H)
    as [Hdate [Hsupplier [Hname [_ Hother]]]].
  split; [exact H|].
  split; [exact Hdate|]. split; [exact Hsupplier|]. split; [exact Hname|].
  split; [exact (Hother "grand_total" ltac:(discriminate) ltac:(discriminate)
                   ltac:(discriminate) ltac:(discriminate))
         | exact (Hother "lock_update" ltac:(discriminate) ltac:(discriminate)
                    ltac:(discriminate) ltac:(discriminate))].
Defined.

(** X17 on the sample world: the one old row is gone; the two new rows keep
    the integers sent, and the second gets the total 2 * 7. *)
Lemma update_replaces_items_witness :
  attr changed_invoice "items"
  = PList [PDict [("item_code", PStr "POTATO"); ("item_name", PNone); ("qty", PInt 4);
                  ("price", PInt 3); ("total", PInt 20); ("customer", PStr "")];
           PDict [("item_code", PNone); ("item_name", PStr "Tomato"); ("qty", PInt 2);
                  ("price", PInt 7); ("total", PInt 14); ("customer", PStr "C2")]]
  /\ exists rows,
       attr changed_invoice "items" = PList (map PDict rows)
       /\ length rows = 2%nat.
Proof.
  split; [vm_compute; reflexivity|].
  destruct (update_replaces_items settled_invoice supplier_change changed_invoice
              [PDict [("item_code", PStr "POTATO"); ("qty", PInt 4); ("price", PInt 3);
                      ("total", PInt 20)];
               PDict [("item_name", PStr "Tomato"); ("quantity", PInt 2); ("price", PInt 7);
                      ("customerId", PStr "C2")]])
    as [rows [Hitems Hrows]]; [reflexivity | vm_compute; reflexivity |].
  exists rows. split; [exact Hitems|].
  apply Forall2_length in Hrows. symmetry. exact Hrows.
Defined.

(** X18 on the sample world: items that are not dicts. *)
Lemma update_failure_saves_nothing_witness :
  exists e, update_invoice "INV-9" (PDict broken_change) archive = (Raise e, archive).
Proof.
  destruct (update_failure_saves_nothing archive "INV-9" (PDict broken_change)
              settled_invoice) as [_ [_ Hbroken]];
    [discriminate | reflexivity | reflexivity |].
  apply (Hbroken broken_change [PInt 5] (PInt 5));
    [reflexivity | reflexivity | left; reflexivity | discriminate].
Defined.

(** X19 on the sample world: the submitted, locked invoice is deleted. *)
Lemma delete_runs_whatever_the_state_witness :
  delete_invoice "INV-9" archive
  = (Ok (PDict [("deleted", PBool true)]),
     snd (delete_doc "Invoice Form" "INV-9" false archive))
  /\ get_doc (snd (delete_doc "Invoice Form" "INV-9" false archive)) "Invoice Form" "INV-9"
     = Raise (DoesNotExistError "INV-9").
Proof.
  destruct (delete_runs_whatever_the_state archive "INV-9" settled_invoice)
    as [Hdeleted _]; [discriminate | reflexivity | reflexivity |].
  split; [|vm_compute; reflexivity].
  exact (Hdeleted (snd (delete_doc "Invoice Form" "INV-9" false archive))
           (snd (delete_doc "Invoice Form" "INV-9" false archive)) eq_refl eq_refl).
Defined.

(** X21 on the sample world: a payload without a supplier stores nothing. *)
Lemma rejected_payload_inserts_nothing_witness :
  create_invoice_form (posting ledger anonymous_payload)
  = (Raise (ValidationError "Missing required fields: posting_date, supplier"),
     posting ledger anonymous_payload).
Proof.
  destruct (rejected_payload_inserts_nothing (posting ledger anonymous_payload)
              anonymous_payload) as [Hmissing _]; [reflexivity|].
  apply Hmissing. right. reflexivity.
Defined.

(** X22 on the sample world: two items, two rows; the first item has a name
    only, which becomes its code as well. *)
Lemma created_rows_follow_items_witness :
  let w := posting ledger plain_payload in
  attr (prepared w) "items"
  = PList [PDict [("item_code", PStr "Tomato"); ("item_name", PStr "Tomato");
                  ("qty", PFloat 3%float); ("price", PFloat 2.5%float);
                  ("total", PFloat 7.5%float); ("customer", PStr "C1")];
           PDict [("item_code", PStr "ONION"); ("item_name", PStr "Onion");
                  ("qty", PFloat 1%float); ("price", PFloat 1%float);
                  ("total", PFloat 10%float); ("customer", PStr "C2")]]
  /\ exists data items rows,
       request_data (request w) = Ok data
       /\ attr data "items" = PList (map PDict items)
       /\ attr (prepared w) "items" = PList (map PDict rows)
       /\ length rows = length items.
Proof.
  cbv zeta. split; [vm_compute; reflexivity|].
  destruct (created_rows_follow_items (request (posting ledger plain_payload))
              (clock (posting ledger plain_payload))
              (prepared (posting ledger plain_payload)))
    as [data [items [rows [Hdata [Hitems [Hrows Hall]]]]]]; [vm_compute; reflexivity|].
  exists data, items, rows. repeat split; try assumption.
  apply Forall2_length in Hall. symmetry. exact Hall.
Defined.

(** X23 on the sample world: the sample payload sent as text and sent
    directly prepare the same document. *)
Lemma text_data_is_decoded_witness :
  prepare_invoice (fw := decoding) [("data", PStr payload_text)] "10:30:00"
  = prepare_invoice (fw := decoding) [("data", PDict plain_payload)] "10:30:00"
  /\ attr (value [] (prepare_invoice (fw := decoding) [("data", PStr payload_text)]
                       "10:30:00")) "grand_total" = PFloat 17.5%float
  /\ prepare_invoice (fw := decoding) [] "10:30:00"
     = Raise (ValidationError "Missing required fields: posting_date, supplier").
Proof.
  destruct (text_data_is_decoded (fw := decoding) [("data", PStr payload_text)] "10:30:00")
    as [Htext _].
  destruct (text_data_is_decoded (fw := decoding) [] "10:30:00") as [_ [Hnone _]].
  split; [|split; [vm_compute; reflexivity | exact (Hnone eq_refl)]].
  apply (Htext payload_text (PDict plain_payload) [("data", PDict plain_payload)]);
    [reflexivity | discriminate | reflexivity | discriminate | reflexivity].
Defined.

(** X24 on the sample world. *)
Lemma created_header_follows_payload_witness :
  let w := posting ledger plain_payload in
  exists data,
    request_data (request w) = Ok data
    /\ attr (prepared w) "doctype" = PStr "Invoice Form"
    /\ attr (prepared w) "posting_date" = attr data "posting_date"
    /\ attr (prepared w) "posting_time" = PStr (clock w)
    /\ attr (prepared w) "supplier" = attr data "supplier"
    /\ attr (prepared w) "supplier_name" = py_or (attr data "supplier_name") (PStr "")
    /\ attr (prepared w) "pamper_commission"
       = PFloat (flt (py_or (attr data "pamper_commission") (PInt 0)))
    /\ attr (prepared w) "commissions" = PList []
    /\ dict_get (prepared w) "name" = None.
Proof.
  cbv zeta.
  apply (created_header_follows_payload (request (posting ledger plain_payload))
           (clock (posting ledger plain_payload))
           (prepared (posting ledger plain_payload))).
  vm_compute. reflexivity.
Defined.

(** X25 on the sample world.  On a site whose submit raises, submitting the
    draft INV-1 raises that error and the tables are as before; on a site
    whose commit raises, the error of the commit is raised, with the world
    the submit left. *)
Lemma failed_submit_is_not_committed_witness :
  let draft := invoice "INV-1" "2025-08-11" "S3" "Delta Growers" 75%float 0 in
  (doc_submit (Framework := faulty true false) draft ledger = (Raise submit_error, ledger)
   /\ submit_invoice (fw := faulty true false) "INV-1" ledger
      = (Raise submit_error, ledger))
  /\ (doc_submit (Framework := faulty false true) draft ledger
      = (Ok (dict_set draft "docstatus" (PInt 1)), store (dict_set draft "docstatus" (PInt 1)) ledger)
     /\ db_commit (Framework := faulty false true)
          (store (dict_set draft "docstatus" (PInt 1)) ledger)
        = (Raise commit_error, store (dict_set draft "docstatus" (PInt 1)) ledger)
     /\ submit_invoice (fw := faulty false true) "INV-1" ledger
        = (Raise commit_error, store (dict_set draft "docstatus" (PInt 1)) ledger)).
Proof.
  cbv zeta. split.
  - split; [reflexivity|].
    destruct (failed_submit_is_not_committed (fw := faulty true false) ledger "INV-1"
                (invoice "INV-1" "2025-08-11" "S3" "Delta Growers" 75%float 0))
      as [Hsubmit _]; [discriminate | reflexivity | reflexivity | reflexivity |].
    exact (Hsubmit submit_error ledger eq_refl).
  - split; [reflexivity|]. split; [reflexivity|].
    destruct (failed_submit_is_not_committed (fw := faulty false true) ledger "INV-1"
                (invoice "INV-1" "2025-08-11" "S3" "Delta Growers" 75%float 0))
      as [_ Hcommit]; [discriminate | reflexivity | reflexivity | reflexivity |].
    exact (Hcommit _ commit_error _ _ eq_refl eq_refl).
Defined.

(** X26 on the sample world: with and without the search text "acme" the
    count is 3. *)
Lemma total_count_ignores_page_and_search_witness :
  field (answer (get_invoices PNone PNone PNone (PInt 1) (PInt 20) (PStr "acme") ledger))
        "total_count" = Some (PInt 3)
  /\ field (answer (get_invoices PNone PNone PNone (PInt 2) (PInt 2) PNone ledger))
           "total_count"
     = field (answer (get_invoices PNone PNone PNone (PInt 1) (PInt 20) (PStr "acme") ledger))
             "total_count".
Proof.
  change (Some (PInt 3))
    with (Some (PInt (db_count ledger "Invoice Form" (invoice_filters PNone PNone PNone)))).
  apply (total_count_ignores_page_and_search ledger ledger ledger PNone PNone PNone
           (PInt 1) (PInt 20) (PStr "acme") (PInt 2) (PInt 2) PNone
           (answer (get_invoices PNone PNone PNone (PInt 1) (PInt 20) (PStr "acme") ledger))
           (answer (get_invoices PNone PNone PNone (PInt 2) (PInt 2) PNone ledger)));
    vm_compute; reflexivity.
Defined.

(** X27 on the sample world: the first two suppliers. *)
Lemma lookup_entries_follow_rows_witness :
  exists resp entries,
    get_supplier (PInt 1) (PInt 2) PNone ledger = (Ok resp, ledger)
    /\ field resp "suppliers" = Some (PList entries)
    /\ length entries = 2%nat.
Proof.
  destruct (lookup_entries_follow_rows ledger (PInt 1) (PInt 2) PNone) as [Hsuppliers _].
  destruct (Hsuppliers eq_refl) as [resp [entries [Hrun [Hfield Hall]]]].
  exists resp, entries. split; [exact Hrun|]. split; [exact Hfield|].
  apply Forall2_length in Hall. symmetry. exact Hall.
Defined.

(** X28 on the sample world: the answer carries the name the insert gave. *)
Lemma create_answers_with_the_inserted_document_witness :
  let w := posting ledger plain_payload in
  exists resp items,
    create_invoice_form w = (Ok resp, snd (doc_insert (prepared w) true w))
    /\ field resp "name" = Some (PStr "INV-4")
    /\ field resp "items" = Some (PList items)
    /\ length items = 2%nat.
Proof.
  cbv zeta.
  destruct (create_answers_with_the_inserted_document (posting ledger plain_payload)
              (prepared (posting ledger plain_payload))) as [_ Hinserted];
    [vm_compute; reflexivity|].
  destruct (Hinserted
              (value [] (fst (doc_insert (prepared (posting ledger plain_payload)) true
                                (posting ledger plain_payload))))
              (snd (doc_insert (prepared (posting ledger plain_payload)) true
                      (posting ledger plain_payload)))
              (map created_row
                   (map (fun it => fst (total_item it)) [tomato_line; onion_line]))
              [])
    as [resp [items [Hrun [Hname [_ [_ [_ [_ [_ [_ [_ [Hitems Hall]]]]]]]]]]]];
    [reflexivity | vm_compute; reflexivity | vm_compute; reflexivity |].
  exists resp, items. split; [exact Hrun|]. split; [exact Hname|]. split; [exact Hitems|].
  apply Forall2_length in Hall. symmetry. exact Hall.
Defined.

End FurtherRuns.
